(** * Gap Filler: the frontend application, the desktop main process and
      the gap-analysis policy, embedded shallowly.

    The JavaScript under verification is the browser frontend (state,
    search history, personal notes, PDF export, API calls, search handler),
    and [checkModel] of the Electron main process.  The analysis backend
    is a separate service; its classification, scoring and aggregation
    policy is modelled from the written specification in [Module Pipeline].

    Modelling conventions.
    - A JavaScript string is its sequence of UTF-16 code units ([list N]).
    - [localStorage] is a finite map from strings to strings.
    - Every [fetch] a function performs is recorded in the world's trace,
      and the outcome of that fetch (rejection, or a response with its
      [ok] flag, status and parsed payload) is an argument of the function.
    - [JSON.stringify] is a parameter of the development.
    - DOM painting (innerHTML, classList, display toggles, timers that only
      repaint) is left out where it neither reads nor writes the modelled
      state.  Where it can throw inside a handler (the results page, the
      detail panel) the error it throws is a parameter, and where the page
      is read back after being built from markup (the boxes of the export
      dialog) the values read are a parameter. *)

From Stdlib Require Import ZArith NArith QArith Qminmax List Ascii String Lia DecimalString.
From stdpp Require Import base option list gmap strings sorting.

Local Open Scope N_scope.

(** ** JavaScript strings *)

Definition jsstring : Type := list N.

(** An ASCII literal as code units. *)
Definition u16 (s : string) : jsstring :=
  (fun a => N_of_ascii a) <$> list_ascii_of_string s.
Arguments u16 : simpl never.

(** ECMAScript WhiteSpace and LineTerminator code points, the set stripped
    by [String.prototype.trim]. All of them lie in the basic plane. *)
Definition is_white_space (c : N) : bool :=
  (c =? 0x9) || (c =? 0xA) || (c =? 0xB) || (c =? 0xC) || (c =? 0xD)
  || (c =? 0x20) || (c =? 0xA0) || (c =? 0x1680)
  || ((0x2000 <=? c) && (c <=? 0x200A))
  || (c =? 0x2028) || (c =? 0x2029) || (c =? 0x202F) || (c =? 0x205F)
  || (c =? 0x3000) || (c =? 0xFEFF).

Fixpoint trimStart (s : jsstring) : jsstring :=
  match s with
  | [] => []
  | c :: s' => if is_white_space c then trimStart s' else s
  end.

Definition trimEnd (s : jsstring) : jsstring := rev (trimStart (rev s)).

(** [s.trim()] *)
Definition trim (s : jsstring) : jsstring := trimEnd (trimStart s).

(** Truthiness of a string: [!s] holds exactly for the empty string. *)
Definition truthy_str (s : jsstring) : bool :=
  match s with [] => false | _ => true end.

Fixpoint startsWith (s p : jsstring) : bool :=
  match p, s with
  | [], _ => true
  | _ :: _, [] => false
  | a :: p', b :: s' => (a =? b) && startsWith s' p'
  end.

(** [s.includes(sub)] *)
Fixpoint includes (s sub : jsstring) : bool :=
  startsWith s sub ||
  match s with
  | [] => false
  | _ :: s' => includes s' sub
  end.

(** [s.split(sep)] for a one-unit separator. *)
Fixpoint split (sep : N) (s : jsstring) : list jsstring :=
  match s with
  | [] => [[]]
  | c :: s' =>
      if c =? sep then [] :: split sep s'
      else match split sep s' with
           | h :: t => (c :: h) :: t
           | [] => [[c]]
           end
  end.

(** [String(n)] for a non-negative integer. *)
Definition number_toString (n : N) : jsstring :=
  u16 (NilZero.string_of_uint (N.to_uint n)).

(** ** JSON values, errors, completions *)

(** Numbers are the integer-valued ones: the only numbers the modelled
    requests carry are counts and identifiers. *)
#[warnings="-register-all"]
Inductive json : Type :=
| JNull
| JBool (b : bool)
| JNum (n : Z)
| JStr (s : jsstring)
| JArr (items : list json)
| JObj (fields : list (jsstring * json)).

(** [JSON.stringify], kept abstract: every result below holds for any
    serializer. *)
Class Serializer := JSON_stringify : json -> jsstring.

(** A serializer to run the development on concrete inputs: JSON text
    without string escapes. *)
Fixpoint join_comma (parts : list jsstring) : jsstring :=
  match parts with
  | [] => []
  | [p] => p
  | p :: rest => p ++ u16 "," ++ join_comma rest
  end.

Definition quoted (s : jsstring) : jsstring := 0x22 :: s ++ [0x22].

Fixpoint print_json (v : json) : jsstring :=
  match v with
  | JNull => u16 "null"
  | JBool b => if b then u16 "true" else u16 "false"
  | JNum n => (if (n <? 0)%Z then u16 "-" else []) ++ number_toString (Z.abs_N n)
  | JStr s => quoted s
  | JArr items => u16 "[" ++ join_comma (map print_json items) ++ u16 "]"
  | JObj fields =>
      u16 "{" ++
      join_comma (map (fun kv => match kv with
                                 | (k, x) => quoted k ++ u16 ":" ++ print_json x
                                 end) fields)
      ++ u16 "}"
  end.

(** ToBoolean on JSON values. *)
Definition truthy (v : json) : bool :=
  match v with
  | JNull => false
  | JBool b => b
  | JNum n => negb (n =? 0)%Z
  | JStr s => truthy_str s
  | JArr _ | JObj _ => true
  end.

(** [o.p || d] where [None] stands for an absent property ([undefined]). *)
Definition or_default (v : option json) (d : json) : json :=
  match v with
  | Some x => if truthy x then x else d
  | None => d
  end.

(** Thrown values are [Error] objects (Error, TypeError, SyntaxError,
    DOMException); the code only ever reads their [message]. *)
Record JsError : Type := Error { message : jsstring }.

Inductive completion (A : Type) : Type :=
| Normal (a : A)
| Thrown (e : JsError).
Arguments Normal {A} a.
Arguments Thrown {A} e.

(** ** The payloads the frontend reads *)

Module SpeciesGap.
Record t : Type := mk {
  species : jsstring;
  common_name : jsstring;
  gap_count : Z;
  complete_gaps : Z;
  severe_gaps : Z;
  missing_genes : json
}.
Definition to_json (g : t) : json :=
  JObj [ (u16 "species", JStr (species g));
         (u16 "common_name", JStr (common_name g));
         (u16 "gap_count", JNum (gap_count g));
         (u16 "complete_gaps", JNum (complete_gaps g));
         (u16 "severe_gaps", JNum (severe_gaps g));
         (u16 "missing_genes", missing_genes g) ].
End SpeciesGap.

(** The object returned by [/analyze] and kept in [state.analysisResults].
    Each field is a property the frontend reads; [None] is an absent
    property. *)
Module AnalysisResults.
Record t : Type := mk {
  articles_analyzed : option Z;
  genes_found : option json;
  gene_summaries : option json;
  gaps : option (list SpeciesGap.t);
  statistics : option json;
  query : option jsstring;
  genes : option json;
  summaries : option json
}.
End AnalysisResults.

Module HistoryItem.
Record t : Type := mk {
  query : jsstring;
  sourceSpecies : jsstring;
  targetSpecies : list jsstring;
  resultsCount : Z;
  timestamp : jsstring;
  id : Z
}.
Definition to_json (h : t) : json :=
  JObj [ (u16 "query", JStr (query h));
         (u16 "sourceSpecies", JStr (sourceSpecies h));
         (u16 "targetSpecies", JArr (JStr <$> targetSpecies h));
         (u16 "resultsCount", JNum (resultsCount h));
         (u16 "timestamp", JStr (timestamp h));
         (u16 "id", JNum (id h)) ].
End HistoryItem.

(** ** The world of the frontend *)

(** The part of [state] that the modelled functions read or write. *)
Record State : Type := mkState {
  currentModel : jsstring;
  analysisResults : option AnalysisResults.t;
  searchHistory : list HistoryItem.t
}.

(** The form controls the handlers read:
    [#search-input], [#source-species], the checked boxes of
    [#target-species], [parseInt] of [#max-articles] ([None] is NaN),
    [#model-select], and the checked [export-org] boxes. *)
Record Document : Type := mkDocument {
  search_input : jsstring;
  source_species : jsstring;
  target_species_checked : list jsstring;
  max_articles : option Z;
  model_select : jsstring;
  export_org_checked : list jsstring
}.

(** [new Date().toISOString()] and [Date.now()]. *)
Record Clock : Type := mkClock {
  toISOString : jsstring;
  now : Z
}.

Inductive event : Type :=
| Alert (msg : jsstring)
| Fetch (url : jsstring) (method : jsstring) (body : option jsstring)
| Download (filename : jsstring).

Record World : Type := mkWorld {
  state : State;
  localStorage : gmap jsstring jsstring;
  document : Document;
  clock : Clock;
  trace : list event
}.

Definition set_state (f : State -> State) (w : World) : World :=
  mkWorld (f (state w)) (localStorage w) (document w) (clock w) (trace w).
Definition set_localStorage
    (f : gmap jsstring jsstring -> gmap jsstring jsstring) (w : World) : World :=
  mkWorld (state w) (f (localStorage w)) (document w) (clock w) (trace w).
Definition emit (e : event) (w : World) : World :=
  mkWorld (state w) (localStorage w) (document w) (clock w) (trace w ++ [e]).

Definition set_currentModel (m : jsstring) (s : State) : State :=
  mkState m (analysisResults s) (searchHistory s).
Definition set_analysisResults (r : option AnalysisResults.t) (s : State) : State :=
  mkState (currentModel s) r (searchHistory s).
Definition set_searchHistory (h : list HistoryItem.t) (s : State) : State :=
  mkState (currentModel s) (analysisResults s) h.

(** ** Computations: world passing with exceptions *)

Definition js (A : Type) : Type := World -> completion A * World.

Definition ret {A} (a : A) : js A := fun w => (Normal a, w).
Definition throw {A} (e : JsError) : js A := fun w => (Thrown e, w).
Definition bind {A B} (m : js A) (k : A -> js B) : js B :=
  fun w => match m w with
           | (Normal a, w') => k a w'
           | (Thrown e, w') => (Thrown e, w')
           end.
(** [try { body } catch (error) { handler }] *)
Definition try_catch {A} (body : js A) (handler : JsError -> js A) : js A :=
  fun w => match body w with
           | (Normal a, w') => (Normal a, w')
           | (Thrown e, w') => handler e w'
           end.

Notation "'let*' x ':=' m 'in' k" := (bind m (fun x => k))
  (at level 10, x pattern, m at level 100, k at level 200).
Notation "m ';;;' k" := (bind m (fun _ => k))
  (at level 100, k at level 200, right associativity).

(** The completion of a computation and the world it leaves. *)
Definition outcome {A} (m : js A) (w : World) : completion A := fst (m w).
Definition after {A} (m : js A) (w : World) : World := snd (m w).

Definition get {A} (f : World -> A) : js A := fun w => (Normal (f w), w).
Definition modify (f : World -> World) : js unit := fun w => (Normal tt, f w).
Definition alert (msg : jsstring) : js unit := modify (emit (Alert msg)).

(** ** The network *)

Record Response (A : Type) : Type := mkResponse {
  ok : bool;
  status : N;
  parsed : completion A   (* what [response.json()] / [response.blob()] settles to *)
}.
Arguments mkResponse {A} ok status parsed.
Arguments ok {A} r.
Arguments status {A} r.
Arguments parsed {A} r.

Inductive fetch_outcome (A : Type) : Type :=
| Rejects (e : JsError)
| Responds (r : Response A).
Arguments Rejects {A} e.
Arguments Responds {A} r.

Definition fetch {A} (url method : jsstring) (body : option jsstring)
    (net : fetch_outcome A) : js (Response A) :=
  modify (emit (Fetch url method body));;;
  match net with
  | Rejects e => throw e
  | Responds r => ret r
  end.

Definition settle {A} (c : completion A) : js A := fun w => (c, w).

(** The requests among some events, and the events a computation adds. *)
Definition is_fetch (e : event) : bool :=
  match e with Fetch _ _ _ => true | _ => false end.
Definition requests (evs : list event) : list event := List.filter is_fetch evs.
Definition new_events {A} (m : js A) (w : World) : list event :=
  drop (length (trace w)) (trace (after m w)).

(** The results page.  The markup that [renderStats], [renderGaps],
    [renderGenes] and [renderSummaries] build is not modelled, only whether
    building it for a payload throws, and the error thrown; every result
    below holds for any page. *)
Class ResultsView := rendering_throws : AnalysisResults.t -> option JsError.

(** ** Frontend application *)

Section Frontend.
Context {ser : Serializer} {view : ResultsView}.

Definition API_BASE : jsstring := u16 "http://127.0.0.1:5000/api".
Definition MAX_HISTORY_ITEMS : nat := 10.

Definition localStorage_getItem (key : jsstring) : js (option jsstring) :=
  get (fun w => localStorage w !! key).
Definition localStorage_setItem (key value : jsstring) : js unit :=
  modify (set_localStorage (fun m => <[key := value]> m)).
Definition localStorage_removeItem (key : jsstring) : js unit :=
  modify (set_localStorage (fun m => delete key m)).

(** *** Search history *)

Definition addToSearchHistory (query sourceSpecies : jsstring)
    (targetSpecies : list jsstring) (resultsCount : Z) : js unit :=
  let* iso := get (fun w => toISOString (clock w)) in
  let* millis := get (fun w => now (clock w)) in
  let historyItem :=
    HistoryItem.mk query sourceSpecies targetSpecies resultsCount iso millis in
  (* state.searchHistory.unshift(historyItem) *)
  modify (set_state (fun s => set_searchHistory (historyItem :: searchHistory s) s));;;
  let* h := get (fun w => searchHistory (state w)) in
  (if (MAX_HISTORY_ITEMS <? length h)%nat
   then modify (set_state (set_searchHistory (take MAX_HISTORY_ITEMS h)))
   else ret tt);;;
  let* h' := get (fun w => searchHistory (state w)) in
  localStorage_setItem (u16 "gap-filler-history")
    (JSON_stringify (JArr (HistoryItem.to_json <$> h'))).

Definition clearSearchHistory : js unit :=
  modify (set_state (set_searchHistory []));;;
  localStorage_removeItem (u16 "gap-filler-history").

(** *** Personal notes *)

Definition note_key (gene species : jsstring) : jsstring :=
  u16 "gap-filler-note-" ++ gene ++ u16 "-" ++ species.

Definition getGeneNotes (gene species : jsstring) : js jsstring :=
  let key := note_key gene species in
  let* v := localStorage_getItem key in
  ret (match v with
       | Some x => if truthy_str x then x else []
       | None => []
       end).

Definition saveGeneNote (gene species note : jsstring) : js unit :=
  let key := note_key gene species in
  if truthy_str (trim note)
  then localStorage_setItem key note
  else localStorage_removeItem key.

(** *** API functions *)

Definition apiRequest {A} (endpoint method : jsstring) (body : option jsstring)
    (net : fetch_outcome A) : js A :=
  try_catch
    (let* response := fetch (API_BASE ++ endpoint) method body net in
     if negb (ok response)
     then throw (Error (u16 "API error: " ++ number_toString (status response)))
     else settle (parsed response))
    (fun error => throw error).

(** The payload of [/models/set]. *)
Record ModelSet : Type := mkModelSet { current_model : jsstring }.

Definition setModel (modelName : jsstring) (net : fetch_outcome ModelSet) : js unit :=
  try_catch
    (let* data := apiRequest (u16 "/models/set") (u16 "POST")
                    (Some (JSON_stringify (JObj [(u16 "model", JStr modelName)]))) net in
     modify (set_state (set_currentModel (current_model data))))
    (fun _ => ret tt).

(** The object literal that [analyzeGaps] serializes. *)
Definition analyze_body (query sourceSpecies : jsstring)
    (targetSpecies : list jsstring) (maxArticles : Z) (model : jsstring) : json :=
  JObj [ (u16 "query", JStr query);
         (u16 "source_species", JStr sourceSpecies);
         (u16 "target_species", JArr (JStr <$> targetSpecies));
         (u16 "max_articles", JNum maxArticles);
         (u16 "model", if truthy_str model then JStr model else JNull) ].

Definition analyzeGaps (query sourceSpecies : jsstring)
    (targetSpecies : list jsstring) (maxArticles : Z) (model : jsstring)
    (net : fetch_outcome AnalysisResults.t) : js AnalysisResults.t :=
  apiRequest (u16 "/analyze") (u16 "POST")
    (Some (JSON_stringify
             (analyze_body query sourceSpecies targetSpecies maxArticles model)))
    net.

Definition GO_unavailable : json :=
  JObj [ (u16 "success", JBool false);
         (u16 "molecular_function", JArr []);
         (u16 "biological_process", JArr []);
         (u16 "cellular_component", JArr []);
         (u16 "pathways", JArr []) ].

Definition fetchGOTerms (gene species : jsstring) (net : fetch_outcome json) : js json :=
  try_catch
    (let* response :=
       fetch (API_BASE ++ u16 "/go-terms") (u16 "POST")
         (Some (JSON_stringify
                  (JObj [(u16 "gene", JStr gene); (u16 "species", JStr species)])))
         net in
     if negb (ok response)
     then throw (Error (u16 "Failed to fetch GO terms"))
     else settle (parsed response))
    (fun error => ret GO_unavailable).

Definition ortholog_unavailable (error : JsError) : json :=
  JObj [ (u16 "success", JBool false);
         (u16 "ortholog_found", JBool false);
         (u16 "error", JStr (message error)) ].

Definition fetchOrthologInfo (gene sourceSpecies targetSpecies : jsstring)
    (net : fetch_outcome json) : js json :=
  try_catch
    (let* response :=
       fetch (API_BASE ++ u16 "/ortholog") (u16 "POST")
         (Some (JSON_stringify
                  (JObj [ (u16 "gene", JStr gene);
                          (u16 "source_species", JStr sourceSpecies);
                          (u16 "target_species", JStr targetSpecies) ])))
         net in
     if negb (ok response)
     then throw (Error (u16 "Failed to fetch ortholog info"))
     else settle (parsed response))
    (fun error => ret (ortholog_unavailable error)).

(** *** UI updates *)

(** The payload is stored before anything is rendered. *)
Definition showResults (results : AnalysisResults.t) : js unit :=
  modify (set_state (set_analysisResults (Some results)));;;
  match rendering_throws results with
  | Some error => throw error
  | None => ret tt
  end.

(** The four status emoji, as surrogate pairs. *)
Definition red_circle : jsstring := [0xD83D; 0xDD34].
Definition orange_circle : jsstring := [0xD83D; 0xDFE0].
Definition yellow_circle : jsstring := [0xD83D; 0xDFE1].
Definition green_circle : jsstring := [0xD83D; 0xDFE2].

Definition formatGapLevel (level : jsstring) : jsstring :=
  if decide (level = u16 "complete_gap") then red_circle ++ u16 " No publications"
  else if decide (level = u16 "severe_gap") then orange_circle ++ u16 " 1-3 publications"
  else if decide (level = u16 "moderate_gap") then yellow_circle ++ u16 " 4-10 publications"
  else if decide (level = u16 "studied") then green_circle ++ u16 " Well studied"
  else level.

(** *** PDF export *)

(** The object literal that [generatePDFWithSelection] serializes. *)
Definition export_body (results : AnalysisResults.t) (doc : Document)
    (selectedOrgs : list jsstring) (filteredGaps : list SpeciesGap.t) : json :=
  JObj [ (u16 "query",
          or_default (JStr <$> AnalysisResults.query results) (JStr (search_input doc)));
         (u16 "source_species", JStr (source_species doc));
         (u16 "target_species", JArr (JStr <$> selectedOrgs));
         (u16 "gaps", JArr (SpeciesGap.to_json <$> filteredGaps));
         (u16 "genes", or_default (AnalysisResults.genes results) (JArr []));
         (u16 "summaries", or_default (AnalysisResults.summaries results) (JArr [])) ].

Definition generatePDFWithSelection (net : fetch_outcome (list N)) : js unit :=
  let* selectedOrgs := get (fun w => export_org_checked (document w)) in
  if (length selectedOrgs =? 0)%nat
  then alert (u16 "Please select at least one organism to export.")
  else
    let* res := get (fun w => analysisResults (state w)) in
    match res with
    | None =>
        (* state.analysisResults.gaps on null: a TypeError, outside the try *)
        throw (Error (u16 "Cannot read properties of null (reading 'gaps')"))
    | Some results =>
        let filteredGaps :=
          List.filter
            (fun gap => bool_decide (SpeciesGap.species gap ∈ selectedOrgs))
            (default [] (AnalysisResults.gaps results)) in
        let* doc := get document in
        try_catch
          (let* response :=
             fetch (API_BASE ++ u16 "/export/pdf") (u16 "POST")
               (Some (JSON_stringify
                        (export_body results doc selectedOrgs filteredGaps)))
               net in
           if negb (ok response)
           then throw (Error (u16 "Failed to generate PDF"))
           else
             let* blob := settle (parsed response) in
             let* iso := get (fun w => toISOString (clock w)) in
             let timestamp := take 10 iso in
             modify (emit (Download (u16 "gap_report_" ++ timestamp ++ u16 ".pdf"))))
          (fun error => alert (u16 "Failed to export PDF. Please try again."))
    end.

(** *** Event handlers *)

(** [parseInt(...) || 20] on the parsed [#max-articles]. *)
Definition requested_max_articles (w : World) : Z :=
  match max_articles (document w) with
  | Some n => if (n =? 0)%Z then 20%Z else n
  | None => 20%Z
  end.

Definition handleSearch (net : fetch_outcome AnalysisResults.t) : js unit :=
  let* raw := get (fun w => search_input (document w)) in
  let query := trim raw in
  if negb (truthy_str query)
  then alert (u16 "Please enter a search query")
  else
    let* sourceSpecies := get (fun w => source_species (document w)) in
    let* targetSpecies := get (fun w => target_species_checked (document w)) in
    let* maxArticles := get requested_max_articles in
    let* model := get (fun w => model_select (document w)) in
    if (length targetSpecies =? 0)%nat
    then alert (u16 "Please select at least one target species")
    else
      try_catch
        (let* results :=
           analyzeGaps query sourceSpecies targetSpecies maxArticles model net in
         showResults results;;;
         let gapsCount :=
           match AnalysisResults.gaps results with
           | Some gs => foldl (fun sum g => (sum + SpeciesGap.gap_count g)%Z) 0%Z gs
           | None => 0%Z
           end in
         addToSearchHistory query sourceSpecies targetSpecies gapsCount)
        (fun error => alert (u16 "Analysis failed: " ++ message error)).

(** The history invariant: at most [MAX_HISTORY_ITEMS] entries. *)
Definition history_bounded (w : World) : Prop :=
  (length (searchHistory (state w)) <= MAX_HISTORY_ITEMS)%nat.

(** What [handleSearch] validates: a query that is not blank and at least
    one checked target species. *)
Definition search_is_valid (w : World) : bool :=
  truthy_str (trim (search_input (document w)))
  && negb (length (target_species_checked (document w)) =? 0)%nat.

(** The one request [handleSearch] can issue. *)
Definition analyze_request (w : World) : event :=
  Fetch (API_BASE ++ u16 "/analyze") (u16 "POST")
    (Some (JSON_stringify
             (analyze_body (trim (search_input (document w)))
                (source_species (document w))
                (target_species_checked (document w))
                (requested_max_articles w)
                (model_select (document w))))).

Definition handleModelChange (value : jsstring) (net : fetch_outcome ModelSet) : js unit :=
  if truthy_str value then setModel value net else ret tt.

End Frontend.

(** ** Desktop main process *)

Section Desktop.

Definition OLLAMA_URL : jsstring := u16 "http://localhost:11434".

Record OllamaModel : Type := mkOllamaModel { name : jsstring }.
(** The payload of Ollama's [/api/tags]; [None] is an absent [models]. *)
Record Tags : Type := mkTags { models : option (list OllamaModel) }.

Definition checkModel (modelName : jsstring) (net : fetch_outcome Tags) : js bool :=
  try_catch
    (let* response := fetch (OLLAMA_URL ++ u16 "/api/tags") (u16 "GET") None net in
     if ok response
     then
       let* data := settle (parsed response) in
       let models := default [] (models data) in
       let base := hd [] (split 0x3A modelName) in
       ret (existsb (fun m => includes (name m) base) models)
     else ret false)
    (fun error => ret false).

(** The part of a string before its first [sep], the whole string when
    there is none; and containment as a decomposition. *)
Fixpoint before_first (sep : N) (s : jsstring) : jsstring :=
  match s with
  | [] => []
  | c :: s' => if c =? sep then [] else c :: before_first sep s'
  end.

Definition contains (s sub : jsstring) : Prop :=
  exists pre post, s = pre ++ sub ++ post.

End Desktop.

(** ** Sample inputs *)

(** An [/analyze] payload with the fields of the request/response contract:
    two genes, their summaries, and the gaps of two target species. *)
Definition sample_genes_found : json :=
  JArr [ JObj [ (u16 "name", JStr (u16 "DREB2A")); (u16 "mentions", JNum 12) ];
         JObj [ (u16 "name", JStr (u16 "CBF1")); (u16 "mentions", JNum 4) ] ].

Definition sample_gene_summaries : json :=
  JObj [ (u16 "DREB2A", JStr (u16 "Drought-responsive transcription factor.")) ].

Definition wheat_gap : SpeciesGap.t :=
  SpeciesGap.mk (u16 "Triticum aestivum") (u16 "Wheat") 2 1 1
    (JArr [ JObj [ (u16 "gene", JStr (u16 "DREB2A"));
                   (u16 "gap_level", JStr (u16 "complete_gap")) ];
            JObj [ (u16 "gene", JStr (u16 "CBF1"));
                   (u16 "gap_level", JStr (u16 "severe_gap")) ] ]).

Definition rice_gap : SpeciesGap.t :=
  SpeciesGap.mk (u16 "Oryza sativa") (u16 "Rice") 1 0 1
    (JArr [ JObj [ (u16 "gene", JStr (u16 "CBF1"));
                   (u16 "gap_level", JStr (u16 "severe_gap")) ] ]).

Definition sample_results : AnalysisResults.t :=
  AnalysisResults.mk (Some 20%Z) (Some sample_genes_found)
    (Some sample_gene_summaries) (Some [wheat_gap; rice_gap])
    (Some (JObj [ (u16 "total_gaps", JNum 3); (u16 "species_with_gaps", JNum 2) ]))
    None None None.

Definition sample_document : Document :=
  mkDocument (u16 "drought stress signaling") (u16 "Arabidopsis thaliana")
    [u16 "Triticum aestivum"; u16 "Oryza sativa"] (Some 20%Z)
    (u16 "deepseek-r1:8b") [u16 "Triticum aestivum"].

Definition sample_clock : Clock :=
  mkClock (u16 "2026-01-15T10:30:00.000Z") 1768473000000.

(** A session that has run one analysis. *)
Definition sample_world : World :=
  mkWorld (mkState (u16 "deepseek-r1:8b") (Some sample_results) [])
    ∅ sample_document sample_clock [].

(** The same session with a blank query, and with no model to select. *)
Definition blank_query_world : World :=
  mkWorld (state sample_world) ∅
    (mkDocument (u16 "   ") (u16 "Arabidopsis thaliana")
       [u16 "Triticum aestivum"] (Some 20%Z) (u16 "deepseek-r1:8b") [])
    sample_clock [].

Definition no_model_world : World :=
  mkWorld (state sample_world) ∅
    (mkDocument (u16 "drought stress signaling") (u16 "Arabidopsis thaliana")
       [u16 "Triticum aestivum"] (Some 20%Z) [] [])
    sample_clock [].

(** ** Gap analysis policy *)

(** The analysis backend is not among the JavaScript sources; the
    definitions of this module follow the written specification. *)
Module Pipeline.

Inductive GapLevel : Type := complete_gap | severe_gap | moderate_gap | studied.

#[global] Instance GapLevel_eq_dec : EqDecision GapLevel.
Proof. solve_decision. Defined.

(** The name of a level in the [gap_level] field of the [/analyze] payload. *)
Definition gap_level_name (l : GapLevel) : jsstring :=
  match l with
  | complete_gap => u16 "complete_gap"
  | severe_gap => u16 "severe_gap"
  | moderate_gap => u16 "moderate_gap"
  | studied => u16 "studied"
  end.

(** Modelled from the spec: the backend's [classify] of the Gap Classifier
    and Scorer, missing from the sources.  It is the threshold table, row by
    row; the table has no row for a negative count, where the model gives
    no level. *)
Definition classify (source_pubs target_pubs : Z) : option GapLevel :=
  if (target_pubs =? 0)%Z then Some complete_gap
  else if ((1 <=? target_pubs) && (target_pubs <=? 3))%Z then Some severe_gap
  else if ((4 <=? target_pubs) && (target_pubs <=? 10))%Z then Some moderate_gap
  else if (10 <? target_pubs)%Z then Some studied
  else None.

Record GeneCandidate : Type := mkGene {
  canonical_name : jsstring;
  mention_count : Z
}.

Record GapRecord : Type := mkGapRecord {
  gene : jsstring;
  target_species : jsstring;
  source_publications : Z;
  target_publications : Z;
  gap_level : GapLevel;
  priority_score : Q
}.

Inductive LookupStatus : Type := lookup_ok | lookup_failed.

Record SpeciesGapSummary : Type := mkSummary {
  species : jsstring;
  records : list GapRecord;
  gap_count : nat;
  complete_gaps : nat;
  severe_gaps : nat;
  status : LookupStatus
}.

(** Gene names compared code unit by code unit. *)
Fixpoint name_leb (a b : jsstring) : bool :=
  match a, b with
  | [], _ => true
  | _ :: _, [] => false
  | x :: a', y :: b' =>
      if x <? y then true else if y <? x then false else name_leb a' b'
  end.

Section Policy.
(** The tunable constants of the score: the two weights and the display
    range. *)
Variables (log_weight mention_weight : Z -> Q) (display_min display_max : Q).

Definition clip (x : Q) : Q := Qmax display_min (Qmin display_max x).

(** Modelled from the spec: the backend's priority score, missing from the
    sources: log-weighted source publications, times the mention-count
    weight, times [1 / (target_publications + 1)], clipped to the display
    range. *)
Definition score (source_pubs mentions target_pubs : Z) : Q :=
  clip (log_weight source_pubs * mention_weight mentions
        * (1 / inject_Z (target_pubs + 1)))%Q.

(** Modelled from the spec: the ordering of a species' gap records, missing
    from the sources: higher score first, ties broken by gene name. *)
Definition ranks_before (a b : GapRecord) : bool :=
  match (priority_score a ?= priority_score b)%Q with
  | Gt => true
  | Lt => false
  | Eq => name_leb (gene a) (gene b)
  end.

Fixpoint insert_ranked (x : GapRecord) (l : list GapRecord) : list GapRecord :=
  match l with
  | [] => [x]
  | y :: l' => if ranks_before x y then x :: l else y :: insert_ranked x l'
  end.

Definition rank (l : list GapRecord) : list GapRecord :=
  foldr insert_ranked [] l.

Definition outranks (a b : GapRecord) : Prop := ranks_before a b = true.

(** Modelled from the spec: one gap record per gene whose level for the
    target species is below [studied]. *)
Definition gap_record (target : jsstring) (source_pubs target_pubs : jsstring -> Z)
    (g : GeneCandidate) : option GapRecord :=
  let n := canonical_name g in
  match classify (source_pubs n) (target_pubs n) with
  | Some studied | None => None
  | Some level =>
      Some (mkGapRecord n target (source_pubs n) (target_pubs n) level
              (score (source_pubs n) (mention_count g) (target_pubs n)))
  end.

Definition tally (level : GapLevel) (rs : list GapRecord) : nat :=
  length (List.filter (fun r => bool_decide (gap_level r = level)) rs).

(** Modelled from the spec: the per-species aggregation of the pipeline,
    missing from the sources.  [cross_reference target] is the outcome of
    the Publication Cross-Referencer for one target species: the publication
    count of every gene, or [None] when the lookup failed.  A failed species
    is kept, with no gaps and the status [lookup_failed]. *)
Definition summarize (genes : list GeneCandidate) (source_pubs : jsstring -> Z)
    (cross_reference : jsstring -> option (jsstring -> Z))
    (target : jsstring) : SpeciesGapSummary :=
  match cross_reference target with
  | None => mkSummary target [] 0 0 0 lookup_failed
  | Some target_pubs =>
      let rs := rank (omap (gap_record target source_pubs target_pubs) genes) in
      mkSummary target rs (length rs) (tally complete_gap rs) (tally severe_gap rs)
        lookup_ok
  end.

Definition analyze (genes : list GeneCandidate) (source_pubs : jsstring -> Z)
    (cross_reference : jsstring -> option (jsstring -> Z))
    (targets : list jsstring) : list SpeciesGapSummary :=
  summarize genes source_pubs cross_reference <$> targets.

End Policy.

(** A sample setting of the tunables, and a sample run with three target
    species where the lookup for rice fails. *)
Definition sample_log_weight (s : Z) : Q := inject_Z (Z.log2 (s + 1)).
Definition sample_mention_weight (m : Z) : Q := inject_Z m.

Definition sample_genes : list GeneCandidate :=
  [ mkGene (u16 "DREB2A") 12; mkGene (u16 "CBF1") 4 ].

Definition sample_source_pubs (g : jsstring) : Z :=
  if decide (g = u16 "DREB2A") then 45 else 8.

Definition sample_cross_reference (t : jsstring) : option (jsstring -> Z) :=
  if decide (t = u16 "Oryza sativa") then None
  else Some (fun g => if decide (g = u16 "DREB2A") then 0 else 2)%Z.

Definition sample_targets : list jsstring :=
  [ u16 "Triticum aestivum"; u16 "Oryza sativa"; u16 "Zea mays" ].

End Pipeline.

(** * The rest of the frontend *)

(** ** More string operations *)

(** [parts.join(sep)] *)
Fixpoint join (sep : jsstring) (parts : list jsstring) : jsstring :=
  match parts with
  | [] => []
  | [p] => p
  | p :: rest => p ++ sep ++ join sep rest
  end.

(** [s.replace(pat, '')] for a string pattern: the first occurrence goes. *)
Fixpoint remove_first (pat s : jsstring) : jsstring :=
  if startsWith s pat then drop (length pat) s
  else match s with
       | [] => []
       | c :: s' => c :: remove_first pat s'
       end.

(** [String(z)] for an integer. *)
Definition integer_toString (z : Z) : jsstring :=
  (if (z <? 0)%Z then u16 "-" else []) ++ number_toString (Z.abs_N z).

(** The part of a string after its first [sep]; empty when there is none. *)
Definition after_first (sep : N) (s : jsstring) : jsstring :=
  drop (S (length (before_first sep s))) s.

(** ** The rest of [state], and the controls of the page *)

(** [state.theme] and the gene selected for the tools; [None] is [null]. *)
Record UiState : Type := mkUi {
  theme : jsstring;
  selectedGene : option jsstring;
  selectedSourceSpecies : option jsstring;
  selectedTargetSpecies : option jsstring
}.

Definition set_theme (t : jsstring) (ui : UiState) : UiState :=
  mkUi t (selectedGene ui) (selectedSourceSpecies ui) (selectedTargetSpecies ui).

Definition set_document (f : Document -> Document) (w : World) : World :=
  mkWorld (state w) (localStorage w) (f (document w)) (clock w) (trace w).

Definition set_target_species_checked (checked : list jsstring) (d : Document) : Document :=
  mkDocument (search_input d) (source_species d) checked (max_articles d)
    (model_select d) (export_org_checked d).
Definition set_export_org_checked (checked : list jsstring) (d : Document) : Document :=
  mkDocument (search_input d) (source_species d) (target_species_checked d)
    (max_articles d) (model_select d) checked.

(** Assigning [select.value]: a value that is not among the options leaves
    the select without a selection, and its value is then empty. *)
Definition select_value (options : list jsstring) (v : jsstring) : jsstring :=
  if bool_decide (v ∈ options) then v else [].

Module SavedNote.
Record t : Type := mk {
  gene : jsstring;
  species : jsstring;
  note : jsstring;
  key : jsstring
}.
End SavedNote.

Section FrontendState.
Context {ser : Serializer}.

(** *** Theme *)

(** [localStorage.getItem('gap-filler-theme') || 'dark'], the theme a page
    load starts with. *)
Definition stored_theme (w : World) : jsstring :=
  match localStorage w !! u16 "gap-filler-theme" with
  | Some t => if truthy_str t then t else u16 "dark"
  | None => u16 "dark"
  end.

Definition setTheme (t : jsstring) (ui : UiState) : js UiState :=
  localStorage_setItem (u16 "gap-filler-theme") t;;;
  ret (set_theme t ui).

Definition toggleTheme (ui : UiState) : js UiState :=
  let newTheme := if bool_decide (theme ui = u16 "dark") then u16 "light" else u16 "dark" in
  setTheme newTheme ui.

Definition initTheme (ui : UiState) : js UiState := setTheme (theme ui) ui.

(** *** Listing the notes *)

(** The keys are visited in the storage's own order, which the model takes
    from the map. *)
Definition getAllSavedNotes : js (list SavedNote.t) :=
  get (fun w =>
    omap (fun kv : jsstring * jsstring =>
            let key := kv.1 in
            if startsWith key (u16 "gap-filler-note-")
            then
              let parts := split 0x2D (remove_first (u16 "gap-filler-note-") key) in
              let gene := hd [] parts in
              let species := join (u16 "-") (tl parts) in
              Some (SavedNote.mk gene species kv.2 key)
            else None)
         (map_to_list (localStorage w))).

(** *** Search history *)

(** [boxes] are the values of the check boxes of [#target-species], in
    document order, and [options] the values of the options of
    [#source-species]. *)
Definition loadFromHistory (boxes options : list jsstring) (itemId : Z) : js unit :=
  let* h := get (fun w => searchHistory (state w)) in
  match List.find (fun h => (HistoryItem.id h =? itemId)%Z) h with
  | None => ret tt
  | Some item =>
      modify (set_document (fun d =>
        mkDocument (HistoryItem.query item)
          (select_value options (HistoryItem.sourceSpecies item))
          (List.filter (fun v => bool_decide (v ∈ HistoryItem.targetSpecies item)) boxes)
          (max_articles d) (model_select d) (export_org_checked d)))
  end.

Definition handleSelectAll (boxes : list jsstring) : js unit :=
  modify (set_document (set_target_species_checked boxes)).

Definition handleDeselectAll : js unit :=
  modify (set_document (set_target_species_checked [])).

(** [formatTimeAgo], on the two instants in milliseconds: [now] is
    [new Date()] and [then_] is [new Date(timestamp)], a valid date. *)
Definition formatTimeAgo (now then_ : Z) : jsstring :=
  let diffMs := (now - then_)%Z in
  let diffMins := (diffMs / 60000)%Z in
  let diffHours := (diffMs / 3600000)%Z in
  let diffDays := (diffMs / 86400000)%Z in
  if (diffMins <? 1)%Z then u16 "just now"
  else if (diffMins <? 60)%Z then integer_toString diffMins ++ u16 "m ago"
  else if (diffHours <? 24)%Z then integer_toString diffHours ++ u16 "h ago"
  else integer_toString diffDays ++ u16 "d ago".

End FrontendState.


Section FrontendInvariants.
Context {ser : Serializer}.

(** The persisted history mirrors the one in memory: the storage holds the
    serialization of [state.searchHistory], or nothing while the history
    is empty. *)
Definition history_mirrored (w : World) : Prop :=
  localStorage w !! u16 "gap-filler-history" =
    Some (JSON_stringify (JArr (HistoryItem.to_json <$> searchHistory (state w))))
  \/ (localStorage w !! u16 "gap-filler-history" = None
      /\ searchHistory (state w) = []).

End FrontendInvariants.


Section FrontendCalls.
Context {ser : Serializer}.

(** The error a fetch ends in when read through [apiRequest]: the
    rejection, a status that is not ok, or a payload that does not parse. *)
Definition fetch_failure {A} (net : fetch_outcome A) : option JsError :=
  match net with
  | Rejects e => Some e
  | Responds r =>
      if ok r
      then match parsed r with
           | Normal _ => None
           | Thrown e => Some e
           end
      else Some (Error (u16 "API error: " ++ number_toString (status r)))
  end.

(** [results.gaps?.reduce((sum, g) => sum + g.gap_count, 0) || 0] *)
Definition total_gap_count (results : AnalysisResults.t) : Z :=
  match AnalysisResults.gaps results with
  | Some gs => foldl (fun sum g => (sum + SpeciesGap.gap_count g)%Z) 0%Z gs
  | None => 0%Z
  end.

Definition fetchPublications (gene species : jsstring) (maxResults : Z)
    (net : fetch_outcome json) : js json :=
  apiRequest (u16 "/publications") (u16 "POST")
    (Some (JSON_stringify
             (JObj [ (u16 "gene", JStr gene);
                     (u16 "species", JStr species);
                     (u16 "max_results", JNum maxResults) ])))
    net.

End FrontendCalls.




(** ** Gene detail panels *)

(** Running a computation to its completion, thrown or not: the promise
    of a call that has been started. *)
Definition attempt {A} (m : js A) : js (completion A) :=
  fun w => (Normal (m w).1, (m w).2).

Definition rejection {A} (c : completion A) : option JsError :=
  match c with
  | Normal _ => None
  | Thrown e => Some e
  end.

Definition fulfilment {A} (c : completion A) : option A :=
  match c with
  | Normal a => Some a
  | Thrown _ => None
  end.

(** [Promise.all]: all the values, in the order of the promises, or the
    rejection that settles first; [order] lists the positions of the
    promises in the order they settle. *)
Definition Promise_all {A} (order : list nat) (promises : list (completion A))
    : completion (list A) :=
  match mapM fulfilment promises with
  | Some values => Normal values
  | None =>
      match omap (fun i => promises !! i ≫= rejection) order
            ++ omap rejection promises with
      | error :: _ => Thrown error
      | [] => Normal []
      end
  end.

(** What a detail panel holds: the placeholder it is rendered with, the
    detail of the four lookups, or an error line. *)
Inductive PanelContent : Type :=
| LoadingPubs
| PublicationDetail (sourcePubs targetPubs goTerms orthologInfo : json)
| LoadError (text : jsstring).

Record Panel : Type := mkPanel {
  displayed : bool;
  content : PanelContent
}.

Section GeneDetail.
Context {ser : Serializer}.

(** The markup [renderPublicationDetail] builds is not modelled, only
    whether it throws on the values it is given. *)
Variable render_throws : json -> json -> json -> json -> option JsError.

Definition toggleGeneDetail (order : list nat)
    (gene sourceSpecies targetSpecies : jsstring)
    (netSource netTarget netGO netOrtholog : fetch_outcome json)
    (panel : Panel) : js Panel :=
  if negb (displayed panel)
  then
    match content panel with
    | LoadingPubs =>
        let* sourcePubs := attempt (fetchPublications gene sourceSpecies 5 netSource) in
        let* targetPubs := attempt (fetchPublications gene targetSpecies 5 netTarget) in
        let* goTerms := attempt (fetchGOTerms gene sourceSpecies netGO) in
        let* orthologInfo :=
          attempt (fetchOrthologInfo gene sourceSpecies targetSpecies netOrtholog) in
        match Promise_all order [sourcePubs; targetPubs; goTerms; orthologInfo] with
        | Normal [a; b; c; d] =>
            match render_throws a b c d with
            | None => ret (mkPanel true (PublicationDetail a b c d))
            | Some error =>
                ret (mkPanel true
                       (LoadError (u16 "Failed to load data: " ++ message error)))
            end
        | Normal _ => ret (mkPanel true LoadingPubs)
        | Thrown error =>
            ret (mkPanel true (LoadError (u16 "Failed to load data: " ++ message error)))
        end
    | loaded => ret (mkPanel true loaded)
    end
  else ret (mkPanel false (content panel)).

End GeneDetail.

(** What [fetchGOTerms] and [fetchOrthologInfo] return for a fetch. *)
Definition go_terms_value (net : fetch_outcome json) : json :=
  match net with
  | Responds (mkResponse true _ (Normal payload)) => payload
  | _ => GO_unavailable
  end.

Definition ortholog_value (net : fetch_outcome json) : json :=
  match net with
  | Responds (mkResponse true _ (Normal payload)) => payload
  | Rejects error | Responds (mkResponse true _ (Thrown error)) =>
      ortholog_unavailable error
  | Responds (mkResponse false _ _) =>
      ortholog_unavailable (Error (u16 "Failed to fetch ortholog info"))
  end.

(** ** The export dialog *)

Section ExportDialog.
Context {ser : Serializer}.

(** The dialog is rebuilt from markup, with one checked box per stored gap
    whose value is written as [value="${gap.species}"].  The markup and
    its parsing by the browser are not modelled: [parsed_boxes gaps] are
    the values of the checked boxes that the parsed markup has, which are
    the species themselves only when these hold nothing that HTML reads as
    markup. *)
Variable parsed_boxes : list SpeciesGap.t -> list jsstring.

Definition openExportModal : js unit :=
  let* res := get (fun w => analysisResults (state w)) in
  match res with
  | None =>
      throw (Error (u16 "Cannot read properties of null (reading 'gaps')"))
  | Some results =>
      modify (set_document
                (set_export_org_checked
                   (parsed_boxes (default [] (AnalysisResults.gaps results)))))
  end.

Definition exportPDF : js unit :=
  let* res := get (fun w => analysisResults (state w)) in
  match res with
  | None => alert (u16 "No analysis results to export. Run a search first.")
  | Some _ => openExportModal
  end.

(** [boxes] are the values of the dialog's boxes. *)
Definition selectAllExportOrgs (boxes : list jsstring) (selectAll : bool) : js unit :=
  modify (set_document (set_export_org_checked (if selectAll then boxes else []))).

End ExportDialog.

(** ** The proposal tool *)

(** [o.p] on a parsed JSON value: [None] is [undefined], and reading a
    property of [null] throws. *)
Definition property (p : jsstring) (v : json) : completion (option json) :=
  match v with
  | JNull =>
      Thrown (Error (u16 "Cannot read properties of null (reading '" ++ p ++ u16 "')"))
  | JObj fields => Normal (snd <$> List.find (fun kv => bool_decide (kv.1 = p)) fields)
  | _ => Normal None
  end.

Definition truthy_property (v : option json) : bool :=
  match v with
  | Some x => truthy x
  | None => false
  end.

(** What the proposal pane shows. *)
Inductive ProposalView : Type :=
| ProposalText (proposal : json)
| ProposalFailed (errorMsg : json)
| ProposalNetworkError (text : jsstring).

Section Tools.
Context {ser : Serializer}.

Definition selectGeneForTools (geneName sourceSpecies targetSpecies : jsstring)
    (ui : UiState) : UiState :=
  mkUi (theme ui) (Some geneName) (Some sourceSpecies) (Some targetSpecies).

Definition renderProposalResult (data : json) : completion ProposalView :=
  match property (u16 "success") data with
  | Thrown e => Thrown e
  | Normal success =>
      match property (u16 "proposal") data with
      | Thrown e => Thrown e
      | Normal proposal =>
          if negb (truthy_property success) || negb (truthy_property proposal)
          then
            match property (u16 "error") data with
            | Thrown e => Thrown e
            | Normal error =>
                Normal (ProposalFailed
                          (or_default error (JStr (u16 "Unknown error occurred"))))
            end
          else Normal (ProposalText (default JNull proposal))
      end
  end.

Definition nullable (v : option jsstring) : json :=
  match v with
  | Some s => JStr s
  | None => JNull
  end.

(** [checkedLength] is the value of the checked [proposal-length] radio,
    if one is checked.  The result is what the pane shows, or [None] when
    the handler returned at once. *)
Definition generateProposal (checkedLength : option jsstring) (ui : UiState)
    (net : fetch_outcome json) : js (option ProposalView) :=
  match selectedGene ui with
  | None => ret None
  | Some gene =>
      if negb (truthy_str gene) then ret None
      else
        let length := default (u16 "medium") checkedLength in
        try_catch
          (let* response :=
             fetch (API_BASE ++ u16 "/proposal/generate") (u16 "POST")
               (Some (JSON_stringify
                        (JObj [ (u16 "gene", JStr gene);
                                (u16 "source_species", nullable (selectedSourceSpecies ui));
                                (u16 "target_species", nullable (selectedTargetSpecies ui));
                                (u16 "length", JStr length) ])))
               net in
           let* data := settle (parsed response) in
           let* view := settle (renderProposalResult data) in
           ret (Some view))
          (fun error => ret (Some (ProposalNetworkError (message error))))
  end.

End Tools.


(** What [apiRequest] completes with for a fetch. *)
Definition api_completion {A} (net : fetch_outcome A) : completion A :=
  match net with
  | Rejects e => Thrown e
  | Responds r =>
      if ok r then parsed r
      else Thrown (Error (u16 "API error: " ++ number_toString (status r)))
  end.



(** * The rest of the desktop main process *)

Module OllamaStatus.
Record t : Type := mk {
  installed : bool;
  running : bool;
  models : list OllamaModel
}.
End OllamaStatus.

Definition DEFAULT_MODEL : jsstring := u16 "deepseek-r1:8b-llama-distill-q4_K_M".

(** [binary_exists] is [fs.existsSync] of the platform's Ollama path, read
    only when the fetch has thrown. *)
Definition checkOllama (binary_exists : bool) (net : fetch_outcome Tags)
    : js OllamaStatus.t :=
  let* returned :=
    try_catch
      (let* response := fetch (OLLAMA_URL ++ u16 "/api/tags") (u16 "GET") None net in
       if ok response
       then
         let* data := settle (parsed response) in
         ret (Some (OllamaStatus.mk true true (default [] (models data))))
       else ret None)
      (fun error =>
         if binary_exists then ret (Some (OllamaStatus.mk true false [])) else ret None) in
  ret (default (OllamaStatus.mk false false []) returned).

(** The [check-model] handler: [checkModel(modelName || CONFIG.DEFAULT_MODEL)]. *)
Definition ipc_check_model (modelName : option jsstring) (net : fetch_outcome Tags)
    : js bool :=
  checkModel (match modelName with
              | Some m => if truthy_str m then m else DEFAULT_MODEL
              | None => DEFAULT_MODEL
              end) net.

Inductive Window : Type := InstallerWindow | MainWindow.

(** [app.whenReady]: [backend] is what [startBackend] settles to. *)
Definition whenReady (binary_exists : bool) (netStatus netModel : fetch_outcome Tags)
    (backend : completion bool) : js Window :=
  let* ollamaStatus := checkOllama binary_exists netStatus in
  let* hasModel :=
    if OllamaStatus.running ollamaStatus then checkModel DEFAULT_MODEL netModel
    else ret false in
  if negb (OllamaStatus.installed ollamaStatus)
     || negb (OllamaStatus.running ollamaStatus) || negb hasModel
  then ret InstallerWindow
  else
    let* _ := settle backend in
    ret MainWindow.

(** Stopping the backend: the command issued, if any, and the new
    [backendProcess] (the process identifier, [None] for [null]). *)
Inductive Kill : Type :=
| Taskkill (pid : N)
| Sigterm (pid : N).

Definition stopBackend (win32 : bool) (backendProcess : option N)
    : list Kill * option N :=
  match backendProcess with
  | Some pid => ([if win32 then Taskkill pid else Sigterm pid], None)
  | None => ([], None)
  end.

(** ** The progress of a model pull *)

(** A call of the progress callback.  The percentage is
    [Math.round((completed / total) * 100)], kept as its two operands. *)
Inductive Progress : Type :=
| PercentOf (completed total : json) (status : option json)
| StatusOnly (status : json).

Section PullModel.
(** [JSON.parse], [None] when it throws. *)
Variable JSON_parse : jsstring -> option json.

(** One line of the stream: a line that does not parse, or whose reading
    throws, is dropped. *)
Definition progress_of_line (line : jsstring) : option Progress :=
  match JSON_parse line with
  | None => None
  | Some data =>
      match property (u16 "total") data, property (u16 "completed") data,
            property (u16 "status") data with
      | Normal total, Normal completed, Normal status =>
          if truthy_property total && truthy_property completed
          then Some (PercentOf (default JNull completed) (default JNull total) status)
          else if truthy_property status then Some (StatusOnly (default JNull status))
          else None
      | _, _, _ => None
      end
  end.

(** The [data] handler of the stream: the callbacks for the chunk and the
    new buffer.  A chunk is taken as its text. *)
Definition on_data (buffer chunk : jsstring) : list Progress * jsstring :=
  let lines := split 0x0A (buffer ++ chunk) in
  (omap progress_of_line
     (List.filter (fun line => truthy_str (trim line)) (removelast lines)),
   List.last lines []).

(** The handler run over the chunks of a stream, from a buffer. *)
Fixpoint on_stream (buffer : jsstring) (chunks : list jsstring)
    : list Progress * jsstring :=
  match chunks with
  | [] => ([], buffer)
  | chunk :: rest =>
      let step := on_data buffer chunk in
      let more := on_stream step.2 rest in
      (step.1 ++ more.1, more.2)
  end.

End PullModel.


(** * The setup wizard (installer.js) *)

Module Installer.

(** The calls made over the bridge of the preload script. *)
Inductive IpcCall : Type :=
| CheckOllama
| CheckModel (modelName : jsstring)
| DownloadOllama
| InstallOllama (path : jsstring)
| StartOllama
| PullModel (modelName : jsstring)
| StartBackend
| FinishSetup.

(** [{ success: true, path }] or [{ success: false, error }]. *)
Inductive DownloadReply : Type :=
| Downloaded (path : jsstring)
| NotDownloaded (error : jsstring).

(** [{ success: true }] or [{ success: false, error }]. *)
Inductive Reply : Type :=
| Done
| Failed (error : jsstring).

(** What the main process answers to the calls of one listener; a [Thrown]
    answer is an [invoke] that rejects. *)
Record Replies : Type := mkReplies {
  checkOllamaReply : completion OllamaStatus.t;
  checkModelReply : completion bool;
  downloadReply : completion DownloadReply;
  installReply : completion Reply;
  startOllamaReply : completion bool;
  pullReply : completion Reply;
  startBackendReply : completion Reply;
  finishReply : completion unit
}.

(** The texts of the next button. *)
Inductive Label : Type :=
| StartLabel        (* step 1 *)
| ToInstallLabel    (* step 2 *)
| WaitLabel         (* step 3 *)
| LaunchLabel       (* step 4 *)
| RetryLabel        (* after a failed installation *)
| LaunchingLabel.   (* while the setup is finished *)

(** The script's variables, the two buttons, the error entry of the log and
    the calls made so far.  [retry] says that [btnNext.onclick] is set. *)
Record Wizard : Type := mkWizard {
  currentStep : N;
  ollamaStatus : OllamaStatus.t;
  modelInstalled : bool;
  defaultModel : jsstring;
  label : Label;
  disabled : bool;
  backVisible : bool;
  retry : bool;
  fault : option JsError;
  calls : list IpcCall
}.

Definition set_step (n : N) (z : Wizard) : Wizard :=
  mkWizard n (ollamaStatus z) (modelInstalled z) (defaultModel z) (label z)
    (disabled z) (backVisible z) (retry z) (fault z) (calls z).
Definition set_ollamaStatus (s : OllamaStatus.t) (z : Wizard) : Wizard :=
  mkWizard (currentStep z) s (modelInstalled z) (defaultModel z) (label z)
    (disabled z) (backVisible z) (retry z) (fault z) (calls z).
Definition set_modelInstalled (b : bool) (z : Wizard) : Wizard :=
  mkWizard (currentStep z) (ollamaStatus z) b (defaultModel z) (label z)
    (disabled z) (backVisible z) (retry z) (fault z) (calls z).
Definition set_next (l : Label) (d : bool) (z : Wizard) : Wizard :=
  mkWizard (currentStep z) (ollamaStatus z) (modelInstalled z) (defaultModel z) l
    d (backVisible z) (retry z) (fault z) (calls z).
Definition set_backVisible (b : bool) (z : Wizard) : Wizard :=
  mkWizard (currentStep z) (ollamaStatus z) (modelInstalled z) (defaultModel z)
    (label z) (disabled z) b (retry z) (fault z) (calls z).
Definition set_retry (b : bool) (z : Wizard) : Wizard :=
  mkWizard (currentStep z) (ollamaStatus z) (modelInstalled z) (defaultModel z)
    (label z) (disabled z) (backVisible z) b (fault z) (calls z).
Definition set_fault (e : option JsError) (z : Wizard) : Wizard :=
  mkWizard (currentStep z) (ollamaStatus z) (modelInstalled z) (defaultModel z)
    (label z) (disabled z) (backVisible z) (retry z) e (calls z).
Definition log_call (c : IpcCall) (z : Wizard) : Wizard :=
  mkWizard (currentStep z) (ollamaStatus z) (modelInstalled z) (defaultModel z)
    (label z) (disabled z) (backVisible z) (retry z) (fault z) (calls z ++ [c]).

(** Computations of the wizard: state passing with exceptions. *)
Definition wiz (A : Type) : Type := Wizard -> completion A * Wizard.

Definition pure {A} (a : A) : wiz A := fun z => (Normal a, z).
Definition raise {A} (e : JsError) : wiz A := fun z => (Thrown e, z).
Definition andThen {A B} (m : wiz A) (k : A -> wiz B) : wiz B :=
  fun z => match m z with
           | (Normal a, z') => k a z'
           | (Thrown e, z') => (Thrown e, z')
           end.
Definition catch {A} (body : wiz A) (handler : JsError -> wiz A) : wiz A :=
  fun z => match body z with
           | (Normal a, z') => (Normal a, z')
           | (Thrown e, z') => handler e z'
           end.
Definition read {A} (f : Wizard -> A) : wiz A := fun z => (Normal (f z), z).
Definition update (f : Wizard -> Wizard) : wiz unit := fun z => (Normal tt, f z).
(** [await window.gapFiller.<call>(...)] *)
Definition invoke {A} (c : IpcCall) (reply : completion A) : wiz A :=
  fun z => (reply, log_call c z).

Notation "'let+' x ':=' m 'in' k" := (andThen m (fun x => k))
  (at level 10, x pattern, m at level 100, k at level 200).
Notation "m ';+' k" := (andThen m (fun _ => k))
  (at level 100, k at level 200, right associativity).

Definition updateButtons : wiz unit :=
  let+ step := read currentStep in
  update (set_backVisible ((1 <? step) && (step <? 4)));+
  if step =? 1 then update (set_next StartLabel false)
  else if step =? 2 then update (set_next ToInstallLabel true)
  else if step =? 3 then update (set_next WaitLabel true)
  else if step =? 4 then update (set_next LaunchLabel false)
  else pure tt.

Definition goToStep (step : N) : wiz unit :=
  update (set_step step);+
  updateButtons.

Definition checkDependencies (r : Replies) : wiz unit :=
  let+ status := invoke CheckOllama (checkOllamaReply r) in
  update (set_ollamaStatus status);+
  (if OllamaStatus.installed status && OllamaStatus.running status
   then
     let+ model := read defaultModel in
     let+ found := invoke (CheckModel model) (checkModelReply r) in
     update (set_modelInstalled found)
   else pure tt);+
  update (set_next ToInstallLabel false).

(** The three messages thrown by the installation. *)
Definition download_failed (error : jsstring) : JsError :=
  Error (u16 "Ollama indirilemedi: " ++ error).
Definition install_failed (error : jsstring) : JsError :=
  Error (u16 "Ollama kurulamad" ++ [0x131] ++ u16 ": " ++ error).
Definition pull_failed (error : jsstring) : JsError :=
  Error (u16 "Model indirilemedi: " ++ error).

Definition runInstallation (r : Replies) : wiz unit :=
  update (set_fault None);+
  catch
    (let+ status := read ollamaStatus in
     (if negb (OllamaStatus.installed status)
      then
        let+ downloadResult := invoke DownloadOllama (downloadReply r) in
        match downloadResult with
        | NotDownloaded error => raise (download_failed error)
        | Downloaded path =>
            let+ installResult := invoke (InstallOllama path) (installReply r) in
            match installResult with
            | Failed error => raise (install_failed error)
            | Done => pure tt
            end
        end
      else pure tt);+
     (if negb (OllamaStatus.running status)
      then
        let+ _ := invoke StartOllama (startOllamaReply r) in
        let+ newStatus := invoke CheckOllama (checkOllamaReply r) in
        pure tt
      else pure tt);+
     let+ present := read modelInstalled in
     (if negb present
      then
        let+ model := read defaultModel in
        let+ pullResult := invoke (PullModel model) (pullReply r) in
        match pullResult with
        | Failed error => raise (pull_failed error)
        | Done => pure tt
        end
      else pure tt);+
     let+ backendResult := invoke StartBackend (startBackendReply r) in
     goToStep 4)
    (fun error =>
       update (set_fault (Some error));+
       update (set_next RetryLabel false);+
       update (set_retry true)).

Definition finishSetup (r : Replies) : wiz unit :=
  update (set_next LaunchingLabel true);+
  invoke FinishSetup (finishReply r).

Definition handleNext (r : Replies) : wiz unit :=
  let+ step := read currentStep in
  if step =? 1 then goToStep 2;+ checkDependencies r
  else if step =? 2 then goToStep 3;+ runInstallation r
  else if step =? 3 then goToStep 4
  else if step =? 4 then finishSetup r
  else pure tt.

(** A click on the next button.  A disabled button gets no click; the
    listener added at load runs first and the [onclick] handler, when set,
    after it; a rejected listener does not stop the other.  Each listener is
    taken to settle before the next one starts. *)
Definition click_next (r r' : Replies) (z : Wizard) : Wizard :=
  if disabled z then z
  else
    let z1 := (handleNext r z).2 in
    if retry z then (runInstallation r' z1).2 else z1.

(** A click on the back button, which a hidden button does not get. *)
Definition click_back (z : Wizard) : Wizard :=
  if backVisible z
  then if 1 <? currentStep z then (goToStep (currentStep z - 1) z).2 else z
  else z.

(** [Next r r']: the answers to the listener's calls and to the [onclick]
    handler's. *)
Inductive Click : Type :=
| Next (r r' : Replies)
| Back.

Definition click (c : Click) (z : Wizard) : Wizard :=
  match c with
  | Next r r' => click_next r r' z
  | Back => click_back z
  end.

(** The wizard once the page is loaded. *)
Definition loaded (model : jsstring) : Wizard :=
  (updateButtons
     (mkWizard 1 (OllamaStatus.mk false false []) false model StartLabel false false
        false None [])).2.

(** The calls a computation adds. *)
Definition new_calls {A} (m : wiz A) (z : Wizard) : list IpcCall :=
  drop (length (calls z)) (calls (m z).2).

(** Whether every step the installation has to make succeeds. *)
Definition installs (r : Replies) (z : Wizard) : bool :=
  (OllamaStatus.installed (ollamaStatus z)
   || match downloadReply r, installReply r with
      | Normal (Downloaded _), Normal Done => true
      | _, _ => false
      end)
  && (OllamaStatus.running (ollamaStatus z)
      || match startOllamaReply r, checkOllamaReply r with
         | Normal _, Normal _ => true
         | _, _ => false
         end)
  && (modelInstalled z
      || match pullReply r with Normal Done => true | _ => false end)
  && match startBackendReply r with Normal _ => true | Thrown _ => false end.

(** The step is one of the four, the back button shows on steps 2 and 3,
    and the model name is the one loaded. *)
Definition wizard_invariant (model : jsstring) (z : Wizard) : Prop :=
  (1 <= currentStep z <= 4)
  /\ backVisible z = (1 <? currentStep z) && (currentStep z <? 4)
  /\ defaultModel z = model.

End Installer.



(** ** The results page of the application *)

(** Whether building the results markup throws, and the error as V8 words
    it, the elements of the page being taken to exist.  [renderStats] and
    [renderSummaries] read the payload in ways that never throw.
    [renderGaps] maps over each gap's [missing_genes], reading [g.gene] and
    calling [g.gene.replace]; [renderGenes] slices [genes_found], maps over
    the first fifty and reads [gene.name].  The first error met, in that
    order, is the one thrown. *)
Definition first_thrown {A} (f : A -> option JsError) (l : list A) : option JsError :=
  head (omap f l).

Definition gene_item_throws (g : json) : option JsError :=
  match property (u16 "gene") g with
  | Thrown error => Some error
  | Normal None =>
      Some (Error (u16 "Cannot read properties of undefined (reading 'replace')"))
  | Normal (Some JNull) =>
      Some (Error (u16 "Cannot read properties of null (reading 'replace')"))
  | Normal (Some (JStr _)) => None
  | Normal (Some _) => Some (Error (u16 "g.gene.replace is not a function"))
  end.

Definition gap_throws (gap : SpeciesGap.t) : option JsError :=
  match or_default (Some (SpeciesGap.missing_genes gap)) (JArr []) with
  | JArr items => first_thrown gene_item_throws items
  | _ => Some (Error (u16 "(gap.missing_genes || []).map is not a function"))
  end.

Definition gene_row_throws (gene : json) : option JsError :=
  match property (u16 "name") gene with
  | Thrown error => Some error
  | Normal _ => None
  end.

Definition genes_throw (genes : option json) : option JsError :=
  match or_default genes (JArr []) with
  | JArr items => first_thrown gene_row_throws (take 50 items)
  | JStr _ => Some (Error (u16 "genes.slice(...).map is not a function"))
  | _ => Some (Error (u16 "genes.slice is not a function"))
  end.

#[global] Instance application_view : ResultsView := fun results =>
  match first_thrown gap_throws (default [] (AnalysisResults.gaps results)) with
  | Some error => Some error
  | None => genes_throw (AnalysisResults.genes_found results)
  end.

(** ** Sample inputs of the later sections *)

(** The serializer of the worked instances. *)
Definition sample_serializer : Serializer := print_json.

(** The target boxes and the source options of the search form. *)
Definition sample_boxes : list jsstring :=
  [u16 "Triticum aestivum"; u16 "Oryza sativa"; u16 "Zea mays"].
Definition sample_options : list jsstring :=
  [u16 "Arabidopsis thaliana"; u16 "Oryza sativa"].

(** The search form after the user has cleared it and picked another model. *)
Definition edited_document : Document :=
  mkDocument [] (u16 "Oryza sativa") [] (Some 20%Z) (u16 "llama3:8b") [].

(** The export dialog of results whose species are plain text: each box
    value is read back as it was written. *)
Definition plain_boxes (gaps : list SpeciesGap.t) : list jsstring :=
  SpeciesGap.species <$> gaps.

(** An [/analyze] payload whose first gap has a number for its missing
    genes. *)
Definition malformed_results : AnalysisResults.t :=
  AnalysisResults.mk (Some 20%Z) (Some sample_genes_found)
    (Some sample_gene_summaries)
    (Some [ SpeciesGap.mk (u16 "Triticum aestivum") (u16 "Wheat") 2 1 1 (JNum 5);
            rice_gap ])
    None None None None.


(** A wizard whose installation has failed while pulling the model, and
    answers with which the retried installation fails again. *)
Definition failed_wizard : Installer.Wizard :=
  Installer.mkWizard 3 (OllamaStatus.mk true true []) false DEFAULT_MODEL
    Installer.RetryLabel false true true
    (Some (Installer.pull_failed (u16 "pull failed")))
    [Installer.CheckOllama; Installer.CheckModel DEFAULT_MODEL;
     Installer.PullModel DEFAULT_MODEL].

Definition failing_replies : Installer.Replies :=
  Installer.mkReplies (Normal (OllamaStatus.mk true true [])) (Normal false)
    (Normal (Installer.Downloaded (u16 "OllamaSetup.exe"))) (Normal Installer.Done)
    (Normal true) (Normal (Installer.Failed (u16 "pull failed")))
    (Normal Installer.Done) (Normal tt).


(** ** What the handlers are expected to send and show *)

Section Expected.
Context {ser : Serializer}.
Variable render_throws : json -> json -> json -> json -> option JsError.

(** The four requests of a first expansion, in the order they are sent. *)
Definition detail_requests (gene sourceSpecies targetSpecies : jsstring) : list event :=
  [ Fetch (API_BASE ++ u16 "/publications") (u16 "POST")
      (Some (JSON_stringify
               (JObj [ (u16 "gene", JStr gene); (u16 "species", JStr sourceSpecies);
                       (u16 "max_results", JNum 5) ])));
    Fetch (API_BASE ++ u16 "/publications") (u16 "POST")
      (Some (JSON_stringify
               (JObj [ (u16 "gene", JStr gene); (u16 "species", JStr targetSpecies);
                       (u16 "max_results", JNum 5) ])));
    Fetch (API_BASE ++ u16 "/go-terms") (u16 "POST")
      (Some (JSON_stringify
               (JObj [(u16 "gene", JStr gene); (u16 "species", JStr sourceSpecies)])));
    Fetch (API_BASE ++ u16 "/ortholog") (u16 "POST")
      (Some (JSON_stringify
               (JObj [ (u16 "gene", JStr gene);
                       (u16 "source_species", JStr sourceSpecies);
                       (u16 "target_species", JStr targetSpecies) ]))) ].

(** What the panel holds after the four lookups have settled. *)
Definition loaded_content (order : list nat)
    (netSource netTarget netGO netOrtholog : fetch_outcome json) : PanelContent :=
  match Promise_all order
          [ api_completion netSource; api_completion netTarget;
            Normal (go_terms_value netGO); Normal (ortholog_value netOrtholog) ] with
  | Normal [a; b; c; d] =>
      match render_throws a b c d with
      | None => PublicationDetail a b c d
      | Some error => LoadError (u16 "Failed to load data: " ++ message error)
      end
  | Normal _ => LoadingPubs
  | Thrown error => LoadError (u16 "Failed to load data: " ++ message error)
  end.

(** The request of an export, for the results and the form of a world. *)
Definition export_request (results : AnalysisResults.t) (w : World) : event :=
  Fetch (API_BASE ++ u16 "/export/pdf") (u16 "POST")
    (Some (JSON_stringify
             (export_body results (document w) (export_org_checked (document w))
                (List.filter
                   (fun gap => bool_decide
                      (SpeciesGap.species gap ∈ export_org_checked (document w)))
                   (default [] (AnalysisResults.gaps results)))))).

End Expected.

(** Unfolding the plumbing of a computation, down to the outcome of its
    fetch. *)
Ltac unfold_js :=
  unfold try_catch, bind, fetch, bind, get, modify, alert, modify, throw, ret, settle.

(** ** Blank strings *)

Lemma trimStart_nil_iff (s : jsstring) :
  trimStart s = [] <-> forallb is_white_space s = true.
Proof.
  induction s as [|c s IH]; simpl; [tauto|].
  destruct (is_white_space c); simpl; [exact IH|].
  split; [discriminate|discriminate].
Qed.

Lemma trimStart_head (s t : jsstring) (c : N) :
  trimStart s = c :: t -> is_white_space c = false.
Proof.
  induction s as [|a s IH]; simpl; [discriminate|].
  destruct (is_white_space a) eqn:Ha; [exact IH|].
  intros [= <- _]. exact Ha.
Qed.

Lemma forallb_rev_ws (s : jsstring) :
  forallb is_white_space (rev s) = forallb is_white_space s.
Proof.
  induction s as [|a s IH]; simpl; [reflexivity|].
  rewrite forallb_app, IH. simpl. rewrite andb_true_r. apply andb_comm.
Qed.

Lemma trim_nil_iff (s : jsstring) :
  trim s = [] <-> forallb is_white_space s = true.
Proof.
  unfold trim, trimEnd. rewrite <- trimStart_nil_iff. split.
  - intros H. apply (f_equal (@rev N)) in H. rewrite rev_involutive in H.
    simpl in H. apply trimStart_nil_iff in H. rewrite forallb_rev_ws in H.
    destruct (trimStart s) as [|c t] eqn:E; [reflexivity|].
    apply trimStart_head in E. simpl in H. rewrite E in H. discriminate.
  - intros ->. reflexivity.
Qed.

(** A string is blank when [trim] leaves nothing of it. *)
Lemma truthy_trim (s : jsstring) :
  truthy_str (trim s) = existsb (fun c => negb (is_white_space c)) s.
Proof.
  destruct (trim s) as [|c t] eqn:E; simpl.
  - apply trim_nil_iff in E. symmetry. apply not_true_is_false.
    intros Hex. apply existsb_exists in Hex as (c & Hin & Hc).
    rewrite forallb_forall in E. rewrite (E c Hin) in Hc. discriminate.
  - symmetry. destruct (existsb _ s) eqn:Hex; [reflexivity|].
    assert (Hall : forallb is_white_space s = true).
    { apply forallb_forall. intros c' Hin.
      destruct (is_white_space c') eqn:Hc; [reflexivity|].
      assert (Hex' : existsb (fun c => negb (is_white_space c)) s = true).
      { apply existsb_exists. exists c'. rewrite Hc. auto. }
      congruence. }
    apply trim_nil_iff in Hall. congruence.
Qed.

Lemma existsb_nonempty {A} (f : A -> bool) (l : list A) :
  existsb f l = true -> l <> [].
Proof. destruct l; [discriminate|discriminate]. Qed.

(** ** Personal notes *)

Section Notes.
Implicit Types (gene species note : jsstring) (w : World).

Lemma saveGeneNote_storage gene species note w :
  localStorage (after (saveGeneNote gene species note) w) =
    if existsb (fun c => negb (is_white_space c)) note
    then <[note_key gene species := note]> (localStorage w)
    else delete (note_key gene species) (localStorage w).
Proof.
  unfold saveGeneNote, after. rewrite truthy_trim.
  destruct (existsb _ note); reflexivity.
Qed.

Lemma getGeneNotes_reads gene species w :
  outcome (getGeneNotes gene species) w =
    Normal (match localStorage w !! note_key gene species with
            | Some x => if truthy_str x then x else []
            | None => []
            end).
Proof. reflexivity. Qed.

(** C9. Reading a note back after saving it gives the note when it has a
    character that is not white space, and the empty string otherwise; in
    that case the entry is gone from the storage.  Saving never throws. *)
Theorem note_save_then_get gene species note w :
  let w' := after (saveGeneNote gene species note) w in
  outcome (saveGeneNote gene species note) w = Normal tt
  /\ outcome (getGeneNotes gene species) w' =
       Normal (if existsb (fun c => negb (is_white_space c)) note then note else [])
  /\ localStorage w' !! note_key gene species =
       (if existsb (fun c => negb (is_white_space c)) note then Some note else None).
Proof.
  cbv zeta. split; [|split].
  - unfold saveGeneNote, outcome. destruct (truthy_str (trim note)); reflexivity.
  - rewrite getGeneNotes_reads, saveGeneNote_storage.
    destruct (existsb _ note) eqn:Hex.
    + rewrite lookup_insert_eq.
      apply existsb_nonempty in Hex. destruct note; [contradiction|reflexivity].
    + rewrite lookup_delete_eq. reflexivity.
  - rewrite saveGeneNote_storage.
    destruct (existsb _ note); [apply lookup_insert_eq|apply lookup_delete_eq].
Qed.

End Notes.

(** ** Search history *)

Section History.
Context {ser : Serializer} {view : ResultsView}.
Implicit Types (w : World) (h : list HistoryItem.t).

Lemma addToSearchHistory_history query sourceSpecies targetSpecies resultsCount w :
  searchHistory (state (after (addToSearchHistory query sourceSpecies targetSpecies resultsCount) w)) =
    take MAX_HISTORY_ITEMS
      (HistoryItem.mk query sourceSpecies targetSpecies resultsCount
         (toISOString (clock w)) (now (clock w)) :: searchHistory (state w)).
Proof.
  unfold addToSearchHistory, after, bind, get, modify; simpl.
  destruct (MAX_HISTORY_ITEMS <? S (length (searchHistory (state w))))%nat eqn:E; simpl.
  - reflexivity.
  - apply Nat.ltb_ge in E. unfold MAX_HISTORY_ITEMS in E.
    rewrite take_ge; [reflexivity|lia].
Qed.

Lemma addToSearchHistory_returns query sourceSpecies targetSpecies resultsCount w :
  outcome (addToSearchHistory query sourceSpecies targetSpecies resultsCount) w = Normal tt.
Proof.
  unfold addToSearchHistory, outcome, bind, get, modify; simpl.
  destruct (MAX_HISTORY_ITEMS <? S (length (searchHistory (state w))))%nat; reflexivity.
Qed.

Lemma clearSearchHistory_history w :
  searchHistory (state (after clearSearchHistory w)) = [].
Proof. reflexivity. Qed.

Lemma handleSearch_history (net : fetch_outcome AnalysisResults.t) w :
  searchHistory (state (after (handleSearch net) w)) = searchHistory (state w)
  \/ exists item,
       searchHistory (state (after (handleSearch net) w)) =
         take MAX_HISTORY_ITEMS (item :: searchHistory (state w)).
Proof.
  unfold handleSearch, after, bind, get. simpl.
  destruct (trim (search_input (document w))) as [|c q]; simpl; [now left|].
  destruct (length (target_species_checked (document w)) =? 0)%nat; simpl;
    [now left|].
  unfold try_catch, bind.
  destruct (analyzeGaps _ _ _ _ _ net w) as [[results|e] w1] eqn:Ea.
  - assert (Hw1 : searchHistory (state w1) = searchHistory (state w)).
    { revert Ea. unfold analyzeGaps, apiRequest. unfold_js. simpl.
      destruct net as [e|[[] st [r|e]]]; simpl; intros [= <- <-] || intros [=];
        reflexivity. }
    unfold showResults, bind, modify. cbn [fst snd].
    destruct (rendering_throws results) as [error|]; unfold throw, ret; cbn [fst snd];
      [left; exact Hw1|right].
    match goal with
    | |- context [addToSearchHistory ?a ?b ?c ?d ?v] =>
        pose proof (addToSearchHistory_history a b c d v) as Hadd;
        pose proof (addToSearchHistory_returns a b c d v) as Hret;
        unfold after, outcome in Hadd, Hret;
        destruct (addToSearchHistory a b c d v) as [c0 w']
    end.
    cbn [fst snd] in Hadd, Hret. subst c0. cbn [fst snd]. rewrite Hadd.
    cbn [state set_state searchHistory set_analysisResults]. rewrite Hw1. eauto.
  - left.
    revert Ea. unfold analyzeGaps, apiRequest. unfold_js. simpl.
    destruct net as [e'|[[] st [r|e']]]; simpl; intros [= <- <-] || intros [=];
      reflexivity.
Qed.

(** C8. After [addToSearchHistory] the history is the new item followed by
    the previous entries, cut to [MAX_HISTORY_ITEMS]: it is bounded and
    starts with the item just added.  [clearSearchHistory] empties it, and
    [handleSearch], which adds through [addToSearchHistory], never leaves
    it longer than the bound or than it was. *)
Theorem search_history_bounded_newest_first w :
  (forall query sourceSpecies targetSpecies resultsCount,
     let item := HistoryItem.mk query sourceSpecies targetSpecies resultsCount
                   (toISOString (clock w)) (now (clock w)) in
     let w' := after (addToSearchHistory query sourceSpecies targetSpecies resultsCount) w in
     outcome (addToSearchHistory query sourceSpecies targetSpecies resultsCount) w = Normal tt
     /\ history_bounded w'
     /\ head (searchHistory (state w')) = Some item
     /\ searchHistory (state w') =
          take MAX_HISTORY_ITEMS (item :: searchHistory (state w)))
  /\ history_bounded (after clearSearchHistory w)
  /\ (forall net : fetch_outcome AnalysisResults.t,
        (length (searchHistory (state (after (handleSearch net) w)))
         <= Nat.max MAX_HISTORY_ITEMS (length (searchHistory (state w))))%nat).
Proof.
  split; [|split].
  - intros query sourceSpecies targetSpecies resultsCount. cbv zeta.
    unfold history_bounded.
    rewrite addToSearchHistory_history, addToSearchHistory_returns.
    repeat split. rewrite length_take. lia.
  - unfold history_bounded. rewrite clearSearchHistory_history. simpl. lia.
  - intros net. destruct (handleSearch_history net w) as [->|[item ->]].
    + lia.
    + rewrite length_take. lia.
Qed.

End History.

(** ** The search handler *)

Section Search.
Context {ser : Serializer} {view : ResultsView}.
Implicit Types (w : World) (net : fetch_outcome AnalysisResults.t).

Lemma new_events_emit {A} (m : js A) w evs :
  trace (after m w) = trace w ++ evs -> new_events m w = evs.
Proof.
  unfold new_events. intros ->. rewrite drop_app_length. reflexivity.
Qed.

Lemma handleSearch_blank_query net w :
  trim (search_input (document w)) = [] ->
  handleSearch net w = (Normal tt, emit (Alert (u16 "Please enter a search query")) w).
Proof.
  intros Hq. unfold handleSearch, bind, get. simpl. rewrite Hq. reflexivity.
Qed.

Lemma handleSearch_no_target net w :
  trim (search_input (document w)) <> [] ->
  target_species_checked (document w) = [] ->
  handleSearch net w =
    (Normal tt, emit (Alert (u16 "Please select at least one target species")) w).
Proof.
  intros Hq Ht. unfold handleSearch, bind, get. simpl.
  destruct (trim (search_input (document w))); [contradiction|]. simpl.
  rewrite Ht. reflexivity.
Qed.

Lemma handleSearch_valid net w :
  search_is_valid w = true ->
  exists alerts,
    trace (after (handleSearch net) w) = trace w ++ analyze_request w :: alerts
    /\ requests alerts = []
    /\ outcome (handleSearch net) w = Normal tt.
Proof.
  unfold search_is_valid. intros [Hq Ht]%andb_true_iff.
  unfold handleSearch, analyze_request, after, outcome, bind, get. simpl.
  destruct (trim (search_input (document w))) as [|c q] eqn:Eq; [discriminate|]. simpl.
  destruct (length (target_species_checked (document w)) =? 0)%nat; [discriminate|].
  unfold analyzeGaps, apiRequest, showResults, addToSearchHistory,
    localStorage_setItem. unfold_js. simpl.
  destruct net as [e|[o st [r|e]]]; simpl.
  - eexists. split; [rewrite <- app_assoc; reflexivity|split; reflexivity].
  - destruct o; simpl.
    + destruct (rendering_throws r) as [error|]; simpl.
      * eexists. split; [rewrite <- app_assoc; reflexivity|split; reflexivity].
      * destruct (MAX_HISTORY_ITEMS <? _)%nat; simpl; exists []; repeat split.
    + eexists. split; [rewrite <- app_assoc; reflexivity|split; reflexivity].
  - destruct o; simpl; eexists;
      (split; [rewrite <- app_assoc; reflexivity|split; reflexivity]).
Qed.

(** Every request [handleSearch] issues, whatever the network does. *)
Lemma handleSearch_requests net w :
  requests (new_events (handleSearch net) w) =
    if search_is_valid w then [analyze_request w] else [].
Proof.
  destruct (search_is_valid w) eqn:Hv.
  - destruct (handleSearch_valid net w Hv) as (alerts & Ht & Ha & _).
    rewrite (new_events_emit _ _ _ Ht). unfold requests in *. simpl.
    rewrite Ha. reflexivity.
  - unfold search_is_valid in Hv. apply andb_false_iff in Hv as [Hq|Ht].
    + assert (Hnil : trim (search_input (document w)) = []).
      { destruct (trim _); [reflexivity|discriminate]. }
      rewrite (new_events_emit _ w [Alert (u16 "Please enter a search query")]);
        [reflexivity|].
      unfold after. rewrite (handleSearch_blank_query net w Hnil). reflexivity.
    + apply negb_false_iff, Nat.eqb_eq, length_zero_iff_nil in Ht.
      destruct (trim (search_input (document w))) as [|c q] eqn:Eq.
      * rewrite (new_events_emit _ w [Alert (u16 "Please enter a search query")]);
          [reflexivity|].
        unfold after. rewrite (handleSearch_blank_query net w Eq). reflexivity.
      * rewrite (new_events_emit _ w
                   [Alert (u16 "Please select at least one target species")]);
          [reflexivity|].
        unfold after. rewrite (handleSearch_no_target net w); [reflexivity| |exact Ht].
        rewrite Eq. discriminate.
Qed.

(** C2. When the trimmed query is empty or no target species is checked,
    [handleSearch] shows one of its two error messages and returns: the
    world is otherwise unchanged and no request is issued. *)
Theorem handleSearch_rejects_invalid_input net w :
  trim (search_input (document w)) = [] \/ target_species_checked (document w) = [] ->
  exists msg,
    (msg = u16 "Please enter a search query"
     \/ msg = u16 "Please select at least one target species")
    /\ handleSearch net w = (Normal tt, emit (Alert msg) w)
    /\ requests (new_events (handleSearch net) w) = [].
Proof.
  intros Hbad.
  assert (Hv : search_is_valid w = false).
  { unfold search_is_valid. destruct Hbad as [-> | ->]; [reflexivity|].
    apply andb_false_r. }
  destruct (trim (search_input (document w))) as [|c q] eqn:Eq.
  - exists (u16 "Please enter a search query"). split; [now left|]. split.
    + now apply handleSearch_blank_query.
    + rewrite handleSearch_requests, Hv. reflexivity.
  - destruct Hbad as [Hq|Ht]; [discriminate|].
    exists (u16 "Please select at least one target species").
    split; [now right|]. split.
    + apply handleSearch_no_target; [rewrite Eq; discriminate|exact Ht].
    + rewrite handleSearch_requests, Hv. reflexivity.
Qed.

(** C7, as the code has it. The only [/analyze] request comes from
    [analyzeGaps]; its [model] field is the value of the model selector
    when that value is not empty and [null] otherwise, and the request
    never reads [state.currentModel]. *)
Theorem analyze_request_model_field net w :
  (forall query sourceSpecies targetSpecies maxArticles model,
     new_events (analyzeGaps query sourceSpecies targetSpecies maxArticles model net) w =
       [Fetch (API_BASE ++ u16 "/analyze") (u16 "POST")
          (Some (JSON_stringify
                   (JObj [ (u16 "query", JStr query);
                           (u16 "source_species", JStr sourceSpecies);
                           (u16 "target_species", JArr (JStr <$> targetSpecies));
                           (u16 "max_articles", JNum maxArticles);
                           (u16 "model",
                            match model with [] => JNull | _ => JStr model end) ])))])
  /\ requests (new_events (handleSearch net) w) =
       (if search_is_valid w
        then [Fetch (API_BASE ++ u16 "/analyze") (u16 "POST")
                (Some (JSON_stringify
                         (JObj [ (u16 "query", JStr (trim (search_input (document w))));
                                 (u16 "source_species", JStr (source_species (document w)));
                                 (u16 "target_species",
                                  JArr (JStr <$> target_species_checked (document w)));
                                 (u16 "max_articles", JNum (requested_max_articles w));
                                 (u16 "model",
                                  match model_select (document w) with
                                  | [] => JNull
                                  | _ => JStr (model_select (document w))
                                  end) ])))]
        else [])
  /\ (forall m,
       requests (new_events (handleSearch net) (set_state (set_currentModel m) w)) =
       requests (new_events (handleSearch net) w)).
Proof.
  split; [|split].
  - intros query sourceSpecies targetSpecies maxArticles model.
    apply new_events_emit.
    unfold analyzeGaps, apiRequest, after, analyze_body. unfold_js. simpl.
    destruct model; destruct net as [e|[o st [r|e]]]; simpl;
      try destruct o; reflexivity.
  - rewrite handleSearch_requests. unfold analyze_request, analyze_body.
    destruct (model_select (document w)); reflexivity.
  - intros m. rewrite !handleSearch_requests. reflexivity.
Qed.

End Search.

(** ** Enrichment lookups *)

Section Enrichment.
Context {ser : Serializer} {view : ResultsView}.
Implicit Types (gene species : jsstring) (net : fetch_outcome json) (w : World).

(** C4. [fetchGOTerms] and [fetchOrthologInfo] always return: the server's
    payload when the response is ok and parses, and otherwise (rejected
    fetch, status that is not ok, payload that does not parse) an object
    with [success: false] and default fields. *)
Theorem enrichment_lookups_never_throw gene species sourceSpecies targetSpecies net w :
  outcome (fetchGOTerms gene species net) w =
    Normal (match net with
            | Responds (mkResponse true _ (Normal payload)) => payload
            | _ => JObj [ (u16 "success", JBool false);
                          (u16 "molecular_function", JArr []);
                          (u16 "biological_process", JArr []);
                          (u16 "cellular_component", JArr []);
                          (u16 "pathways", JArr []) ]
            end)
  /\ outcome (fetchOrthologInfo gene sourceSpecies targetSpecies net) w =
    Normal (match net with
            | Responds (mkResponse true _ (Normal payload)) => payload
            | Rejects error | Responds (mkResponse true _ (Thrown error)) =>
                JObj [ (u16 "success", JBool false);
                       (u16 "ortholog_found", JBool false);
                       (u16 "error", JStr (message error)) ]
            | Responds (mkResponse false _ _) =>
                JObj [ (u16 "success", JBool false);
                       (u16 "ortholog_found", JBool false);
                       (u16 "error", JStr (u16 "Failed to fetch ortholog info")) ]
            end).
Proof.
  unfold fetchGOTerms, fetchOrthologInfo, outcome. unfold_js.
  split; destruct net as [e|[[] st [payload|e]]]; reflexivity.
Qed.

End Enrichment.

(** ** Model presence check *)

Section ModelCheck.
Implicit Types (s sub p : jsstring) (w : World).

Lemma startsWith_spec s p :
  startsWith s p = true <-> exists post, s = p ++ post.
Proof.
  revert s. induction p as [|a p IH]; intros s.
  - destruct s; simpl; split; eauto.
  - destruct s as [|b s]; cbn [startsWith].
    + split; [discriminate|]. intros [post Hp]. discriminate.
    + rewrite andb_true_iff, N.eqb_eq, IH. split.
      * intros [-> [post ->]]. eauto.
      * intros [post [= -> ->]]. eauto.
Qed.

Lemma includes_spec s sub :
  includes s sub = true <-> contains s sub.
Proof.
  unfold contains. induction s as [|c s IH]; cbn [includes].
  - rewrite orb_false_r, startsWith_spec. split.
    + intros [post Hp]. exists [], post. exact Hp.
    + intros (pre & post & Hp). destruct pre; [|discriminate]. eauto.
  - rewrite orb_true_iff, IH. split.
    + intros [Hs|(pre & post & ->)].
      * apply startsWith_spec in Hs as [post Hp]. exists [], post. exact Hp.
      * exists (c :: pre), post. reflexivity.
    + intros (pre & post & Hp). destruct pre as [|c' pre].
      * left. apply startsWith_spec. exists post. exact Hp.
      * right. injection Hp as _ ->. eauto.
Qed.

Lemma split_first sep s :
  hd [] (split sep s) = before_first sep s.
Proof.
  induction s as [|c s IH]; simpl; [reflexivity|].
  destruct (c =? sep); [reflexivity|].
  destruct (split sep s); simpl in *; congruence.
Qed.

(** [before_first] is the longest prefix without the separator. *)
Lemma before_first_spec sep s :
  exists rest,
    s = before_first sep s ++ rest
    /\ (sep ∉ before_first sep s)
    /\ (rest = [] \/ exists rest', rest = sep :: rest').
Proof.
  induction s as [|c s (rest & Hs & Hnot & Hrest)]; simpl.
  - exists []. repeat split; [apply not_elem_of_nil|now left].
  - destruct (c =? sep) eqn:E.
    + apply N.eqb_eq in E as ->. exists (sep :: s).
      repeat split; [apply not_elem_of_nil|right; eauto].
    + apply N.eqb_neq in E. exists rest. repeat split.
      * simpl. congruence.
      * rewrite not_elem_of_cons. split; [congruence|exact Hnot].
      * exact Hrest.
Qed.

(** C10. [checkModel] never throws; it answers true exactly when the tags
    endpoint responds ok with a payload listing a model whose name contains
    the part of [modelName] before its first colon, and false on every
    failure of the fetch. *)
Theorem checkModel_ignores_tag modelName (net : fetch_outcome Tags) w :
  (outcome (checkModel modelName net) w = Normal true <->
   exists st data m,
     net = Responds (mkResponse true st (Normal data))
     /\ m ∈ default [] (models data)
     /\ contains (name m) (before_first 0x3A modelName))
  /\ (exists answer, outcome (checkModel modelName net) w = Normal answer)
  /\ (forall error, outcome (checkModel modelName (Rejects error)) w = Normal false)
  /\ (forall st payload,
        outcome (checkModel modelName (Responds (mkResponse false st payload))) w
        = Normal false)
  /\ (forall st error,
        outcome (checkModel modelName (Responds (mkResponse true st (Thrown error)))) w
        = Normal false).
Proof.
  unfold checkModel, outcome. unfold_js.
  split; [|split; [|repeat split]].
  - destruct net as [e|[[] st [data|e]]]; simpl.
    + split; [discriminate|]. intros (? & ? & ? & [=] & _).
    + rewrite split_first. split.
      * intros [= Hex]. apply existsb_exists in Hex as (m & Hin & Hinc).
        exists st, data, m. repeat split.
        -- apply list_elem_of_In. exact Hin.
        -- apply includes_spec. exact Hinc.
      * intros (st' & data' & m & [= -> ->] & Hin & Hc). f_equal.
        apply existsb_exists. exists m. split.
        -- apply list_elem_of_In. exact Hin.
        -- apply includes_spec. exact Hc.
    + split; [discriminate|]. intros (? & ? & ? & [=] & _).
    + split; [discriminate|]. intros (? & ? & ? & [=] & _).
    + split; [discriminate|]. intros (? & ? & ? & [=] & _).
  - destruct net as [e|[[] st [data|e]]]; simpl; eauto.
Qed.

End ModelCheck.

(** ** PDF export *)

Section PdfExport.
Context {ser : Serializer} {view : ResultsView}.
Implicit Types (w : World) (net : fetch_outcome (list N)).

(** With an organism selected and results in the state, the export posts
    one request whose body is the literal of [export_body]: the gaps are
    the stored ones whose species is selected, while [genes] and
    [summaries] are read from the properties of those names. *)
Lemma generatePDF_request net w results :
  export_org_checked (document w) <> [] ->
  analysisResults (state w) = Some results ->
  requests (new_events (generatePDFWithSelection net) w) =
    [Fetch (API_BASE ++ u16 "/export/pdf") (u16 "POST")
       (Some (JSON_stringify
                (JObj [ (u16 "query",
                         or_default (JStr <$> AnalysisResults.query results)
                           (JStr (search_input (document w))));
                        (u16 "source_species", JStr (source_species (document w)));
                        (u16 "target_species",
                         JArr (JStr <$> export_org_checked (document w)));
                        (u16 "gaps",
                         JArr (SpeciesGap.to_json <$>
                               List.filter
                                 (fun gap => bool_decide
                                    (SpeciesGap.species gap ∈ export_org_checked (document w)))
                                 (default [] (AnalysisResults.gaps results))));
                        (u16 "genes",
                         or_default (AnalysisResults.genes results) (JArr []));
                        (u16 "summaries",
                         or_default (AnalysisResults.summaries results) (JArr [])) ])))].
Proof.
  intros Hsel Hres.
  assert (Hev : exists rest,
             trace (after (generatePDFWithSelection net) w) =
               trace w ++ Fetch (API_BASE ++ u16 "/export/pdf") (u16 "POST")
                 (Some (JSON_stringify
                          (export_body results (document w)
                             (export_org_checked (document w))
                             (List.filter
                                (fun gap => bool_decide
                                   (SpeciesGap.species gap ∈ export_org_checked (document w)))
                                (default [] (AnalysisResults.gaps results))))))
                 :: rest
             /\ requests rest = []).
  { unfold generatePDFWithSelection, after, bind, get. simpl.
    destruct (export_org_checked (document w)) as [|o os] eqn:Eo; [contradiction|].
    simpl. rewrite Hres.
    unfold_js. simpl.
    destruct net as [e|[[] st [blob|e]]]; simpl; eexists;
      (split; [rewrite <- app_assoc; reflexivity|reflexivity]). }
  destruct Hev as (rest & Ht & Hr).
  rewrite (new_events_emit _ _ _ Ht). unfold requests in *. simpl. rewrite Hr.
  reflexivity.
Qed.

End PdfExport.

(** C3, on the sample session: the stored results list two genes and one
    summary under [genes_found] and [gene_summaries], as [showResults]
    reads them, yet the export posts empty [genes] and [summaries]; the
    gaps are the selected species' ones. *)
Theorem export_drops_genes_and_summaries :
  AnalysisResults.genes_found sample_results = Some sample_genes_found
  /\ AnalysisResults.gene_summaries sample_results = Some sample_gene_summaries
  /\ requests (new_events
                 (generatePDFWithSelection (ser := print_json)
                    (Responds (mkResponse true 200 (Normal []))))
                 sample_world) =
     [Fetch (API_BASE ++ u16 "/export/pdf") (u16 "POST")
        (Some (print_json
                 (JObj [ (u16 "query", JStr (u16 "drought stress signaling"));
                         (u16 "source_species", JStr (u16 "Arabidopsis thaliana"));
                         (u16 "target_species", JArr [JStr (u16 "Triticum aestivum")]);
                         (u16 "gaps", JArr [SpeciesGap.to_json wheat_gap]);
                         (u16 "genes", JArr []);
                         (u16 "summaries", JArr []) ])))].
Proof.
  split; [reflexivity|split; [reflexivity|]].
  rewrite (generatePDF_request _ sample_world sample_results);
    [|discriminate|reflexivity].
  repeat f_equal.
Qed.

(** ** Gap classification and its display *)

Section Classification.
Import Pipeline.
Local Open Scope Z_scope.

Lemma classify_cases (s t : Z) :
  classify s t =
    if decide (t = 0) then Some complete_gap
    else if decide (1 <= t <= 3) then Some severe_gap
    else if decide (4 <= t <= 10) then Some moderate_gap
    else if decide (10 < t) then Some studied
    else None.
Proof.
  unfold classify.
  destruct (Z.eqb_spec t 0), (Z.leb_spec 1 t), (Z.leb_spec t 3),
    (Z.leb_spec 4 t), (Z.leb_spec t 10), (Z.ltb_spec 10 t);
    repeat case_decide; simpl; try reflexivity; lia.
Qed.

Lemma classify_total_on_counts (s t : Z) :
  0 <= t -> is_Some (classify s t).
Proof.
  intros Ht. rewrite classify_cases. repeat case_decide; eauto. lia.
Qed.

(** C1. The level depends on the target count alone and follows the four
    thresholds; [formatGapLevel] labels the four level names with the same
    publication ranges and leaves any other string as it is. *)
Theorem classification_and_display :
  (forall s s' t, classify s t = classify s' t)
  /\ (forall s t, classify s t = Some complete_gap <-> t = 0)
  /\ (forall s t, classify s t = Some severe_gap <-> 1 <= t <= 3)
  /\ (forall s t, classify s t = Some moderate_gap <-> 4 <= t <= 10)
  /\ (forall s t, classify s t = Some studied <-> t > 10)
  /\ formatGapLevel (gap_level_name complete_gap) = red_circle ++ u16 " No publications"
  /\ formatGapLevel (gap_level_name severe_gap) = orange_circle ++ u16 " 1-3 publications"
  /\ formatGapLevel (gap_level_name moderate_gap) = yellow_circle ++ u16 " 4-10 publications"
  /\ formatGapLevel (gap_level_name studied) = green_circle ++ u16 " Well studied"
  /\ (forall level,
        formatGapLevel level = level \/ exists l, level = gap_level_name l).
Proof.
  split; [reflexivity|].
  do 4 (split; [intros s t; rewrite classify_cases; repeat case_decide;
                (split; intros Hx; [try discriminate Hx; lia
                                   |try reflexivity; lia])|]).
  do 4 (split; [reflexivity|]).
  intros level. unfold formatGapLevel.
  repeat case_decide; subst;
    [right; exists complete_gap|right; exists severe_gap
    |right; exists moderate_gap|right; exists studied|left]; reflexivity.
Qed.

End Classification.

(** ** Aggregation per target species *)

Section Containment.
Import Pipeline.
Variables (log_weight mention_weight : Z -> Q) (display_min display_max : Q).
Variables (genes : list GeneCandidate) (source_pubs : jsstring -> Z).
Variable cross_reference : jsstring -> option (jsstring -> Z).

Local Abbreviation summary_of :=
  (summarize log_weight mention_weight display_min display_max
     genes source_pubs cross_reference).
Local Abbreviation analysis_of :=
  (analyze log_weight mention_weight display_min display_max
     genes source_pubs cross_reference).

Lemma analyze_species (targets : list jsstring) :
  species <$> analysis_of targets = targets.
Proof.
  unfold analyze. rewrite <- list_fmap_compose.
  induction targets as [|t ts IH]; simpl; [reflexivity|]. f_equal; [|exact IH].
  unfold summarize. destruct (cross_reference t); reflexivity.
Qed.

Lemma summarize_failed (t : jsstring) :
  cross_reference t = None ->
  summary_of t = mkSummary t [] 0 0 0 lookup_failed.
Proof. intros Hf. unfold summarize. rewrite Hf. reflexivity. Qed.

Lemma summarize_ok (t : jsstring) :
  cross_reference t <> None ->
  species (summary_of t) = t
  /\ status (summary_of t) = lookup_ok
  /\ gap_count (summary_of t) = length (records (summary_of t)).
Proof.
  intros Hok. unfold summarize.
  destruct (cross_reference t); [|contradiction]. repeat split.
Qed.

Lemma summarize_own_lookup (t : jsstring) (other : jsstring -> option (jsstring -> Z)) :
  other t = cross_reference t ->
  summarize log_weight mention_weight display_min display_max genes source_pubs other t
  = summary_of t.
Proof. intros Heq. unfold summarize. rewrite Heq. reflexivity. Qed.

(** C6. When the cross-referencer fails for one target species and
    succeeds for the others, the result lists every target species in
    order; the failed one is there with no gap records, zero counts and the
    status [lookup_failed].  Each other species is there with the status
    [lookup_ok] and exactly the summary of its own lookup: its ranked gap
    records, their number and the tallies of the two levels.  The failure
    is contained: at the place of every other species the result holds the
    entry it holds in any run that differs only in the lookup of the failed
    species, in particular in the run where that lookup succeeds. *)
Theorem partial_failure_is_contained (targets : list jsstring) (failed : jsstring) :
  failed ∈ targets ->
  cross_reference failed = None ->
  (forall t, t ∈ targets -> t <> failed -> cross_reference t <> None) ->
  species <$> analyze log_weight mention_weight display_min display_max
                genes source_pubs cross_reference targets = targets
  /\ mkSummary failed [] 0 0 0 lookup_failed
       ∈ analyze log_weight mention_weight display_min display_max
           genes source_pubs cross_reference targets
  /\ (forall i t, targets !! i = Some t -> t <> failed ->
        exists target_pubs,
          cross_reference t = Some target_pubs
          /\ analyze log_weight mention_weight display_min display_max
               genes source_pubs cross_reference targets !! i =
             Some (let rs :=
                     rank (omap (gap_record log_weight mention_weight
                                   display_min display_max t source_pubs target_pubs)
                             genes) in
                   mkSummary t rs (length rs) (tally complete_gap rs)
                     (tally severe_gap rs) lookup_ok))
  /\ (forall (other : jsstring -> option (jsstring -> Z)) i t,
        (forall t', t' <> failed -> other t' = cross_reference t') ->
        targets !! i = Some t -> t <> failed ->
        analyze log_weight mention_weight display_min display_max
          genes source_pubs other targets !! i =
        analyze log_weight mention_weight display_min display_max
          genes source_pubs cross_reference targets !! i)
  /\ lookup_failed <> lookup_ok.
Proof.
  intros Hin Hfail Hothers. split; [apply analyze_species|]. split; [|split; [|split]].
  - rewrite <- (summarize_failed failed Hfail).
    unfold analyze. apply list_elem_of_fmap. eauto.
  - intros i t Hi Hne.
    assert (Ht : t ∈ targets) by (eapply list_elem_of_lookup_2; exact Hi).
    destruct (cross_reference t) as [target_pubs|] eqn:Ecr;
      [|exfalso; exact (Hothers t Ht Hne Ecr)].
    exists target_pubs. split; [reflexivity|].
    unfold analyze. rewrite list_lookup_fmap, Hi. cbn [fmap option_fmap option_map].
    unfold summarize. rewrite Ecr. reflexivity.
  - intros other i t Hagree Hi Hne.
    unfold analyze. rewrite !list_lookup_fmap, Hi. cbn [fmap option_fmap option_map].
    f_equal. apply summarize_own_lookup, Hagree, Hne.
  - discriminate.
Qed.

End Containment.

(** ** Priority score and ranking *)

Section Ranking.
Import Pipeline.
Implicit Types (a b c : GapRecord) (l : list GapRecord).

Lemma name_leb_total (x y : jsstring) :
  name_leb x y = false -> name_leb y x = true.
Proof.
  revert y. induction x as [|c x IH]; intros [|d y]; simpl; try congruence.
  destruct (N.ltb_spec c d), (N.ltb_spec d c); try congruence; try lia.
  apply IH.
Qed.

Lemma name_leb_trans (x y z : jsstring) :
  name_leb x y = true -> name_leb y z = true -> name_leb x z = true.
Proof.
  revert y z. induction x as [|c x IH]; intros [|d y] [|e z]; simpl; try congruence.
  destruct (N.ltb_spec c d), (N.ltb_spec d c), (N.ltb_spec d e), (N.ltb_spec e d),
    (N.ltb_spec c e), (N.ltb_spec e c); try congruence; try lia.
  apply IH.
Qed.

Lemma name_leb_antisym (x y : jsstring) :
  name_leb x y = true -> name_leb y x = true -> x = y.
Proof.
  revert y. induction x as [|c x IH]; intros [|d y]; simpl; try congruence.
  destruct (N.ltb_spec c d), (N.ltb_spec d c); try congruence; try lia.
  intros Hxy Hyx. f_equal; [lia|apply IH; assumption].
Qed.

Lemma ranks_before_total a b :
  ranks_before a b = false -> ranks_before b a = true.
Proof.
  unfold ranks_before. rewrite <- (Qcompare_antisym (priority_score a)).
  destruct (priority_score a ?= priority_score b)%Q; simpl;
    [apply name_leb_total|reflexivity|discriminate].
Qed.

#[local] Instance outranks_trans : Transitive outranks.
Proof.
  intros a b c. unfold outranks, ranks_before.
  destruct (Qcompare_spec (priority_score a) (priority_score b)) as [Hab|Hab|Hab];
    destruct (Qcompare_spec (priority_score b) (priority_score c)) as [Hbc|Hbc|Hbc];
    try discriminate; intros H1 H2.
  - rewrite (proj1 (Qeq_alt _ _)); [|rewrite Hab; exact Hbc].
    eapply name_leb_trans; eassumption.
  - rewrite (proj1 (Qgt_alt _ _)); [reflexivity|]. rewrite Hab. exact Hbc.
  - rewrite (proj1 (Qgt_alt _ _)); [reflexivity|]. rewrite <- Hbc. exact Hab.
  - rewrite (proj1 (Qgt_alt _ _)); [reflexivity|]. eapply Qlt_trans; eassumption.
Qed.

Lemma insert_ranked_perm a l : insert_ranked a l ≡ₚ a :: l.
Proof.
  induction l as [|b l IH]; simpl; [reflexivity|].
  destruct (ranks_before a b); [reflexivity|].
  rewrite IH. apply Permutation_swap.
Qed.

Lemma rank_perm l : rank l ≡ₚ l.
Proof.
  induction l as [|a l IH]; simpl; [reflexivity|].
  rewrite insert_ranked_perm, IH. reflexivity.
Qed.

Lemma insert_ranked_sorted a l :
  StronglySorted outranks l -> StronglySorted outranks (insert_ranked a l).
Proof.
  induction 1 as [|b l Hl IH Hb]; simpl.
  - repeat constructor.
  - destruct (ranks_before a b) eqn:E.
    + constructor; [constructor; assumption|].
      constructor; [exact E|].
      eapply Forall_impl; [exact Hb|]. intros c Hc. etransitivity; eassumption.
    + constructor; [exact IH|].
      rewrite insert_ranked_perm. constructor; [|exact Hb].
      apply ranks_before_total. exact E.
Qed.

Lemma rank_sorted l : StronglySorted outranks (rank l).
Proof.
  induction l as [|a l IH]; simpl; [constructor|].
  apply insert_ranked_sorted. exact IH.
Qed.

Lemma sorted_lookup l (i j : nat) a b :
  StronglySorted outranks l -> (i < j)%nat ->
  l !! i = Some a -> l !! j = Some b -> outranks a b.
Proof.
  intros Hs. revert i j. induction Hs as [|c l Hl IH Hc]; intros i j Hij Ha Hb.
  - discriminate.
  - destruct j as [|j]; [lia|]. simpl in Hb. destruct i as [|i]; simpl in Ha.
    + injection Ha as ->. rewrite Forall_forall in Hc. apply Hc.
      eapply list_elem_of_lookup_2. exact Hb.
    + apply (IH i j); [lia|assumption..].
Qed.

Lemma same_gene_same_record l a b :
  NoDup (gene <$> l) -> a ∈ l -> b ∈ l -> gene a = gene b -> a = b.
Proof.
  induction l as [|c l IH]; simpl; intros Hnd Ha Hb Hg.
  - inversion Ha.
  - apply NoDup_cons in Hnd as [Hc Hnd].
    apply elem_of_cons in Ha as [->|Ha]; apply elem_of_cons in Hb as [->|Hb].
    + reflexivity.
    + exfalso. apply Hc. rewrite Hg. apply list_elem_of_fmap. eauto.
    + exfalso. apply Hc. rewrite <- Hg. apply list_elem_of_fmap. eauto.
    + apply IH; assumption.
Qed.

Lemma outranks_antisym a b :
  outranks a b -> outranks b a -> gene a = gene b.
Proof.
  unfold outranks, ranks_before.
  rewrite <- (Qcompare_antisym (priority_score a) (priority_score b)).
  destruct (priority_score a ?= priority_score b)%Q; simpl; try discriminate.
  apply name_leb_antisym.
Qed.

Lemma rank_deterministic l l' :
  NoDup (gene <$> l) -> l ≡ₚ l' -> rank l = rank l'.
Proof.
  intros Hnd Hp. apply (StronglySorted_unique_strong outranks).
  - intros a b Ha Hb Hab Hba. apply (same_gene_same_record l); [exact Hnd| | |].
    + rewrite <- (rank_perm l). exact Ha.
    + rewrite Hp, <- (rank_perm l'). exact Hb.
    + apply outranks_antisym; assumption.
  - apply rank_sorted.
  - apply rank_sorted.
  - rewrite !rank_perm. exact Hp.
Qed.

End Ranking.

Section Scoring.
Import Pipeline.
Variables (log_weight mention_weight : Z -> Q) (display_min display_max : Q).

(** What the score's tunable weights must satisfy on counts: the weight of
    the source publications grows with them, and no weight is negative. *)
Hypothesis log_weight_monotone :
  forall s1 s2 : Z, (0 <= s1 <= s2)%Z -> (log_weight s1 <= log_weight s2)%Q.
Hypothesis log_weight_nonneg :
  forall s : Z, (0 <= s)%Z -> (0 <= log_weight s)%Q.
Hypothesis mention_weight_nonneg :
  forall m : Z, (0 <= m)%Z -> (0 <= mention_weight m)%Q.

Lemma clip_monotone (x y : Q) :
  (x <= y)%Q -> (clip display_min display_max x <= clip display_min display_max y)%Q.
Proof.
  intros Hxy. unfold clip.
  apply Q.max_le_compat_l, Q.min_le_compat_l, Hxy.
Qed.

Lemma reciprocal_nonneg (t : Z) :
  (0 <= t)%Z -> (0 <= 1 / inject_Z (t + 1))%Q.
Proof.
  intros Ht. destruct (t + 1)%Z as [|p|p] eqn:E; try lia.
  unfold Qle, Qdiv, Qmult, Qinv, inject_Z; simpl. lia.
Qed.

Lemma reciprocal_antitone (t1 t2 : Z) :
  (0 <= t1 <= t2)%Z -> (1 / inject_Z (t2 + 1) <= 1 / inject_Z (t1 + 1))%Q.
Proof.
  intros Ht.
  destruct (t1 + 1)%Z as [|p1|p1] eqn:E1; try lia.
  destruct (t2 + 1)%Z as [|p2|p2] eqn:E2; try lia.
  unfold Qle, Qdiv, Qmult, Qinv, inject_Z; simpl. lia.
Qed.

Lemma score_source_monotone (s1 s2 m t : Z) :
  (0 <= s1 <= s2)%Z -> (0 <= m)%Z -> (0 <= t)%Z ->
  (score log_weight mention_weight display_min display_max s1 m t
   <= score log_weight mention_weight display_min display_max s2 m t)%Q.
Proof.
  intros Hs Hm Ht. unfold score. apply clip_monotone.
  apply Qmult_le_compat_r; [|apply reciprocal_nonneg, Ht].
  apply Qmult_le_compat_r; [apply log_weight_monotone, Hs|].
  apply mention_weight_nonneg, Hm.
Qed.

Lemma score_target_antitone (s m t1 t2 : Z) :
  (0 <= s)%Z -> (0 <= m)%Z -> (0 <= t1 <= t2)%Z ->
  (score log_weight mention_weight display_min display_max s m t2
   <= score log_weight mention_weight display_min display_max s m t1)%Q.
Proof.
  intros Hs Hm Ht. unfold score. apply clip_monotone.
  rewrite !(Qmult_comm (log_weight s * mention_weight m)).
  apply Qmult_le_compat_r; [apply reciprocal_antitone, Ht|].
  apply Qmult_le_0_compat; [apply log_weight_nonneg, Hs|].
  apply mention_weight_nonneg, Hm.
Qed.

(** C5. On publication and mention counts, the score never decreases when
    the source publications increase and never increases when the target
    publications increase.  In a ranked list a record never comes after one
    of equal score and greater gene name, and the ranking of records with
    distinct gene names does not depend on the order they arrive in. *)
Theorem score_monotone_and_ties_by_name :
  (forall s1 s2 m t : Z,
     (0 <= s1 <= s2)%Z -> (0 <= m)%Z -> (0 <= t)%Z ->
     (score log_weight mention_weight display_min display_max s1 m t
      <= score log_weight mention_weight display_min display_max s2 m t)%Q)
  /\ (forall s m t1 t2 : Z,
        (0 <= s)%Z -> (0 <= m)%Z -> (0 <= t1 <= t2)%Z ->
        (score log_weight mention_weight display_min display_max s m t2
         <= score log_weight mention_weight display_min display_max s m t1)%Q)
  /\ (forall (l : list GapRecord) (i j : nat) (a b : GapRecord),
        (i < j)%nat -> rank l !! i = Some a -> rank l !! j = Some b ->
        (priority_score a == priority_score b)%Q ->
        name_leb (gene a) (gene b) = true)
  /\ (forall l l' : list GapRecord,
        NoDup (gene <$> l) -> l ≡ₚ l' -> rank l = rank l' /\ rank l ≡ₚ l).
Proof.
  split; [exact score_source_monotone|]. split; [exact score_target_antitone|].
  split.
  - intros l i j a b Hij Ha Hb Heq.
    pose proof (sorted_lookup (rank l) i j a b (rank_sorted l) Hij Ha Hb) as Hr.
    unfold outranks, ranks_before in Hr.
    apply Qeq_alt in Heq. rewrite Heq in Hr. exact Hr.
  - intros l l' Hnd Hp. split; [now apply rank_deterministic|apply rank_perm].
Qed.

End Scoring.

(** ** The theorems at sample inputs *)

Lemma sample_log_weight_monotone (s1 s2 : Z) :
  (0 <= s1 <= s2)%Z ->
  (Pipeline.sample_log_weight s1 <= Pipeline.sample_log_weight s2)%Q.
Proof.
  intros Hs. unfold Pipeline.sample_log_weight. rewrite <- Zle_Qle.
  apply Z.log2_le_mono. lia.
Qed.

Lemma sample_log_weight_nonneg (s : Z) :
  (0 <= s)%Z -> (0 <= Pipeline.sample_log_weight s)%Q.
Proof.
  intros Hs. unfold Pipeline.sample_log_weight.
  change 0%Q with (inject_Z 0). rewrite <- Zle_Qle. apply Z.log2_nonneg.
Qed.

Lemma sample_mention_weight_nonneg (m : Z) :
  (0 <= m)%Z -> (0 <= Pipeline.sample_mention_weight m)%Q.
Proof.
  intros Hm. unfold Pipeline.sample_mention_weight.
  change 0%Q with (inject_Z 0). rewrite <- Zle_Qle. exact Hm.
Qed.

(** A blank query is refused without a request. *)
Lemma handleSearch_rejects_blank_query :
  exists msg,
    (msg = u16 "Please enter a search query"
     \/ msg = u16 "Please select at least one target species")
    /\ handleSearch (ser := print_json) (Responds (mkResponse true 200 (Normal sample_results)))
         blank_query_world
       = (Normal tt, emit (Alert msg) blank_query_world)
    /\ requests (new_events
                   (handleSearch (ser := print_json)
                      (Responds (mkResponse true 200 (Normal sample_results))))
                   blank_query_world) = [].
Proof.
  apply (handleSearch_rejects_invalid_input (ser := print_json)).
  left. vm_compute. reflexivity.
Defined.

(** With no model to select, the request's [model] field is [null], even
    though the state records a current model. *)
Lemma analyze_request_without_model :
  model_select (document no_model_world) = []
  /\ currentModel (state no_model_world) = u16 "deepseek-r1:8b"
  /\ requests (new_events
                 (handleSearch (ser := print_json)
                    (Responds (mkResponse true 200 (Normal sample_results))))
                 no_model_world) =
     [Fetch (API_BASE ++ u16 "/analyze") (u16 "POST")
        (Some (print_json
                 (JObj [ (u16 "query", JStr (u16 "drought stress signaling"));
                         (u16 "source_species", JStr (u16 "Arabidopsis thaliana"));
                         (u16 "target_species", JArr [JStr (u16 "Triticum aestivum")]);
                         (u16 "max_articles", JNum 20);
                         (u16 "model", JNull) ])))].
Proof.
  split; [reflexivity|split; [reflexivity|]].
  rewrite (handleSearch_requests (ser := print_json)).
  vm_compute. reflexivity.
Qed.

(** The sample weights: more source publications score at least as high,
    more target publications at most as high. *)
Lemma score_monotone_on_samples :
  (Pipeline.score Pipeline.sample_log_weight Pipeline.sample_mention_weight 0 100 8 12 0
   <= Pipeline.score Pipeline.sample_log_weight Pipeline.sample_mention_weight 0 100 45 12 0)%Q
  /\ (Pipeline.score Pipeline.sample_log_weight Pipeline.sample_mention_weight 0 100 45 12 2
      <= Pipeline.score Pipeline.sample_log_weight Pipeline.sample_mention_weight 0 100 45 12 0)%Q.
Proof.
  destruct (score_monotone_and_ties_by_name
              Pipeline.sample_log_weight Pipeline.sample_mention_weight 0 100
              sample_log_weight_monotone sample_log_weight_nonneg
              sample_mention_weight_nonneg) as (Hsource & Htarget & _).
  split; [apply Hsource; lia|apply Htarget; lia].
Defined.

(** Three target species, the lookup for rice fails: all three are in the
    result, rice with no gaps and the failure status. *)
Lemma partial_failure_on_samples :
  Pipeline.species <$>
    Pipeline.analyze Pipeline.sample_log_weight Pipeline.sample_mention_weight 0 100
      Pipeline.sample_genes Pipeline.sample_source_pubs Pipeline.sample_cross_reference
      Pipeline.sample_targets = Pipeline.sample_targets
  /\ Pipeline.mkSummary (u16 "Oryza sativa") [] 0 0 0 Pipeline.lookup_failed
       ∈ Pipeline.analyze Pipeline.sample_log_weight Pipeline.sample_mention_weight 0 100
           Pipeline.sample_genes Pipeline.sample_source_pubs
           Pipeline.sample_cross_reference Pipeline.sample_targets
  /\ (forall i t, Pipeline.sample_targets !! i = Some t -> t <> u16 "Oryza sativa" ->
        exists target_pubs,
          Pipeline.sample_cross_reference t = Some target_pubs
          /\ Pipeline.analyze Pipeline.sample_log_weight Pipeline.sample_mention_weight
               0 100 Pipeline.sample_genes Pipeline.sample_source_pubs
               Pipeline.sample_cross_reference Pipeline.sample_targets !! i =
             Some (let rs :=
                     Pipeline.rank
                       (omap (Pipeline.gap_record Pipeline.sample_log_weight
                                Pipeline.sample_mention_weight 0 100 t
                                Pipeline.sample_source_pubs target_pubs)
                          Pipeline.sample_genes) in
                   Pipeline.mkSummary t rs (length rs)
                     (Pipeline.tally Pipeline.complete_gap rs)
                     (Pipeline.tally Pipeline.severe_gap rs) Pipeline.lookup_ok))
  /\ (forall (other : jsstring -> option (jsstring -> Z)) i t,
        (forall t', t' <> u16 "Oryza sativa" ->
                    other t' = Pipeline.sample_cross_reference t') ->
        Pipeline.sample_targets !! i = Some t -> t <> u16 "Oryza sativa" ->
        Pipeline.analyze Pipeline.sample_log_weight Pipeline.sample_mention_weight
          0 100 Pipeline.sample_genes Pipeline.sample_source_pubs other
          Pipeline.sample_targets !! i =
        Pipeline.analyze Pipeline.sample_log_weight Pipeline.sample_mention_weight
          0 100 Pipeline.sample_genes Pipeline.sample_source_pubs
          Pipeline.sample_cross_reference Pipeline.sample_targets !! i)
  /\ Pipeline.lookup_failed <> Pipeline.lookup_ok.
Proof.
  apply (partial_failure_is_contained
           Pipeline.sample_log_weight Pipeline.sample_mention_weight 0 100
           Pipeline.sample_genes Pipeline.sample_source_pubs
           Pipeline.sample_cross_reference Pipeline.sample_targets
           (u16 "Oryza sativa")).
  - unfold Pipeline.sample_targets. right. left.
  - reflexivity.
  - intros t Ht Hne. unfold Pipeline.sample_cross_reference.
    destruct (decide (t = u16 "Oryza sativa")); [contradiction|discriminate].
Defined.

(** ** The definitions run on concrete inputs *)

Example trim_strips_both_ends :
  trim (u16 "  drought stress ") = u16 "drought stress"
  /\ trim [0x9; 0xA0; 0x3000] = [].
Proof. split; reflexivity. Qed.

Example split_on_colon :
  split 0x3A (u16 "deepseek-r1:8b-llama-distill-q4_K_M")
  = [u16 "deepseek-r1"; u16 "8b-llama-distill-q4_K_M"].
Proof. reflexivity. Qed.

(** Another tag of the same base model counts as installed. *)
Example checkModel_other_tag :
  outcome (checkModel (u16 "deepseek-r1:8b-llama-distill-q4_K_M")
             (Responds (mkResponse true 200
                (Normal (mkTags (Some [mkOllamaModel (u16 "llama3:latest");
                                       mkOllamaModel (u16 "deepseek-r1:14b")]))))))
    sample_world = Normal true.
Proof. reflexivity. Qed.

Example formatGapLevel_unknown_level :
  formatGapLevel (u16 "unknown") = u16 "unknown".
Proof. reflexivity. Qed.

(** The history keeps the ten newest entries. *)
Example history_after_twelve_searches :
  let search := addToSearchHistory (ser := print_json) (u16 "q") (u16 "s") [] 0 in
  let w := Nat.iter 12 (after search) sample_world in
  length (searchHistory (state w)) = 10%nat.
Proof. vm_compute. reflexivity. Qed.

(** The scenario of the written specification: DREB2A with 45 source and 0
    wheat publications, CBF1 with 8 and 2. *)
Example wheat_summary :
  let s := Pipeline.summarize Pipeline.sample_log_weight Pipeline.sample_mention_weight
             0 100 Pipeline.sample_genes Pipeline.sample_source_pubs
             Pipeline.sample_cross_reference (u16 "Triticum aestivum") in
  (fun r => (Pipeline.gene r, Pipeline.gap_level r)) <$> Pipeline.records s
    = [ (u16 "DREB2A", Pipeline.complete_gap); (u16 "CBF1", Pipeline.severe_gap) ]
  /\ Pipeline.complete_gaps s = 1%nat
  /\ Pipeline.severe_gaps s = 1%nat
  /\ Pipeline.gap_count s = 2%nat.
Proof. vm_compute. repeat split. Qed.

(** With the rice lookup failing, wheat and maize keep their two gaps. *)
Example gap_counts_with_rice_failing :
  Pipeline.gap_count <$>
    Pipeline.analyze Pipeline.sample_log_weight Pipeline.sample_mention_weight 0 100
      Pipeline.sample_genes Pipeline.sample_source_pubs Pipeline.sample_cross_reference
      Pipeline.sample_targets = [2; 0; 2]%nat.
Proof. vm_compute. reflexivity. Qed.

(** * The rest of the frontend: properties *)

(** ** Splitting and joining *)

Section SplitJoin.
Implicit Types (s p : jsstring) (sep : N).

Lemma split_nonempty sep s : split sep s <> [].
Proof.
  induction s as [|c s IH]; simpl; [discriminate|].
  destruct (c =? sep); [discriminate|]. destruct (split sep s); discriminate.
Qed.

Lemma join_split sep s : join [sep] (split sep s) = s.
Proof.
  induction s as [|c s IH]; simpl; [reflexivity|].
  pose proof (split_nonempty sep s) as Hne.
  destruct (N.eqb_spec c sep) as [->|Hc].
  - destruct (split sep s) as [|h t]; [contradiction|].
    simpl in *. rewrite IH. reflexivity.
  - destruct (split sep s) as [|h t]; [contradiction|].
    destruct t; simpl in *; rewrite <- IH; reflexivity.
Qed.

Lemma join_split_tail sep s :
  join [sep] (tl (split sep s)) = after_first sep s.
Proof.
  unfold after_first. induction s as [|c s IH]; simpl; [reflexivity|].
  destruct (N.eqb_spec c sep) as [->|Hc]; simpl.
  - apply join_split.
  - pose proof (split_nonempty sep s) as Hne.
    destruct (split sep s) as [|h t]; [contradiction|]. exact IH.
Qed.

Lemma before_first_app sep s rest :
  sep ∉ s -> before_first sep (s ++ sep :: rest) = s.
Proof.
  induction s as [|c s IH]; simpl; intros Hn.
  - rewrite N.eqb_refl. reflexivity.
  - apply not_elem_of_cons in Hn as [Hc Hn].
    destruct (N.eqb_spec c sep); [congruence|]. rewrite IH; auto.
Qed.

Lemma after_first_app sep s rest :
  sep ∉ s -> after_first sep (s ++ sep :: rest) = rest.
Proof.
  intros Hn. unfold after_first. rewrite before_first_app by assumption.
  replace (S (length s)) with (length s + 1)%nat by lia.
  rewrite <- drop_drop, drop_app_length. reflexivity.
Qed.

Lemma before_first_no_sep sep s : sep ∉ before_first sep s.
Proof.
  destruct (before_first_spec sep s) as (_ & _ & H & _). exact H.
Qed.

Lemma before_after_first sep s :
  sep ∈ s -> s = before_first sep s ++ sep :: after_first sep s.
Proof.
  intros Hin. destruct (before_first_spec sep s) as (rest & Hs & Hn & Hr).
  destruct Hr as [->|[rest' ->]].
  - rewrite app_nil_r in Hs. rewrite <- Hs in Hn. contradiction.
  - rewrite Hs at 3. rewrite after_first_app by assumption. exact Hs.
Qed.

Lemma startsWith_app p s : startsWith (p ++ s) p = true.
Proof. apply startsWith_spec. eauto. Qed.

Lemma remove_first_unfold p s :
  remove_first p s =
    if startsWith s p then drop (length p) s
    else match s with
         | [] => []
         | c :: s' => c :: remove_first p s'
         end.
Proof. destruct s; reflexivity. Qed.

Lemma remove_first_prefix p s : remove_first p (p ++ s) = s.
Proof.
  rewrite remove_first_unfold, startsWith_app. apply drop_app_length.
Qed.

Lemma u16_hyphen : u16 "-" = [0x2D].
Proof. reflexivity. Qed.

End SplitJoin.

(** ** Listing the notes *)

Section NotesListing.
Implicit Types (gene species note : jsstring) (w : World) (n : SavedNote.t).

Lemma getAllSavedNotes_elem w n :
  n ∈ (fun w =>
         omap (fun kv : jsstring * jsstring =>
                 if startsWith kv.1 (u16 "gap-filler-note-")
                 then Some (SavedNote.mk
                              (hd [] (split 0x2D (remove_first (u16 "gap-filler-note-") kv.1)))
                              (join (u16 "-")
                                 (tl (split 0x2D (remove_first (u16 "gap-filler-note-") kv.1))))
                              kv.2 kv.1)
                 else None)
              (map_to_list (localStorage w))) w
  <-> exists rest,
        SavedNote.key n = u16 "gap-filler-note-" ++ rest
        /\ localStorage w !! SavedNote.key n = Some (SavedNote.note n)
        /\ SavedNote.gene n = before_first 0x2D rest
        /\ SavedNote.species n = after_first 0x2D rest.
Proof.
  rewrite list_elem_of_omap. split.
  - intros ([k v] & Hin & Hn). apply elem_of_map_to_list in Hin.
    cbn [fst snd] in Hn.
    destruct (startsWith k (u16 "gap-filler-note-")) eqn:Hp; [|discriminate].
    apply startsWith_spec in Hp as [rest ->]. apply (inj Some) in Hn. subst n.
    exists rest. cbn [SavedNote.key SavedNote.note SavedNote.gene SavedNote.species fst snd].
    rewrite remove_first_prefix, split_first, u16_hyphen, join_split_tail. auto.
  - intros (rest & Hk & Hv & Hg & Hs). exists (SavedNote.key n, SavedNote.note n).
    split; [apply elem_of_map_to_list; exact Hv|]. cbn [fst snd].
    rewrite Hk, startsWith_app, remove_first_prefix, split_first, u16_hyphen,
      join_split_tail, <- Hg, <- Hs, <- Hk.
    destruct n; reflexivity.
Qed.

(** X1. The listing is exactly the stored entries whose key starts with
    the notes prefix: each listed note carries its key and stored text, its
    gene is the part of the key's remainder before the first hyphen (so it
    has no hyphen) and its species the part after it.  The theme and the
    history entries are never listed. *)
Theorem saved_notes_are_the_stored_notes w :
  exists listed,
    outcome getAllSavedNotes w = Normal listed
    /\ (forall n,
          n ∈ listed <->
          exists rest,
            SavedNote.key n = u16 "gap-filler-note-" ++ rest
            /\ localStorage w !! SavedNote.key n = Some (SavedNote.note n)
            /\ SavedNote.gene n = before_first 0x2D rest
            /\ SavedNote.species n = after_first 0x2D rest)
    /\ (forall n,
          n ∈ listed ->
          (0x2D ∉ SavedNote.gene n)
          /\ SavedNote.key n <> u16 "gap-filler-theme"
          /\ SavedNote.key n <> u16 "gap-filler-history").
Proof.
  eexists. split; [reflexivity|]. split.
  - intros n. apply getAllSavedNotes_elem.
  - intros n Hn. apply getAllSavedNotes_elem in Hn as (rest & Hk & _ & Hg & _).
    rewrite Hg, Hk. split; [apply before_first_no_sep|].
    split; intros Heq; apply (f_equal (take 16)) in Heq; vm_compute in Heq;
      discriminate.
Qed.

(** X2. A saved note that is not blank is listed, under the gene and
    species read back from its key; these are the gene and species it was
    saved for exactly when the gene name has no hyphen. *)
Theorem saved_note_is_listed gene species note w :
  existsb (fun c => negb (is_white_space c)) note = true ->
  exists listed,
    outcome getAllSavedNotes (after (saveGeneNote gene species note) w) = Normal listed
    /\ SavedNote.mk (before_first 0x2D (gene ++ u16 "-" ++ species))
         (after_first 0x2D (gene ++ u16 "-" ++ species))
         note (note_key gene species) ∈ listed
    /\ (before_first 0x2D (gene ++ u16 "-" ++ species) = gene
        /\ after_first 0x2D (gene ++ u16 "-" ++ species) = species
        <-> 0x2D ∉ gene).
Proof.
  intros Hnote. eexists. split; [reflexivity|]. split.
  - apply getAllSavedNotes_elem. exists (gene ++ u16 "-" ++ species).
    cbn [SavedNote.key SavedNote.note SavedNote.gene SavedNote.species fst snd].
    repeat split. rewrite saveGeneNote_storage, Hnote.
    apply lookup_insert_eq.
  - rewrite u16_hyphen. simpl. split.
    + intros [Hg _]. rewrite <- Hg. apply before_first_no_sep.
    + intros Hn. split; [now apply before_first_app|now apply after_first_app].
Qed.

(** X3. Notes of different keys do not interfere: saving a note leaves
    every note with another key as it was, while two gene and species pairs
    with the same key text share one note.  Pairs whose gene names have no
    hyphen have the same key only when they are the same pair. *)
Theorem notes_interfere_only_through_equal_keys gene species note gene' species' w :
  (gene ++ u16 "-" ++ species <> gene' ++ u16 "-" ++ species' ->
   outcome (getGeneNotes gene' species') (after (saveGeneNote gene species note) w)
   = outcome (getGeneNotes gene' species') w)
  /\ (gene ++ u16 "-" ++ species = gene' ++ u16 "-" ++ species' ->
      outcome (getGeneNotes gene' species') (after (saveGeneNote gene species note) w)
      = outcome (getGeneNotes gene species) (after (saveGeneNote gene species note) w))
  /\ (0x2D ∉ gene -> 0x2D ∉ gene' ->
      gene ++ u16 "-" ++ species = gene' ++ u16 "-" ++ species' ->
      gene = gene' /\ species = species').
Proof.
  split; [|split].
  - intros Hne. rewrite !getGeneNotes_reads, saveGeneNote_storage.
    assert (Hk : note_key gene species <> note_key gene' species').
    { unfold note_key. intros Heq. apply app_inv_head in Heq. contradiction. }
    destruct (existsb _ note);
      [rewrite lookup_insert_ne by exact Hk|rewrite lookup_delete_ne by exact Hk];
      reflexivity.
  - intros Heq. rewrite !getGeneNotes_reads. unfold note_key. rewrite Heq.
    reflexivity.
  - rewrite u16_hyphen. simpl. intros Hg Hg' Heq.
    pose proof (before_first_app 0x2D gene species Hg) as H1.
    pose proof (after_first_app 0x2D gene species Hg) as H2.
    rewrite Heq in H1, H2.
    rewrite (before_first_app 0x2D gene' species' Hg') in H1.
    rewrite (after_first_app 0x2D gene' species' Hg') in H2. auto.
Qed.

End NotesListing.

(** ** Theme *)

Section Theme.
Implicit Types (ui : UiState) (w : World).

(** X4. Toggling the theme gives dark or light, never the theme it
    started from; the stored theme, which the next page load starts with,
    is the toggled one; and two toggles give back a dark or light theme
    (any other stored value ends as light). *)
Theorem theme_toggle_is_persisted ui w :
  exists ui' ui'',
    outcome (toggleTheme ui) w = Normal ui'
    /\ outcome (toggleTheme ui') (after (toggleTheme ui) w) = Normal ui''
    /\ (theme ui' = u16 "dark" \/ theme ui' = u16 "light")
    /\ theme ui' <> theme ui
    /\ stored_theme (after (toggleTheme ui) w) = theme ui'
    /\ theme ui'' = (if bool_decide (theme ui = u16 "dark") then u16 "dark" else u16 "light")
    /\ selectedGene ui'' = selectedGene ui.
Proof.
  unfold toggleTheme, setTheme, outcome, after, stored_theme, localStorage_setItem.
  unfold_js. cbn [fst snd localStorage set_localStorage theme set_theme selectedGene].
  do 2 eexists. split; [reflexivity|]. split; [reflexivity|].
  cbn [theme set_theme selectedGene]. rewrite lookup_insert_eq.
  destruct (bool_decide (theme ui = u16 "dark")) eqn:E.
  - apply bool_decide_eq_true in E. rewrite E.
    repeat split; [now right|discriminate].
  - apply bool_decide_eq_false in E.
    repeat split; [now left|congruence].
Qed.

End Theme.

(** ** The persisted history *)

Section HistoryStorage.
Context {ser : Serializer} {view : ResultsView}.
Implicit Types (w : World).

Lemma addToSearchHistory_storage query sourceSpecies targetSpecies resultsCount w :
  localStorage (after (addToSearchHistory query sourceSpecies targetSpecies resultsCount) w) =
    <[u16 "gap-filler-history" :=
        JSON_stringify
          (JArr (HistoryItem.to_json <$>
                 searchHistory
                   (state (after (addToSearchHistory query sourceSpecies targetSpecies
                                    resultsCount) w))))]>
      (localStorage w).
Proof.
  unfold addToSearchHistory, after, localStorage_setItem. unfold_js.
  cbn [fst snd state set_state searchHistory set_searchHistory].
  destruct (MAX_HISTORY_ITEMS <? _)%nat; reflexivity.
Qed.

Lemma history_key_is_no_note_key gene species :
  note_key gene species <> u16 "gap-filler-history".
Proof.
  unfold note_key. intros Heq. apply (f_equal (take 16)) in Heq.
  rewrite take_app_length' in Heq by reflexivity. vm_compute in Heq. discriminate.
Qed.

Lemma handleSearch_world (net : fetch_outcome AnalysisResults.t) w :
  (searchHistory (state (after (handleSearch net) w)) = searchHistory (state w)
   /\ localStorage (after (handleSearch net) w) = localStorage w)
  \/ exists results query sourceSpecies targetSpecies resultsCount,
       after (handleSearch net) w =
         after (addToSearchHistory query sourceSpecies targetSpecies resultsCount)
           (set_state (set_analysisResults (Some results))
              (emit (analyze_request w) w)).
Proof.
  unfold handleSearch, after, bind, get. cbn [fst snd].
  destruct (trim (search_input (document w))) as [|c q] eqn:Eq; cbn [truthy_str negb];
    [left; split; reflexivity|].
  destruct (length (target_species_checked (document w)) =? 0)%nat;
    [left; split; reflexivity|].
  unfold try_catch, bind.
  destruct (analyzeGaps _ _ _ _ _ net w) as [[results|e] w1] eqn:Ea.
  - assert (Hw1 : w1 = emit (analyze_request w) w).
    { revert Ea. unfold analyzeGaps, apiRequest, analyze_request. unfold_js.
      rewrite Eq.
      destruct net as [e|[[] st [r|e]]]; cbn [fst snd ok negb parsed];
        intros [= <- <-] || intros [=]; reflexivity. }
    subst w1. unfold showResults, bind, modify. cbn [fst snd].
    destruct (rendering_throws results) as [error|]; unfold throw, ret; cbn [fst snd];
      [left; split; reflexivity|right].
    match goal with
    | |- context [addToSearchHistory ?a ?b ?c ?d ?v] =>
        pose proof (addToSearchHistory_returns a b c d v) as Hret;
        unfold outcome in Hret;
        exists results, a, b, c, d;
        destruct (addToSearchHistory a b c d v) as [c0 w'] eqn:Eadd
    end.
    cbn [fst] in Hret. subst c0. reflexivity.
  - left.
    revert Ea. unfold analyzeGaps, apiRequest. unfold_js.
    destruct net as [e'|[[] st [r|e']]]; cbn [fst snd ok negb parsed];
      intros [= <- <-] || intros [=]; split; reflexivity.
Qed.

(** X5. The persisted history mirrors the one in memory after every
    [addToSearchHistory] and [clearSearchHistory], whatever the storage
    held before, and [handleSearch] and [saveGeneNote] keep it mirrored. *)
Theorem persisted_history_mirrors_state w :
  (forall query sourceSpecies targetSpecies resultsCount,
     history_mirrored
       (after (addToSearchHistory query sourceSpecies targetSpecies resultsCount) w))
  /\ history_mirrored (after clearSearchHistory w)
  /\ (history_mirrored w ->
      (forall net : fetch_outcome AnalysisResults.t,
         history_mirrored (after (handleSearch net) w))
      /\ (forall gene species note,
            history_mirrored (after (saveGeneNote gene species note) w))).
Proof.
  split; [|split].
  - intros query sourceSpecies targetSpecies resultsCount. left.
    rewrite addToSearchHistory_storage. apply lookup_insert_eq.
  - right. split; [apply lookup_delete_eq|reflexivity].
  - intros Hw. split.
    + intros net. destruct (handleSearch_world net w) as [[Hs Hl]|Hadd].
      * unfold history_mirrored. rewrite Hs, Hl. exact Hw.
      * destruct Hadd as (results & q & s & t & r & ->). left.
        rewrite addToSearchHistory_storage. apply lookup_insert_eq.
    + intros gene species note. unfold history_mirrored.
      rewrite saveGeneNote_storage.
      assert (Hst : state (after (saveGeneNote gene species note) w) = state w).
      { unfold saveGeneNote, after. destruct (truthy_str _); reflexivity. }
      rewrite Hst.
      destruct (existsb _ note);
        [rewrite lookup_insert_ne by apply history_key_is_no_note_key
        |rewrite lookup_delete_ne by apply history_key_is_no_note_key];
        exact Hw.
Qed.

(** X6. The history operations never touch a note: after
    [addToSearchHistory], [clearSearchHistory] or a whole [handleSearch],
    every note reads as before. *)
Theorem history_operations_keep_notes gene species w :
  (forall query sourceSpecies targetSpecies resultsCount,
     outcome (getGeneNotes gene species)
       (after (addToSearchHistory query sourceSpecies targetSpecies resultsCount) w)
     = outcome (getGeneNotes gene species) w)
  /\ outcome (getGeneNotes gene species) (after clearSearchHistory w)
     = outcome (getGeneNotes gene species) w
  /\ (forall net : fetch_outcome AnalysisResults.t,
        outcome (getGeneNotes gene species) (after (handleSearch net) w)
        = outcome (getGeneNotes gene species) w).
Proof.
  assert (Hadd : forall q s t r w0,
            localStorage (after (addToSearchHistory q s t r) w0)
              !! note_key gene species = localStorage w0 !! note_key gene species).
  { intros. rewrite addToSearchHistory_storage.
    apply lookup_insert_ne. intros Heq. symmetry in Heq.
    exact (history_key_is_no_note_key _ _ Heq). }
  split; [|split].
  - intros. rewrite !getGeneNotes_reads, Hadd. reflexivity.
  - rewrite !getGeneNotes_reads. unfold clearSearchHistory, after, localStorage_removeItem.
    unfold_js. cbn [fst snd localStorage set_localStorage set_state].
    rewrite lookup_delete_ne; [reflexivity|].
    intros Heq. symmetry in Heq. exact (history_key_is_no_note_key _ _ Heq).
  - intros net. rewrite !getGeneNotes_reads.
    destruct (handleSearch_world net w) as [[_ ->]|Hh]; [reflexivity|].
    destruct Hh as (results & q & s & t & r & ->). rewrite Hadd. reflexivity.
Qed.

End HistoryStorage.

(** ** Loading a search from the history *)

Section HistoryReload.
Context {ser : Serializer} {view : ResultsView}.
Implicit Types (w : World) (boxes options : list jsstring).

Lemma filter_checked_sublist boxes (checked : list jsstring) :
  NoDup boxes -> checked `sublist_of` boxes ->
  List.filter (fun v => bool_decide (v ∈ checked)) boxes = checked.
Proof.
  intros Hnd Hsub. induction Hsub as [|x l1 l2 Hsub IH|x l1 l2 Hsub IH].
  - reflexivity.
  - apply NoDup_cons in Hnd as [Hx Hnd]. cbn [List.filter].
    rewrite bool_decide_eq_true_2 by (left; reflexivity). f_equal.
    transitivity (List.filter (fun v => bool_decide (v ∈ l1)) l2); [|exact (IH Hnd)].
    apply filter_ext_in. intros v Hv.
    apply list_elem_of_In in Hv. apply bool_decide_ext. rewrite elem_of_cons.
    split; [intros [->|H]; [contradiction|exact H]|auto].
  - apply NoDup_cons in Hnd as [Hx Hnd]. cbn [List.filter].
    rewrite bool_decide_eq_false_2; [exact (IH Hnd)|].
    intros Hin. apply Hx. eapply elem_of_sublist; eassumption.
Qed.

(** X7. Loading the entry a search has just added puts its query, its
    source species and its checked target species back in the form, when
    the source species is still an option and the boxes have distinct
    values among which the targets were checked; the article limit and the
    model are not part of an entry and stay as they are.  Loading an
    identifier the history does not have changes nothing. *)
Theorem history_entry_restores_the_form boxes options
    query sourceSpecies targetSpecies resultsCount w :
  sourceSpecies ∈ options ->
  NoDup boxes ->
  targetSpecies `sublist_of` boxes ->
  let w1 := after (addToSearchHistory query sourceSpecies targetSpecies resultsCount) w in
  (exists w2,
     loadFromHistory boxes options (now (clock w)) w1 = (Normal tt, w2)
     /\ document w2 =
          mkDocument query sourceSpecies targetSpecies
            (max_articles (document w)) (model_select (document w))
            (export_org_checked (document w))
     /\ state w2 = state w1
     /\ localStorage w2 = localStorage w1
     /\ trace w2 = trace w1)
  /\ (forall itemId,
        (forall h, h ∈ searchHistory (state w1) -> HistoryItem.id h <> itemId) ->
        loadFromHistory boxes options itemId w1 = (Normal tt, w1)).
Proof.
  intros Hsrc Hnd Hsub w1. split.
  - unfold loadFromHistory, bind, get. cbn [fst snd].
    assert (Hh : searchHistory (state w1) =
                 take MAX_HISTORY_ITEMS
                   (HistoryItem.mk query sourceSpecies targetSpecies resultsCount
                      (toISOString (clock w)) (now (clock w))
                    :: searchHistory (state w)))
      by apply addToSearchHistory_history.
    rewrite Hh. cbn [take MAX_HISTORY_ITEMS List.find HistoryItem.id].
    rewrite Z.eqb_refl. unfold modify. eexists. split; [reflexivity|].
    cbn [document set_document state localStorage trace HistoryItem.query
         HistoryItem.sourceSpecies HistoryItem.targetSpecies].
    unfold select_value. rewrite bool_decide_eq_true_2 by exact Hsrc.
    rewrite (filter_checked_sublist boxes targetSpecies Hnd Hsub).
    assert (Hd : document w1 = document w).
    { unfold w1, addToSearchHistory, after, localStorage_setItem. unfold_js.
      cbn [fst snd]. destruct (MAX_HISTORY_ITEMS <? _)%nat; reflexivity. }
    rewrite Hd. repeat split.
  - intros itemId Hno. unfold loadFromHistory, bind, get. cbn [fst snd].
    destruct (List.find _ (searchHistory (state w1))) as [item|] eqn:Ef;
      [|reflexivity].
    apply find_some in Ef as [Hin Hid]. apply Z.eqb_eq in Hid.
    apply list_elem_of_In in Hin. exfalso. exact (Hno item Hin Hid).
Qed.

End HistoryReload.

(** ** Relative times *)

Section TimeAgo.
Local Open Scope Z_scope.

(** X8. [formatTimeAgo] reads "just now" below one minute, also for an
    instant in the future; then whole minutes from 1 to 59, whole hours from
    1 to 23, and whole days from 1 on, each rounded down. *)
Theorem formatTimeAgo_buckets (now then_ : Z) :
  let d := now - then_ in
  (d < 60000 -> formatTimeAgo now then_ = u16 "just now")
  /\ (60000 <= d < 3600000 ->
      exists m, 1 <= m <= 59 /\ m * 60000 <= d < (m + 1) * 60000
                /\ formatTimeAgo now then_ = integer_toString m ++ u16 "m ago")
  /\ (3600000 <= d < 86400000 ->
      exists h, 1 <= h <= 23 /\ h * 3600000 <= d < (h + 1) * 3600000
                /\ formatTimeAgo now then_ = integer_toString h ++ u16 "h ago")
  /\ (86400000 <= d ->
      exists days, 1 <= days /\ days * 86400000 <= d < (days + 1) * 86400000
                   /\ formatTimeAgo now then_ = integer_toString days ++ u16 "d ago").
Proof.
  cbv zeta. unfold formatTimeAgo. set (d := now - then_).
  pose proof (Z.div_mod d 60000 ltac:(lia)) as Hm.
  pose proof (Z.mod_pos_bound d 60000 ltac:(lia)) as Hmb.
  pose proof (Z.div_mod d 3600000 ltac:(lia)) as Hh.
  pose proof (Z.mod_pos_bound d 3600000 ltac:(lia)) as Hhb.
  pose proof (Z.div_mod d 86400000 ltac:(lia)) as Hd.
  pose proof (Z.mod_pos_bound d 86400000 ltac:(lia)) as Hdb.
  destruct (Z.ltb_spec (d / 60000) 1), (Z.ltb_spec (d / 60000) 60),
    (Z.ltb_spec (d / 3600000) 24);
    (split; [intros; try reflexivity; lia|]);
    (split; [intros; try (exists (d / 60000); split; [lia|split; [lia|reflexivity]]); lia|]);
    (split; [intros; try (exists (d / 3600000); split; [lia|split; [lia|reflexivity]]); lia|]);
    intros; try (exists (d / 86400000); split; [lia|split; [lia|reflexivity]]); lia.
Qed.

End TimeAgo.

(** ** The two ends of a search *)

Section SearchOutcome.
Context {ser : Serializer} {view : ResultsView}.
Implicit Types (w : World) (net : fetch_outcome AnalysisResults.t).

Lemma search_is_valid_inv w :
  search_is_valid w = true ->
  (exists c q, trim (search_input (document w)) = c :: q)
  /\ (length (target_species_checked (document w)) =? 0)%nat = false.
Proof.
  unfold search_is_valid. intros [Hq Ht]%andb_true_iff. split.
  - destruct (trim (search_input (document w))) as [|c q]; [discriminate|eauto].
  - now apply negb_true_iff in Ht.
Qed.

Lemma handleSearch_success st results w :
  search_is_valid w = true ->
  rendering_throws results = None ->
  handleSearch (Responds (mkResponse true st (Normal results))) w =
    (Normal tt,
     after (addToSearchHistory (trim (search_input (document w)))
              (source_species (document w)) (target_species_checked (document w))
              (total_gap_count results))
       (set_state (set_analysisResults (Some results)) (emit (analyze_request w) w))).
Proof.
  intros Hv Hr. destruct (search_is_valid_inv w Hv) as [(c & q & Hq) Ht].
  unfold handleSearch, analyze_request, bind, get. cbn [fst snd].
  rewrite Hq. cbn [truthy_str negb]. rewrite Ht.
  unfold analyzeGaps, apiRequest, showResults. unfold_js.
  cbn [fst snd ok negb parsed]. rewrite Hr. cbn [fst snd].
  unfold total_gap_count, after.
  match goal with
  | |- context [addToSearchHistory ?a ?b ?c ?d ?v] =>
      pose proof (addToSearchHistory_returns a b c d v) as Hret;
      unfold outcome in Hret;
      destruct (addToSearchHistory a b c d v) as [c0 w'] eqn:Eadd
  end.
  cbn [fst] in Hret. subst c0. reflexivity.
Qed.

Lemma handleSearch_render_failure st results error w :
  search_is_valid w = true ->
  rendering_throws results = Some error ->
  handleSearch (Responds (mkResponse true st (Normal results))) w =
    (Normal tt,
     emit (Alert (u16 "Analysis failed: " ++ message error))
       (set_state (set_analysisResults (Some results)) (emit (analyze_request w) w))).
Proof.
  intros Hv Hr. destruct (search_is_valid_inv w Hv) as [(c & q & Hq) Ht].
  unfold handleSearch, analyze_request, bind, get. cbn [fst snd].
  rewrite Hq. cbn [truthy_str negb]. rewrite Ht.
  unfold analyzeGaps, apiRequest, showResults. unfold_js.
  cbn [fst snd ok negb parsed]. rewrite Hr. reflexivity.
Qed.

Lemma handleSearch_failure net error w :
  search_is_valid w = true ->
  fetch_failure net = Some error ->
  handleSearch net w =
    (Normal tt,
     emit (Alert (u16 "Analysis failed: " ++ message error))
       (emit (analyze_request w) w)).
Proof.
  intros Hv Hf. destruct (search_is_valid_inv w Hv) as [(c & q & Hq) Ht].
  unfold handleSearch, analyze_request, bind, get. cbn [fst snd].
  rewrite Hq. cbn [truthy_str negb]. rewrite Ht.
  unfold analyzeGaps, apiRequest. unfold_js. revert Hf. unfold fetch_failure.
  destruct net as [e|[[] st [r|e]]]; cbn [fst snd ok negb parsed status];
    intros [= <-] || intros [=]; reflexivity.
Qed.

(** X9. A valid search never throws and ends in one of three ways.  When
    the request fails (rejected, status not ok, payload not parsed), the
    handler shows "Analysis failed" with the error's message and leaves the
    stored results, the history and the storage as they were.  When the
    request succeeds, the payload becomes [state.analysisResults] and the
    current model stays; then, when rendering the payload throws, the
    handler shows "Analysis failed" with the message of that error and
    adds nothing to the history or the storage; and when rendering does
    not throw, the history gains an entry with the trimmed query, the
    form's source and targets and the sum of the species' gap counts, and
    nothing is alerted. *)
Theorem search_ends_in_failure_or_results net w :
  search_is_valid w = true ->
  outcome (handleSearch net) w = Normal tt
  /\ match fetch_failure net with
     | Some error =>
         new_events (handleSearch net) w =
           [analyze_request w; Alert (u16 "Analysis failed: " ++ message error)]
         /\ state (after (handleSearch net) w) = state w
         /\ localStorage (after (handleSearch net) w) = localStorage w
     | None =>
         exists st results,
           net = Responds (mkResponse true st (Normal results))
           /\ analysisResults (state (after (handleSearch net) w)) = Some results
           /\ currentModel (state (after (handleSearch net) w)) = currentModel (state w)
           /\ match rendering_throws results with
              | Some error =>
                  new_events (handleSearch net) w =
                    [analyze_request w;
                     Alert (u16 "Analysis failed: " ++ message error)]
                  /\ searchHistory (state (after (handleSearch net) w)) =
                       searchHistory (state w)
                  /\ localStorage (after (handleSearch net) w) = localStorage w
              | None =>
                  new_events (handleSearch net) w = [analyze_request w]
                  /\ searchHistory (state (after (handleSearch net) w)) =
                       take MAX_HISTORY_ITEMS
                         (HistoryItem.mk (trim (search_input (document w)))
                            (source_species (document w))
                            (target_species_checked (document w))
                            (total_gap_count results)
                            (toISOString (clock w)) (now (clock w))
                          :: searchHistory (state w))
              end
     end.
Proof.
  intros Hv. destruct (fetch_failure net) as [error|] eqn:Hf.
  - unfold new_events, outcome, after.
    rewrite (handleSearch_failure net error w Hv Hf). cbn [fst snd trace emit].
    split; [reflexivity|]. split; [|split; reflexivity].
    rewrite <- app_assoc. apply drop_app_length.
  - assert (Hnet : exists st results, net = Responds (mkResponse true st (Normal results))).
    { revert Hf. unfold fetch_failure.
      destruct net as [e|[[] st [r|e]]]; cbn [ok parsed]; intros [=]; eauto. }
    destruct Hnet as (st & results & ->).
    destruct (rendering_throws results) as [error|] eqn:Hr.
    + unfold new_events, outcome, after.
      rewrite (handleSearch_render_failure st results error w Hv Hr).
      cbn [fst snd]. split; [reflexivity|]. exists st, results. rewrite Hr.
      cbn [trace emit set_state state localStorage analysisResults currentModel
           searchHistory set_analysisResults].
      repeat split. rewrite <- app_assoc. apply drop_app_length.
    + unfold outcome. rewrite (handleSearch_success st results w Hv Hr). cbn [fst].
      split; [reflexivity|]. exists st, results. rewrite Hr. split; [reflexivity|].
      unfold new_events, after. rewrite (handleSearch_success st results w Hv Hr).
      cbn [snd].
      pose proof (addToSearchHistory_history (trim (search_input (document w)))
                    (source_species (document w)) (target_species_checked (document w))
                    (total_gap_count results)
                    (set_state (set_analysisResults (Some results))
                       (emit (analyze_request w) w))) as Hh.
      set (w1 := after (addToSearchHistory _ _ _ _) _) in *.
      assert (Hrest : trace w1 = trace w ++ [analyze_request w]
                      /\ analysisResults (state w1) = Some results
                      /\ currentModel (state w1) = currentModel (state w)).
      { subst w1. unfold after, addToSearchHistory, localStorage_setItem. unfold_js.
        cbn [fst snd]. destruct (MAX_HISTORY_ITEMS <? _)%nat; repeat split. }
      destruct Hrest as (Ht & Hres & Hm). rewrite Ht, Hres, Hm, Hh.
      rewrite drop_app_length. repeat split.
Qed.

End SearchOutcome.

(** ** Changing the model *)

Section ModelChange.
Context {ser : Serializer} {view : ResultsView}.
Implicit Types (w : World) (net : fetch_outcome ModelSet).

(** X10. [setModel] never throws and posts the requested model once.  On
    a failed request the current model stays as it was; on success it
    becomes the model the server reports.  Nothing else of the state
    changes, and [handleModelChange] with an empty value does nothing. *)
Theorem setModel_keeps_the_model_on_failure modelName net w :
  outcome (setModel modelName net) w = Normal tt
  /\ new_events (setModel modelName net) w =
       [Fetch (API_BASE ++ u16 "/models/set") (u16 "POST")
          (Some (JSON_stringify (JObj [(u16 "model", JStr modelName)])))]
  /\ currentModel (state (after (setModel modelName net) w)) =
       match net with
       | Responds (mkResponse true _ (Normal data)) => current_model data
       | _ => currentModel (state w)
       end
  /\ analysisResults (state (after (setModel modelName net) w)) = analysisResults (state w)
  /\ searchHistory (state (after (setModel modelName net) w)) = searchHistory (state w)
  /\ localStorage (after (setModel modelName net) w) = localStorage w
  /\ handleModelChange [] net w = (Normal tt, w).
Proof.
  unfold new_events, outcome, after, handleModelChange, setModel, apiRequest.
  unfold_js.
  destruct net as [e|[[] st [data|e]]];
    cbn [fst snd ok negb parsed trace emit set_state];
    rewrite ?drop_app_length; repeat split.
Qed.

End ModelChange.

(** ** Searching again from the history *)

Section SearchAgain.
Context {ser : Serializer} {view : ResultsView}.
Implicit Types (s : jsstring) (w : World).

Lemma trimStart_app_nonws s c rest :
  is_white_space c = false -> trimStart (s ++ c :: rest) = trimStart s ++ c :: rest.
Proof.
  intros Hc. induction s as [|a s IH]; simpl.
  - rewrite Hc. reflexivity.
  - destruct (is_white_space a); [exact IH|reflexivity].
Qed.

Lemma trimStart_idempotent s : trimStart (trimStart s) = trimStart s.
Proof.
  destruct (trimStart s) as [|c t] eqn:E; [reflexivity|].
  apply trimStart_head in E. simpl. rewrite E. reflexivity.
Qed.

Lemma trim_idempotent s : trim (trim s) = trim s.
Proof.
  unfold trim, trimEnd.
  destruct (trimStart s) as [|c t] eqn:E; [reflexivity|].
  apply trimStart_head in E.
  cbn [rev]. set (X := trimStart (rev t ++ [c])).
  assert (HX : rev X = c :: rev (trimStart (rev t))).
  { unfold X. rewrite (trimStart_app_nonws (rev t) c [] E), rev_app_distr.
    reflexivity. }
  assert (Hfix : trimStart (rev X) = rev X).
  { rewrite HX. cbn [trimStart]. rewrite E. reflexivity. }
  rewrite Hfix, rev_involutive. unfold X. rewrite trimStart_idempotent.
  reflexivity.
Qed.

(** X11. After a search whose request succeeded and whose results were
    rendered without an error, so that it has its entry in the history,
    loading that entry and searching again sends the query, source species
    and target species of the first search, whatever the form was changed
    to in between; the article limit and the model are the form's current
    ones. *)
Theorem reloaded_search_repeats_the_request boxes options st results
    (edited : Document) (net' : fetch_outcome AnalysisResults.t) w :
  search_is_valid w = true ->
  rendering_throws results = None ->
  source_species (document w) ∈ options ->
  NoDup boxes ->
  target_species_checked (document w) `sublist_of` boxes ->
  let w1 := after (handleSearch (Responds (mkResponse true st (Normal results)))) w in
  let w2 := set_document (fun _ => edited) w1 in
  let w3 := after (loadFromHistory boxes options (now (clock w))) w2 in
  requests (new_events (handleSearch net') w3) =
    [Fetch (API_BASE ++ u16 "/analyze") (u16 "POST")
       (Some (JSON_stringify
                (analyze_body (trim (search_input (document w)))
                   (source_species (document w))
                   (target_species_checked (document w))
                   (requested_max_articles w2)
                   (model_select edited))))].
Proof.
  intros Hv Hr Hsrc Hnd Hsub w1 w2 w3.
  destruct (search_is_valid_inv w Hv) as [(c & q & Hq) Ht].
  assert (Hw1 : w1 =
            after (addToSearchHistory (trim (search_input (document w)))
                     (source_species (document w)) (target_species_checked (document w))
                     (total_gap_count results))
              (set_state (set_analysisResults (Some results))
                 (emit (analyze_request w) w))).
  { unfold w1, after at 1. rewrite (handleSearch_success st results w Hv Hr).
    reflexivity. }
  assert (Hh : searchHistory (state w2) =
               take MAX_HISTORY_ITEMS
                 (HistoryItem.mk (trim (search_input (document w)))
                    (source_species (document w)) (target_species_checked (document w))
                    (total_gap_count results) (toISOString (clock w)) (now (clock w))
                  :: searchHistory (state w))).
  { unfold w2. cbn [state set_document]. rewrite Hw1.
    rewrite addToSearchHistory_history. reflexivity. }
  assert (Hd3 : document w3 =
                mkDocument (trim (search_input (document w)))
                  (source_species (document w)) (target_species_checked (document w))
                  (max_articles edited) (model_select edited)
                  (export_org_checked edited)).
  { unfold w3, loadFromHistory, after, bind, get. cbn [fst snd]. rewrite Hh.
    cbn [take MAX_HISTORY_ITEMS List.find HistoryItem.id]. rewrite Z.eqb_refl.
    unfold modify. cbn [fst snd document set_document HistoryItem.query
      HistoryItem.sourceSpecies HistoryItem.targetSpecies].
    unfold select_value. rewrite bool_decide_eq_true_2 by exact Hsrc.
    rewrite (filter_checked_sublist boxes _ Hnd Hsub).
    unfold w2. cbn [document set_document]. reflexivity. }
  rewrite handleSearch_requests.
  assert (Hv3 : search_is_valid w3 = true).
  { unfold search_is_valid. rewrite Hd3.
    cbn [search_input target_species_checked]. rewrite trim_idempotent, Hq, Ht.
    reflexivity. }
  rewrite Hv3. unfold analyze_request, requested_max_articles. rewrite Hd3.
  cbn [search_input source_species target_species_checked max_articles model_select].
  rewrite trim_idempotent. unfold w2. cbn [document set_document]. reflexivity.
Qed.

(** X12. Unchecking every target box blocks the search: no request is
    issued, whatever the query.  Checking every box makes a search with a
    query that is not blank ask for exactly the boxes' species. *)
Theorem select_all_and_deselect_all (boxes : list jsstring)
    (net : fetch_outcome AnalysisResults.t) w :
  requests (new_events (handleSearch net) (after handleDeselectAll w)) = []
  /\ (truthy_str (trim (search_input (document w))) = true ->
      boxes <> [] ->
      requests (new_events (handleSearch net) (after (handleSelectAll boxes) w)) =
        [Fetch (API_BASE ++ u16 "/analyze") (u16 "POST")
           (Some (JSON_stringify
                    (analyze_body (trim (search_input (document w)))
                       (source_species (document w)) boxes
                       (requested_max_articles w)
                       (model_select (document w)))))]).
Proof.
  split.
  - rewrite handleSearch_requests. unfold search_is_valid, handleDeselectAll, after.
    unfold_js. cbn [snd document set_document target_species_checked
      set_target_species_checked length]. rewrite andb_false_r. reflexivity.
  - intros Hq Hb. rewrite handleSearch_requests.
    unfold search_is_valid, analyze_request, requested_max_articles,
      handleSelectAll, after.
    unfold_js. cbn [snd document set_document target_species_checked
      set_target_species_checked search_input source_species max_articles
      model_select].
    rewrite Hq. destruct boxes; [contradiction|reflexivity].
Qed.

End SearchAgain.

(** ** Gene detail panels *)

Section GeneDetailFacts.
Context {ser : Serializer} {view : ResultsView}.
Variable render_throws : json -> json -> json -> json -> option JsError.
Implicit Types (w : World) (net : fetch_outcome json) (panel : Panel).

Lemma apiRequest_run {A} endpoint method body (net : fetch_outcome A) w :
  apiRequest endpoint method body net w =
    (api_completion net, emit (Fetch (API_BASE ++ endpoint) method body) w).
Proof.
  unfold apiRequest, api_completion. unfold_js.
  destruct net as [e|[[] st [r|e]]]; reflexivity.
Qed.

Lemma api_completion_rejection {A} (net : fetch_outcome A) :
  rejection (api_completion net) = fetch_failure net.
Proof. destruct net as [e|[[] st [r|e]]]; reflexivity. Qed.

Lemma fetchGOTerms_run gene species net w :
  fetchGOTerms gene species net w =
    (Normal (go_terms_value net),
     emit (Fetch (API_BASE ++ u16 "/go-terms") (u16 "POST")
             (Some (JSON_stringify
                      (JObj [(u16 "gene", JStr gene); (u16 "species", JStr species)]))))
       w).
Proof.
  unfold fetchGOTerms, go_terms_value. unfold_js.
  destruct net as [e|[[] st [r|e]]]; reflexivity.
Qed.

Lemma fetchOrthologInfo_run gene sourceSpecies targetSpecies net w :
  fetchOrthologInfo gene sourceSpecies targetSpecies net w =
    (Normal (ortholog_value net),
     emit (Fetch (API_BASE ++ u16 "/ortholog") (u16 "POST")
             (Some (JSON_stringify
                      (JObj [ (u16 "gene", JStr gene);
                              (u16 "source_species", JStr sourceSpecies);
                              (u16 "target_species", JStr targetSpecies) ]))))
       w).
Proof.
  unfold fetchOrthologInfo, ortholog_value. unfold_js.
  destruct net as [e|[[] st [r|e]]]; reflexivity.
Qed.

Lemma toggleGeneDetail_first order gene sourceSpecies targetSpecies
    netSource netTarget netGO netOrtholog w :
  toggleGeneDetail render_throws order gene sourceSpecies targetSpecies
    netSource netTarget netGO netOrtholog (mkPanel false LoadingPubs) w =
  (Normal (mkPanel true
             (loaded_content render_throws order netSource netTarget netGO netOrtholog)),
   mkWorld (state w) (localStorage w) (document w) (clock w)
     (trace w ++ detail_requests gene sourceSpecies targetSpecies)).
Proof.
  unfold toggleGeneDetail, loaded_content, detail_requests, attempt, fetchPublications,
    bind. cbn [displayed content negb fst snd].
  rewrite !apiRequest_run, fetchGOTerms_run, fetchOrthologInfo_run. cbn [fst snd].
  unfold emit. cbn [state localStorage document clock trace].
  rewrite <- !app_assoc. cbn [app].
  destruct (Promise_all order _) as [[|a [|b [|c [|d [|x l]]]]]|e]; try reflexivity.
  destruct (render_throws a b c d); reflexivity.
Qed.

Lemma Promise_all_thrown_head {A} (order : list nat) (promises : list (completion A))
    (P : JsError -> Prop) :
  (forall e, Thrown e ∈ promises -> P e) ->
  match Promise_all order promises with
  | Normal values => mapM fulfilment promises = Some values
  | Thrown e => P e
  end.
Proof.
  intros HP. unfold Promise_all.
  destruct (mapM fulfilment promises) as [values|] eqn:Hm; [reflexivity|].
  assert (Hall : Forall P (omap (fun i => promises !! i ≫= rejection) order
                           ++ omap rejection promises)).
  { apply Forall_app. split; apply Forall_forall; intros e He;
      apply list_elem_of_omap in He as (x & Hx & Hr).
    - destruct (promises !! x) as [[a|e']|] eqn:Hl; try discriminate.
      injection Hr as <-. apply HP. eapply list_elem_of_lookup_2. exact Hl.
    - destruct x as [a|e']; [discriminate|]. injection Hr as <-. apply HP. exact Hx. }
  destruct (omap _ order ++ omap rejection promises) as [|e l] eqn:El.
  - exfalso. apply app_eq_nil in El as [_ El].
    assert (Hsome : is_Some (mapM fulfilment promises)).
    { apply mapM_is_Some. apply Forall_forall. intros [a|e] Hin; [eexists; reflexivity|].
      assert (Hin' : e ∈ omap rejection promises)
        by (apply list_elem_of_omap; eexists; split; [exact Hin|reflexivity]).
      rewrite El in Hin'. inversion Hin'. }
    rewrite Hm in Hsome. destruct Hsome as [? [=]].
  - apply Forall_cons in Hall as [He _]. exact He.
Qed.


(** X14. After a first expansion the panel shows the detail exactly when
    both publication requests succeed and the renderer does not throw: a
    failed GO or ortholog lookup only puts its unavailable object in the
    detail.  When a publication request fails, the panel shows the error
    line of a failed publication request and nothing of the other
    lookups. *)
Theorem gene_detail_needs_both_publication_lists order gene sourceSpecies targetSpecies
    netSource netTarget netGO netOrtholog w :
  exists loaded,
    outcome (toggleGeneDetail render_throws order gene sourceSpecies targetSpecies
               netSource netTarget netGO netOrtholog (mkPanel false LoadingPubs)) w
    = Normal (mkPanel true loaded)
    /\ match fetch_failure netSource, fetch_failure netTarget with
       | None, None =>
           exists a b,
             api_completion netSource = Normal a
             /\ api_completion netTarget = Normal b
             /\ loaded =
                  match render_throws a b (go_terms_value netGO)
                          (ortholog_value netOrtholog) with
                  | None => PublicationDetail a b (go_terms_value netGO)
                              (ortholog_value netOrtholog)
                  | Some error =>
                      LoadError (u16 "Failed to load data: " ++ message error)
                  end
       | Some e, None | None, Some e =>
           loaded = LoadError (u16 "Failed to load data: " ++ message e)
       | Some e1, Some e2 =>
           loaded = LoadError (u16 "Failed to load data: " ++ message e1)
           \/ loaded = LoadError (u16 "Failed to load data: " ++ message e2)
       end.
Proof.
  unfold outcome. rewrite toggleGeneDetail_first. cbn [fst].
  eexists. split; [reflexivity|]. unfold loaded_content.
  rewrite <- !api_completion_rejection.
  assert (HP : forall e,
            Thrown e ∈ [ api_completion netSource; api_completion netTarget;
                         Normal (go_terms_value netGO);
                         Normal (ortholog_value netOrtholog) ] ->
            Thrown e = api_completion netSource \/ Thrown e = api_completion netTarget).
  { intros e He. rewrite !elem_of_cons in He.
    destruct He as [He|[He|[He|[He|He]]]];
      [left; exact He|right; exact He|discriminate|discriminate|inversion He]. }
  pose proof (Promise_all_thrown_head order _ _ HP) as Hp. clear HP.
  destruct (api_completion netSource) as [a|e1];
    destruct (api_completion netTarget) as [b|e2]; cbn [rejection].
  - exists a, b. repeat split.
  - destruct (Promise_all order _) as [values|e]; [simpl in Hp; discriminate|].
    destruct Hp as [[=]|[= ->]]. reflexivity.
  - destruct (Promise_all order _) as [values|e]; [simpl in Hp; discriminate|].
    destruct Hp as [[= ->]|[=]]. reflexivity.
  - destruct (Promise_all order _) as [values|e]; [simpl in Hp; discriminate|].
    destruct Hp as [[= ->]|[= ->]]; [left|right]; reflexivity.
Qed.

End GeneDetailFacts.

(** ** The export dialog *)

Section ExportFacts.
Context {ser : Serializer} {view : ResultsView}.
Variable parsed_boxes : list SpeciesGap.t -> list jsstring.
Implicit Types (w : World) (net : fetch_outcome (list N)).

Lemma generatePDF_run net results w :
  export_org_checked (document w) <> [] ->
  analysisResults (state w) = Some results ->
  generatePDFWithSelection net w =
    (Normal tt,
     emit (match net with
           | Responds (mkResponse true _ (Normal _)) =>
               Download (u16 "gap_report_" ++ take 10 (toISOString (clock w))
                         ++ u16 ".pdf")
           | _ => Alert (u16 "Failed to export PDF. Please try again.")
           end)
       (emit (export_request results w) w)).
Proof.
  intros Hsel Hres. unfold generatePDFWithSelection, export_request, bind, get.
  cbn [fst snd].
  destruct (export_org_checked (document w)) as [|o os] eqn:Eo; [contradiction|].
  cbn [length Nat.eqb]. rewrite Hres. unfold_js.
  destruct net as [e|[[] st [blob|e]]]; reflexivity.
Qed.

(** X15. Nothing is exported without something to export: with no stored
    results [exportPDF] only alerts, and with no organism selected
    [generatePDFWithSelection] only alerts, whether results are stored or
    not.  Neither sends a request. *)
Theorem export_refuses_without_results_or_selection net w :
  (analysisResults (state w) = None ->
   exportPDF parsed_boxes w =
     (Normal tt, emit (Alert (u16 "No analysis results to export. Run a search first.")) w))
  /\ (export_org_checked (document w) = [] ->
      generatePDFWithSelection net w =
        (Normal tt, emit (Alert (u16 "Please select at least one organism to export.")) w)).
Proof.
  split.
  - intros Hres. unfold exportPDF, bind, get. cbn [fst snd]. rewrite Hres. reflexivity.
  - intros Hsel. unfold generatePDFWithSelection, bind, get. cbn [fst snd].
    rewrite Hsel. reflexivity.
Qed.

(** X16. With an organism selected and results stored, an export never
    throws and sends one request.  It ends in the download of
    [gap_report_<date>.pdf], the date being the first ten characters of the
    ISO time, exactly when the response is ok and its body can be read;
    otherwise it ends in the failure alert.  The state and the storage are
    not touched. *)
Theorem export_downloads_or_alerts net results w :
  export_org_checked (document w) <> [] ->
  analysisResults (state w) = Some results ->
  outcome (generatePDFWithSelection net) w = Normal tt
  /\ new_events (generatePDFWithSelection net) w =
       [ export_request results w;
         match net with
         | Responds (mkResponse true _ (Normal _)) =>
             Download (u16 "gap_report_" ++ take 10 (toISOString (clock w)) ++ u16 ".pdf")
         | _ => Alert (u16 "Failed to export PDF. Please try again.")
         end ]
  /\ state (after (generatePDFWithSelection net) w) = state w
  /\ localStorage (after (generatePDFWithSelection net) w) = localStorage w.
Proof.
  intros Hsel Hres. unfold new_events, outcome, after.
  rewrite (generatePDF_run net results w Hsel Hres). cbn [fst snd trace emit].
  split; [reflexivity|]. split; [|split; reflexivity].
  rewrite <- app_assoc. apply drop_app_length.
Qed.

Lemma filter_species_all (gs : list SpeciesGap.t) :
  List.filter (fun gap => bool_decide (SpeciesGap.species gap ∈ SpeciesGap.species <$> gs)) gs
  = gs.
Proof.
  apply forallb_filter_id, forallb_forall. intros g Hg.
  apply bool_decide_eq_true. apply list_elem_of_fmap.
  exists g. split; [reflexivity|apply list_elem_of_In; exact Hg].
Qed.

(** X17. With results stored, [exportPDF] opens the dialog and the boxes
    checked are those of the parsed markup.  An export that follows with the
    boxes untouched is refused when there is no box; otherwise it posts the
    boxes' values as targets and the stored gaps whose species is among
    them.  When the boxes' values are the gaps' species, as they are for
    species that hold no markup, these are all the stored gaps, in order. *)
Theorem untouched_dialog_exports_every_gap net results w :
  analysisResults (state w) = Some results ->
  let gaps := default [] (AnalysisResults.gaps results) in
  let boxes := parsed_boxes gaps in
  let w1 := after (exportPDF parsed_boxes) w in
  outcome (exportPDF parsed_boxes) w = Normal tt
  /\ export_org_checked (document w1) = boxes
  /\ match boxes with
     | [] =>
         new_events (generatePDFWithSelection net) w1 =
           [Alert (u16 "Please select at least one organism to export.")]
     | _ :: _ =>
         requests (new_events (generatePDFWithSelection net) w1) =
           [Fetch (API_BASE ++ u16 "/export/pdf") (u16 "POST")
              (Some (JSON_stringify
                       (JObj [ (u16 "query",
                                or_default (JStr <$> AnalysisResults.query results)
                                  (JStr (search_input (document w))));
                               (u16 "source_species", JStr (source_species (document w)));
                               (u16 "target_species", JArr (JStr <$> boxes));
                               (u16 "gaps",
                                JArr (SpeciesGap.to_json <$>
                                        List.filter
                                          (fun gap => bool_decide
                                             (SpeciesGap.species gap ∈ boxes))
                                          gaps));
                               (u16 "genes",
                                or_default (AnalysisResults.genes results) (JArr []));
                               (u16 "summaries",
                                or_default (AnalysisResults.summaries results)
                                  (JArr [])) ])))]
     end
  /\ (boxes = SpeciesGap.species <$> gaps ->
      List.filter (fun gap => bool_decide (SpeciesGap.species gap ∈ boxes)) gaps = gaps).
Proof.
  intros Hres gaps boxes w1.
  assert (Hw1 : exportPDF parsed_boxes w =
            (Normal tt, set_document (set_export_org_checked boxes) w)).
  { unfold exportPDF, openExportModal, bind, get. cbn [fst snd]. rewrite Hres.
    cbn [fst snd]. rewrite Hres. reflexivity. }
  unfold w1, outcome, after. rewrite Hw1. cbn [fst snd].
  split; [reflexivity|]. split; [reflexivity|].
  split; [|intros ->; apply filter_species_all].
  set (w' := set_document _ w).
  destruct boxes as [|box rest] eqn:Eb.
  - unfold new_events, after.
    assert (Hsel : export_org_checked (document w') = []) by reflexivity.
    unfold generatePDFWithSelection, bind, get. cbn [fst snd]. rewrite Hsel.
    cbn [length Nat.eqb alert modify snd emit trace]. unfold alert, modify.
    cbn [snd emit trace]. apply drop_app_length.
  - rewrite (generatePDF_request net w' results); [|discriminate|exact Hres].
    unfold w'. cbn [document set_document export_org_checked set_export_org_checked
      search_input source_species]. reflexivity.
Qed.

(** X27. In the export dialog, deselect-all blocks the export: the next
    export only alerts and sends nothing, whatever was checked before.
    Select-all over the dialog's boxes, with results stored, makes the next
    export post all the boxes as [target_species] and the stored gaps of
    those species; and deselect-all after select-all is deselect-all. *)
Theorem export_select_all_and_deselect_all boxes net w :
  generatePDFWithSelection net (after (selectAllExportOrgs boxes false) w) =
    (Normal tt,
     emit (Alert (u16 "Please select at least one organism to export."))
       (after (selectAllExportOrgs boxes false) w))
  /\ (forall results, boxes <> [] -> analysisResults (state w) = Some results ->
      requests (new_events (generatePDFWithSelection net)
                  (after (selectAllExportOrgs boxes true) w)) =
        [Fetch (API_BASE ++ u16 "/export/pdf") (u16 "POST")
           (Some (JSON_stringify
                    (export_body results (document w) boxes
                       (List.filter
                          (fun gap => bool_decide (SpeciesGap.species gap ∈ boxes))
                          (default [] (AnalysisResults.gaps results))))))])
  /\ after (selectAllExportOrgs boxes false) (after (selectAllExportOrgs boxes true) w)
     = after (selectAllExportOrgs boxes false) w.
Proof.
  split; [reflexivity|]. split; [|reflexivity].
  intros results Hne Hres.
  set (w1 := after (selectAllExportOrgs boxes true) w).
  assert (Hsel : export_org_checked (document w1) <> []) by exact Hne.
  assert (Hres1 : analysisResults (state w1) = Some results) by exact Hres.
  unfold new_events, after. rewrite (generatePDF_run net results w1 Hsel Hres1).
  cbn [snd trace emit]. rewrite <- app_assoc, drop_app_length.
  unfold export_request. cbn [app requests List.filter is_fetch].
  destruct net as [e|[[] st [blob|e]]]; reflexivity.
Qed.

End ExportFacts.

(** ** The proposal tool *)

Section ToolsFacts.
Context {ser : Serializer} {view : ResultsView}.
Implicit Types (w : World) (ui : UiState) (net : fetch_outcome json).

(** X18. Without a selected gene the proposal tool does nothing.  After
    [selectGeneForTools] with a gene name that is not empty it never throws
    and posts that gene, its source and target species and the checked
    length, "medium" when no length is checked. *)
Theorem proposal_posts_the_selected_gene checkedLength geneName sourceSpecies
    targetSpecies ui net w :
  (selectedGene ui = None \/ selectedGene ui = Some [] ->
   generateProposal checkedLength ui net w = (Normal None, w))
  /\ (geneName <> [] ->
      exists view,
        outcome (generateProposal checkedLength
                   (selectGeneForTools geneName sourceSpecies targetSpecies ui) net) w
        = Normal (Some view)
        /\ new_events (generateProposal checkedLength
                         (selectGeneForTools geneName sourceSpecies targetSpecies ui) net) w
           = [Fetch (API_BASE ++ u16 "/proposal/generate") (u16 "POST")
                (Some (JSON_stringify
                         (JObj [ (u16 "gene", JStr geneName);
                                 (u16 "source_species", JStr sourceSpecies);
                                 (u16 "target_species", JStr targetSpecies);
                                 (u16 "length",
                                  JStr (default (u16 "medium") checkedLength)) ])))]).
Proof.
  split.
  - intros [Hg|Hg]; unfold generateProposal; rewrite Hg; reflexivity.
  - intros Hg. unfold new_events, outcome, after, generateProposal, selectGeneForTools.
    cbn [selectedGene selectedSourceSpecies selectedTargetSpecies nullable].
    destruct geneName as [|c g]; [contradiction|]. cbn [truthy_str negb].
    unfold_js.
    destruct net as [e|[o st [data|e]]]; cbn [fst snd parsed trace emit];
      rewrite ?drop_app_length; try (eexists; split; reflexivity).
    destruct (renderProposalResult data); cbn [fst snd trace emit];
      rewrite ?drop_app_length; eexists; split; reflexivity.
Qed.


End ToolsFacts.

(** * The rest of the desktop main process: properties *)

Section OllamaCheck.
Implicit Types (w : World) (net : fetch_outcome Tags).

Lemma checkOllama_run binary_exists net w :
  checkOllama binary_exists net w =
    (Normal (match net with
             | Responds (mkResponse true _ (Normal data)) =>
                 OllamaStatus.mk true true (default [] (models data))
             | Responds (mkResponse false _ _) => OllamaStatus.mk false false []
             | _ => OllamaStatus.mk binary_exists false []
             end),
     emit (Fetch (OLLAMA_URL ++ u16 "/api/tags") (u16 "GET") None) w).
Proof.
  unfold checkOllama. unfold_js.
  destruct net as [e|[[] st [data|e]]], binary_exists; reflexivity.
Qed.

Lemma checkModel_run modelName net w :
  checkModel modelName net w =
    (Normal (match net with
             | Responds (mkResponse true _ (Normal data)) =>
                 existsb (fun m => includes (name m) (hd [] (split 0x3A modelName)))
                   (default [] (models data))
             | _ => false
             end),
     emit (Fetch (OLLAMA_URL ++ u16 "/api/tags") (u16 "GET") None) w).
Proof.
  unfold checkModel. unfold_js.
  destruct net as [e|[[] st [data|e]]]; reflexivity.
Qed.

(** X20. [checkOllama] never throws and asks the tags endpoint once.  It
    reports Ollama running exactly when the response is ok and parses, and
    then lists the payload's models; a status that is not ok reports neither
    installed nor running, without looking for the binary; a fetch that
    throws reports installed exactly when the binary exists.  So running
    implies installed, and models are listed only when running. *)
Theorem checkOllama_status binary_exists net w :
  exists status,
    checkOllama binary_exists net w =
      (Normal status, emit (Fetch (OLLAMA_URL ++ u16 "/api/tags") (u16 "GET") None) w)
    /\ (OllamaStatus.running status = true <->
        exists st data, net = Responds (mkResponse true st (Normal data))
                        /\ OllamaStatus.models status = default [] (models data))
    /\ (OllamaStatus.running status = true -> OllamaStatus.installed status = true)
    /\ (OllamaStatus.running status = false -> OllamaStatus.models status = [])
    /\ (forall st payload, net = Responds (mkResponse false st payload) ->
        OllamaStatus.installed status = false)
    /\ (fetch_failure net <> None ->
        (forall st payload, net <> Responds (mkResponse false st payload)) ->
        OllamaStatus.installed status = binary_exists).
Proof.
  rewrite checkOllama_run. eexists. split; [reflexivity|].
  destruct net as [e|[[] st [data|e]]];
    cbn [OllamaStatus.running OllamaStatus.installed OllamaStatus.models].
  all: repeat split; try discriminate; try reflexivity; eauto.
  all: try (intros (? & ? & [=] & _)).
  all: try (intros Hf; exfalso; apply Hf; reflexivity).
  all: try (intros _ Hno; exfalso; eapply Hno; reflexivity).
Qed.

(** X21. At start the main window opens only when the status request
    answers ok with a payload, the model request answers ok with a payload
    that lists a model whose name contains "deepseek-r1", and the backend
    starts; the installer opens otherwise, and the model request is sent
    only after a status request that found Ollama running. *)
Theorem main_window_needs_ollama_and_model binary_exists netStatus netModel backend w :
  (outcome (whenReady binary_exists netStatus netModel backend) w = Normal MainWindow <->
   exists st data st' data' m started,
     netStatus = Responds (mkResponse true st (Normal data))
     /\ netModel = Responds (mkResponse true st' (Normal data'))
     /\ m ∈ default [] (models data')
     /\ contains (name m) (u16 "deepseek-r1")
     /\ backend = Normal started)
  /\ new_events (whenReady binary_exists netStatus netModel backend) w =
       Fetch (OLLAMA_URL ++ u16 "/api/tags") (u16 "GET") None
       :: match netStatus with
          | Responds (mkResponse true _ (Normal _)) =>
              [Fetch (OLLAMA_URL ++ u16 "/api/tags") (u16 "GET") None]
          | _ => []
          end.
Proof.
  assert (Hbase : hd [] (split 0x3A DEFAULT_MODEL) = u16 "deepseek-r1")
    by (vm_compute; reflexivity).
  split.
  - unfold outcome, whenReady, bind. rewrite checkOllama_run. cbn [fst snd].
    destruct netStatus as [e|[[] st [data|e]]];
      cbn [OllamaStatus.running OllamaStatus.installed negb orb].
    2: { rewrite checkModel_run. cbn [fst snd]. rewrite Hbase.
         destruct netModel as [e'|[[] st' [data'|e']]]; cbn [negb].
         2: { destruct (existsb _ _) eqn:Hex; cbn [negb].
              - destruct backend as [started|err]; unfold settle, ret; cbn [fst snd].
                + split; [intros _|reflexivity].
                  apply existsb_exists in Hex as (m & Hin & Hinc).
                  exists st, data, st', data', m, started.
                  repeat split; [apply list_elem_of_In; exact Hin|].
                  apply includes_spec. exact Hinc.
                + split; [discriminate|].
                  intros (? & ? & ? & ? & ? & ? & _ & _ & _ & _ & [=]).
              - unfold ret; cbn [fst snd]. split; [discriminate|].
                intros (? & ? & ? & ? & m & ? & _ & [= <- <-] & Hin & Hc & _).
                apply not_true_iff_false in Hex. exfalso. apply Hex.
                apply existsb_exists. exists m. split;
                  [apply list_elem_of_In; exact Hin|apply includes_spec; exact Hc]. }
         all: unfold ret; cbn [fst snd]; (split; [discriminate|]);
           intros (? & ? & ? & ? & ? & ? & _ & [=] & _). }
    all: destruct binary_exists; unfold ret;
      cbn [fst snd negb orb OllamaStatus.running OllamaStatus.installed];
      (split; [discriminate|]);
      intros (? & ? & ? & ? & ? & ? & [=] & _).
  - apply new_events_emit.
    unfold after, whenReady, bind. rewrite checkOllama_run. cbn [fst snd].
    destruct netStatus as [e|[[] st [data|e]]];
      cbn [OllamaStatus.running OllamaStatus.installed negb orb].
    2: { rewrite checkModel_run. cbn [fst snd].
         match goal with |- context [negb ?b] => destruct b end; cbn [negb];
           [destruct backend|]; unfold settle, ret; cbn [fst snd trace emit];
           rewrite <- app_assoc; reflexivity. }
    all: destruct binary_exists; reflexivity.
Qed.

(** X22. However often the backend is stopped, it is killed at most once:
    the first [stopBackend] issues one command for a running process, and
    every later one issues nothing. *)
Theorem backend_is_killed_at_most_once win32 backendProcess :
  let first := stopBackend win32 backendProcess in
  first.2 = None
  /\ length first.1 = match backendProcess with Some _ => 1%nat | None => 0%nat end
  /\ (forall n, Nat.iter n (fun p => (stopBackend win32 p).2) first.2 = None)
  /\ (forall n,
        (stopBackend win32 (Nat.iter n (fun p => (stopBackend win32 p).2) first.2)).1 = []).
Proof.
  cbv zeta.
  assert (Hiter : forall n, Nat.iter n (fun p => (stopBackend win32 p).2) None = None).
  { induction n as [|n IH]; [reflexivity|]. simpl. rewrite IH. reflexivity. }
  destruct backendProcess as [pid|]; cbn [stopBackend fst snd length];
    repeat split; try apply Hiter; intros n; rewrite Hiter; reflexivity.
Qed.

(** X28. The [check-model] handler checks the default model when the name
    is missing or empty, and a name whose part before the first colon is
    that of the default gets the default's answer, whatever its tag.  For
    the default that answer is true exactly when the response is ok and its
    payload lists a model whose name contains "deepseek-r1". *)
Theorem check_model_handler_defaults modelName net w :
  ipc_check_model None net w = checkModel DEFAULT_MODEL net w
  /\ ipc_check_model (Some []) net w = checkModel DEFAULT_MODEL net w
  /\ (before_first 0x3A modelName = u16 "deepseek-r1" ->
      ipc_check_model (Some modelName) net w = ipc_check_model None net w)
  /\ (outcome (ipc_check_model None net) w = Normal true <->
      exists st data m,
        net = Responds (mkResponse true st (Normal data))
        /\ m ∈ default [] (models data)
        /\ contains (name m) (u16 "deepseek-r1")).
Proof.
  assert (Hbase : hd [] (split 0x3A DEFAULT_MODEL) = u16 "deepseek-r1")
    by (vm_compute; reflexivity).
  split; [reflexivity|]. split; [reflexivity|]. split.
  - intros Hname. unfold ipc_check_model.
    destruct modelName as [|c rest]; [vm_compute in Hname; discriminate Hname|].
    cbn [truthy_str]. rewrite !checkModel_run, Hbase, split_first, Hname. reflexivity.
  - unfold outcome, ipc_check_model. rewrite checkModel_run, Hbase. cbn [fst].
    destruct net as [e|[[] st [data|e]]].
    2: { split.
         - intros [= Hex]. apply existsb_exists in Hex as (m & Hin & Hinc).
           exists st, data, m. split; [reflexivity|].
           split; [apply list_elem_of_In; exact Hin|apply includes_spec; exact Hinc].
         - intros (? & ? & m & [= <- <-] & Hin & Hc). f_equal.
           apply existsb_exists. exists m.
           split; [apply list_elem_of_In; exact Hin|apply includes_spec; exact Hc]. }
    all: split; [discriminate|intros (? & ? & ? & [=] & _)].
Qed.

End OllamaCheck.

(** ** The progress of a model pull *)

Section PullModelFacts.
Variable JSON_parse : jsstring -> option json.
Implicit Types (buffer chunk s : jsstring) (chunks : list jsstring).

Lemma removelast_cons_nonempty {A} (x : A) (l : list A) :
  l <> [] -> removelast (x :: l) = x :: removelast l.
Proof. destruct l; [contradiction|reflexivity]. Qed.

Lemma last_cons_nonempty {A} (x d : A) (l : list A) :
  l <> [] -> List.last (x :: l) d = List.last l d.
Proof. destruct l; [contradiction|reflexivity]. Qed.

(** Splitting a text in two pieces: the lines completed by the first piece,
    then the lines of its unfinished rest followed by the second piece. *)
Lemma split_app sep (a b : jsstring) :
  split sep (a ++ b) =
    removelast (split sep a) ++ split sep (List.last (split sep a) [] ++ b).
Proof.
  induction a as [|c a IH]; [reflexivity|].
  pose proof (split_nonempty sep a) as Hne.
  cbn [app split]. destruct (N.eqb_spec c sep) as [->|Hc].
  - rewrite removelast_cons_nonempty, last_cons_nonempty by exact Hne.
    rewrite IH. reflexivity.
  - rewrite IH. destruct (split sep a) as [|h t]; [contradiction|].
    destruct t as [|h' t].
    + cbn [removelast List.last app split]. rewrite (proj2 (N.eqb_neq c sep) Hc).
      destruct (split sep (h ++ b)) eqn:E; [|reflexivity].
      exfalso. exact (split_nonempty sep _ E).
    + reflexivity.
Qed.

Lemma split_no_sep sep s : sep ∉ s -> split sep s = [s].
Proof.
  induction s as [|c s IH]; intros Hs; [reflexivity|].
  apply not_elem_of_cons in Hs as [Hc Hs]. cbn [split].
  rewrite (proj2 (N.eqb_neq c sep)) by congruence. rewrite (IH Hs). reflexivity.
Qed.

Lemma split_last_no_sep sep s : sep ∉ List.last (split sep s) [].
Proof.
  induction s as [|c s IH]; [apply not_elem_of_nil|].
  pose proof (split_nonempty sep s) as Hne.
  cbn [split]. destruct (N.eqb_spec c sep) as [->|Hc].
  - rewrite last_cons_nonempty by exact Hne. exact IH.
  - destruct (split sep s) as [|h [|h' t]]; [contradiction| |exact IH].
    cbn [List.last] in *. apply not_elem_of_cons. split; [congruence|exact IH].
Qed.

Lemma last_app_nonempty {A} (l1 l2 : list A) d :
  l2 <> [] -> List.last (l1 ++ l2) d = List.last l2 d.
Proof.
  intros Hne. induction l1 as [|x l1 IH]; [reflexivity|].
  cbn [app]. rewrite last_cons_nonempty; [exact IH|].
  destruct l1; [exact Hne|discriminate].
Qed.

Lemma on_stream_lines buffer chunks :
  0x0A ∉ buffer ->
  on_stream JSON_parse buffer chunks =
    (omap (progress_of_line JSON_parse)
       (List.filter (fun line => truthy_str (trim line))
          (removelast (split 0x0A (buffer ++ concat chunks)))),
     List.last (split 0x0A (buffer ++ concat chunks)) []).
Proof.
  revert buffer. induction chunks as [|chunk rest IH]; intros buffer Hb.
  - cbn [on_stream concat]. rewrite app_nil_r, (split_no_sep _ _ Hb). reflexivity.
  - cbn [on_stream concat]. unfold on_data. cbn [fst snd].
    rewrite (IH _ (split_last_no_sep 0x0A (buffer ++ chunk))). cbn [fst snd].
    rewrite (app_assoc buffer chunk), (split_app 0x0A (buffer ++ chunk)).
    pose proof (split_nonempty 0x0A
                  (List.last (split 0x0A (buffer ++ chunk)) [] ++ concat rest)) as Hne.
    rewrite (removelast_app _ Hne), List.filter_app, omap_app.
    rewrite (last_app_nonempty _ _ _ Hne). reflexivity.
Qed.

(** X23. The progress reported for a model pull does not depend on how the
    stream is cut into chunks: the callbacks are those of the non-blank
    lines of the whole text that a line feed has ended, in order, each line
    that does not parse being skipped; the text after the last line feed
    stays in the buffer, which never holds a line feed, and is not parsed. *)
Theorem pull_progress_ignores_chunking chunks :
  on_stream JSON_parse [] chunks =
    (omap (progress_of_line JSON_parse)
       (List.filter (fun line => truthy_str (trim line))
          (removelast (split 0x0A (concat chunks)))),
     List.last (split 0x0A (concat chunks)) [])
  /\ (0x0A ∉ (on_stream JSON_parse [] chunks).2)
  /\ (forall chunks', concat chunks' = concat chunks ->
      on_stream JSON_parse [] chunks' = on_stream JSON_parse [] chunks).
Proof.
  assert (Hall : forall cs, on_stream JSON_parse [] cs =
    (omap (progress_of_line JSON_parse)
       (List.filter (fun line => truthy_str (trim line))
          (removelast (split 0x0A (concat cs)))),
     List.last (split 0x0A (concat cs)) [])).
  { intros cs. exact (on_stream_lines [] cs (not_elem_of_nil _)). }
  split; [apply Hall|]. split.
  - rewrite Hall. apply split_last_no_sep.
  - intros chunks' Heq. rewrite !Hall, Heq. reflexivity.
Qed.

End PullModelFacts.

(** * The setup wizard: properties *)

Section InstallerFacts.
Import Installer.
Implicit Types (r : Replies) (z : Wizard).

Ltac run_wizard :=
  unfold new_calls, installs, runInstallation, checkDependencies, finishSetup, goToStep,
    updateButtons, catch, andThen, read, update, invoke, raise, pure;
  cbn -[u16 N.eqb N.ltb drop length].

Ltac settle_replies :=
  repeat match goal with
         | |- context [match ?x with _ => _ end] => is_var x; destruct x; cbn -[u16 drop length]
         end.

Lemma runInstallation_frame r z :
  let z' := (runInstallation r z).2 in
  (runInstallation r z).1 = Normal tt
  /\ ollamaStatus z' = ollamaStatus z
  /\ modelInstalled z' = modelInstalled z
  /\ defaultModel z' = defaultModel z
  /\ (if installs r z
      then currentStep z' = 4 /\ backVisible z' = false /\ label z' = LaunchLabel
           /\ disabled z' = false /\ fault z' = None /\ retry z' = retry z
      else currentStep z' = currentStep z /\ backVisible z' = backVisible z
           /\ label z' = RetryLabel /\ disabled z' = false /\ fault z' <> None
           /\ retry z' = true).
Proof.
  destruct z as [step [inst run ms] present model lbl dis back rt flt cs].
  destruct r as [co cm dl il so pl sb fs].
  run_wizard. destruct inst, run, present; cbn -[u16]; settle_replies.
  all: repeat split; discriminate.
Qed.

Lemma runInstallation_calls r z :
  calls (runInstallation r z).2 = calls z ++ new_calls (runInstallation r) z.
Proof.
  destruct z as [step [inst run ms] present model lbl dis back rt flt cs].
  destruct r as [co cm dl il so pl sb fs].
  run_wizard. destruct inst, run, present; cbn -[u16 drop length]; settle_replies.
  all: rewrite <- ?app_assoc, ?drop_app_length, ?app_nil_r; try reflexivity.
  all: rewrite <- (app_nil_r cs) at 2; rewrite drop_app_length; rewrite ?app_nil_r; reflexivity.
Qed.

Lemma runInstallation_calls_frame r z1 z2 :
  ollamaStatus z1 = ollamaStatus z2 ->
  modelInstalled z1 = modelInstalled z2 ->
  defaultModel z1 = defaultModel z2 ->
  new_calls (runInstallation r) z1 = new_calls (runInstallation r) z2.
Proof.
  destruct z1 as [step [inst run ms] present model lbl dis back rt flt cs].
  destruct z2 as [step' st' present' model' lbl' dis' back' rt' flt' cs'].
  destruct r as [co cm dl il so pl sb fs].
  cbn [ollamaStatus modelInstalled defaultModel]. intros <- <- <-.
  run_wizard. destruct inst, run, present; cbn -[u16 drop length]; settle_replies.
  all: rewrite <- ?app_assoc, ?drop_app_length; try reflexivity.
  all: rewrite <- (app_nil_r cs) at 2; rewrite <- (app_nil_r cs') at 2;
    rewrite !drop_app_length; reflexivity.
Qed.

(** X24. An installation never throws and changes neither the recorded
    Ollama status nor the recorded presence of the model.  When every step
    it has to make succeeds and the backend call returns, with success or
    not, the wizard is at step 4 with the launch button enabled and the last
    call started the backend; otherwise the step is unchanged, the error is
    logged and the button offers a retry.  Ollama is downloaded only when
    the check found it missing and installed only from the downloaded path;
    the model pulled is the default one and only when the check did not
    find it; and once the backend is called the wizard reaches step 4 unless
    that call itself is rejected. *)
Theorem installation_finishes_or_offers_retry r z :
  let z' := (runInstallation r z).2 in
  let made := new_calls (runInstallation r) z in
  (runInstallation r z).1 = Normal tt
  /\ ollamaStatus z' = ollamaStatus z
  /\ modelInstalled z' = modelInstalled z
  /\ (if installs r z
      then currentStep z' = 4 /\ label z' = LaunchLabel /\ disabled z' = false
           /\ fault z' = None /\ List.last made StartBackend = StartBackend
           /\ made <> []
      else currentStep z' = currentStep z /\ label z' = RetryLabel
           /\ disabled z' = false /\ fault z' <> None /\ retry z' = true)
  /\ (DownloadOllama ∈ made -> OllamaStatus.installed (ollamaStatus z) = false)
  /\ (forall path, InstallOllama path ∈ made ->
      downloadReply r = Normal (Downloaded path))
  /\ (forall model, PullModel model ∈ made ->
      modelInstalled z = false /\ model = defaultModel z)
  /\ (StartBackend ∈ made ->
      installs r z = true \/ exists e, startBackendReply r = Thrown e).
Proof.
  destruct (runInstallation_frame r z) as (Hn & Hs & Hm & _ & Hi).
  cbv zeta. split; [exact Hn|]. split; [exact Hs|]. split; [exact Hm|].
  split.
  { destruct (installs r z) eqn:E.
    - destruct Hi as (H1 & _ & H2 & H3 & H4 & _). repeat split; try assumption.
      all: revert E; clear.
      all: destruct z as [step [inst run ms] present model lbl dis back rt flt cs];
        destruct r as [co cm dl il so pl sb fs];
        run_wizard; destruct inst, run, present; cbn -[u16 drop length]; settle_replies;
        try discriminate; intros _;
        rewrite <- ?app_assoc, ?drop_app_length; cbn; try reflexivity; discriminate.
    - destruct Hi as (H1 & _ & H2 & H3 & H4 & H5). repeat split; assumption. }
  clear.
  destruct z as [step [inst run ms] present model lbl dis back rt flt cs].
  destruct r as [co cm dl il so pl sb fs].
  run_wizard. destruct inst, run, present; cbn -[u16 drop length]; settle_replies.
  all: rewrite <- ?app_assoc, ?drop_app_length;
    try (rewrite <- (app_nil_r cs) at 2; rewrite drop_app_length).
  all: repeat split; intros;
    repeat match goal with
           | H : _ ∈ _ :: _ |- _ => apply elem_of_cons in H as [H|H]
           | H : _ ∈ [] |- _ => apply elem_of_nil in H; contradiction
           | H : _ ∈ _ ++ _ |- _ => apply elem_of_app in H as [H|H]
           end;
    try discriminate; try congruence; eauto.
Qed.

Lemma installs_frame r z1 z2 :
  ollamaStatus z1 = ollamaStatus z2 -> modelInstalled z1 = modelInstalled z2 ->
  installs r z1 = installs r z2.
Proof. unfold installs. intros -> ->. reflexivity. Qed.

(** X25. After a failed installation the retry click does not wait for the
    retried installation: the listener added at load moves the wizard from
    step 3 to step 4 before the retry handler runs, so the wizard ends at
    step 4 whatever the retried installation does, having made exactly the
    calls of that installation; when it fails again, step 4 shows the retry
    button and the logged error. *)
Theorem retry_click_jumps_to_the_last_step r r' z :
  currentStep z = 3 -> disabled z = false -> retry z = true ->
  let z' := click_next r r' z in
  currentStep z' = 4
  /\ calls z' = calls z ++ new_calls (runInstallation r') z
  /\ (installs r' z = false ->
      label z' = RetryLabel /\ disabled z' = false /\ fault z' <> None).
Proof.
  intros Hstep Hdis Hretry. cbv zeta. unfold click_next. rewrite Hdis, Hretry.
  set (z1 := (handleNext r z).2).
  assert (H1 : currentStep z1 = 4 /\ ollamaStatus z1 = ollamaStatus z
               /\ modelInstalled z1 = modelInstalled z
               /\ defaultModel z1 = defaultModel z /\ calls z1 = calls z).
  { subst z1. unfold handleNext, andThen, read. cbn [fst snd]. rewrite Hstep.
    cbn. repeat split. }
  destruct H1 as (Hs1 & Ho & Hm & Hd & Hc).
  destruct (runInstallation_frame r' z1) as (_ & _ & _ & _ & Hi).
  rewrite (installs_frame r' z1 z Ho Hm) in Hi.
  rewrite runInstallation_calls, Hc,
    (runInstallation_calls_frame r' z1 z Ho Hm Hd).
  split; [|split; [reflexivity|]].
  - destruct (installs r' z); [tauto|]. destruct Hi as (-> & _). exact Hs1.
  - intros E. rewrite E in Hi. tauto.
Qed.

Lemma checkDependencies_frame r z :
  let z' := (checkDependencies r z).2 in
  currentStep z' = currentStep z /\ backVisible z' = backVisible z
  /\ defaultModel z' = defaultModel z.
Proof.
  destruct z as [step st present model lbl dis back rt flt cs].
  destruct r as [co cm dl il so pl sb fs].
  run_wizard. destruct co as [[[] [] ms]|e]; cbn; [destruct cm|..]; repeat split.
Qed.

Lemma runInstallation_invariant model r z :
  wizard_invariant model z ->
  wizard_invariant model (runInstallation r z).2
  /\ (currentStep z = 4 -> currentStep (runInstallation r z).2 = 4)
  /\ currentStep z <= currentStep (runInstallation r z).2.
Proof.
  intros (Hs & Hb & Hd).
  destruct (runInstallation_frame r z) as (_ & _ & _ & Hd' & Hi).
  unfold wizard_invariant. rewrite Hd'.
  destruct (installs r z).
  - destruct Hi as (-> & -> & _). repeat split; try assumption; lia.
  - destruct Hi as (-> & -> & _). repeat split; try assumption; try lia; auto.
Qed.

Lemma handleNext_invariant model r z :
  wizard_invariant model z ->
  wizard_invariant model (handleNext r z).2
  /\ (currentStep z = 4 -> currentStep (handleNext r z).2 = 4)
  /\ currentStep z <= currentStep (handleNext r z).2.
Proof.
  intros (Hs & Hb & Hd).
  assert (Hcases : currentStep z = 1 \/ currentStep z = 2 \/ currentStep z = 3
                   \/ currentStep z = 4) by lia.
  assert (Hnext : handleNext r z =
    if currentStep z =? 1 then checkDependencies r (goToStep 2 z).2
    else if currentStep z =? 2 then runInstallation r (goToStep 3 z).2
    else if currentStep z =? 3 then goToStep 4 z
    else if currentStep z =? 4 then finishSetup r z
    else (Normal tt, z)).
  { unfold handleNext, andThen at 1, read. cbn [fst snd].
    repeat destruct (_ =? _); reflexivity. }
  rewrite Hnext.
  destruct Hcases as [E|[E|[E|E]]]; rewrite E; cbn [N.eqb Pos.eqb].
  - destruct (checkDependencies_frame r (goToStep 2 z).2) as (H1 & H2 & H3).
    unfold wizard_invariant. rewrite H1, H2, H3.
    repeat split; try exact Hd; try discriminate; cbn; lia.
  - assert (H3 : wizard_invariant model (goToStep 3 z).2)
      by (repeat split; try exact Hd; cbn; lia).
    destruct (runInstallation_invariant model r _ H3) as (H & _ & Hle).
    split; [exact H|]. split; [discriminate|].
    etransitivity; [|exact Hle]. cbn. lia.
  - repeat split; try exact Hd; try discriminate; cbn; lia.
  - assert (H4 : currentStep (finishSetup r z).2 = currentStep z
                 /\ backVisible (finishSetup r z).2 = backVisible z
                 /\ defaultModel (finishSetup r z).2 = defaultModel z)
      by (repeat split).
    destruct H4 as (H1 & H2 & H3). unfold wizard_invariant.
    rewrite H1, H2, H3, E. repeat split; try assumption; try lia.
    rewrite Hb, E. reflexivity.
Qed.

Lemma click_invariant model c z :
  wizard_invariant model z ->
  wizard_invariant model (click c z)
  /\ (currentStep z = 4 -> currentStep (click c z) = 4)
  /\ currentStep z <= currentStep (click c z) + 1.
Proof.
  intros Hinv. destruct c as [r r'|]; cbn [click].
  - unfold click_next. destruct (disabled z); [repeat split; [apply Hinv..|auto|lia]|].
    destruct (handleNext_invariant model r z Hinv) as (H1 & H4 & Hle).
    destruct (retry z); [|repeat split; [apply H1..|exact H4|lia]].
    destruct (runInstallation_invariant model r' _ H1) as (H2 & H4' & Hle').
    split; [exact H2|]. split; [intros E; apply H4', H4, E|lia].
  - unfold click_back. destruct Hinv as (Hs & Hb & Hd).
    destruct (backVisible z) eqn:Eb;
      [|unfold wizard_invariant; rewrite Eb; repeat split; try assumption; try lia; auto].
    symmetry in Hb. apply andb_true_iff in Hb as [H1 H2].
    rewrite H1. apply N.ltb_lt in H1, H2.
    assert (Hcases : currentStep z = 2 \/ currentStep z = 3) by lia.
    destruct Hcases as [E|E]; rewrite E;
      [change (2 - 1) with 1|change (3 - 1) with 2];
      (split; [|split; [intros [=]|]]);
      repeat split; try exact Hd; cbn; first [reflexivity|lia].
Qed.

(** X26. Whatever is clicked and whatever the main process answers, each
    handler settling before the next click, the wizard stays on one of its
    four steps, shows the back button exactly on steps 2 and 3 and keeps the
    model name; a click moves it back by at most one step, and from step 4
    no click leaves. *)
Theorem wizard_stays_on_its_steps model clicks :
  let z := foldl (fun z c => click c z) (loaded model) clicks in
  (1 <= currentStep z <= 4)
  /\ backVisible z = (1 <? currentStep z) && (currentStep z <? 4)
  /\ defaultModel z = model
  /\ (forall c, currentStep z <= currentStep (click c z) + 1)
  /\ (forall c, currentStep z = 4 -> currentStep (click c z) = 4).
Proof.
  cbv zeta.
  assert (Hinv : wizard_invariant model
                   (foldl (fun z c => click c z) (loaded model) clicks)).
  { assert (H0 : wizard_invariant model (loaded model))
      by (repeat split; cbn; lia).
    revert H0. generalize (loaded model).
    induction clicks as [|c clicks IH]; intros z Hz; [exact Hz|].
    cbn [foldl]. apply IH. apply (click_invariant model c z Hz). }
  set (z := foldl _ _ _) in *.
  pose proof Hinv as (Hs & Hb & Hd).
  split; [exact Hs|]. split; [exact Hb|]. split; [exact Hd|]. split.
  - intros c. apply (click_invariant model c z Hinv).
  - intros c. apply (click_invariant model c z Hinv).
Qed.

End InstallerFacts.

(** * Worked instances *)

Section Instances.
Local Existing Instance sample_serializer.

(** A note saved for DREB2A in rice is listed under its key. *)
Lemma sample_note_is_listed :
  exists listed,
    outcome getAllSavedNotes
      (after (saveGeneNote (u16 "DREB2A") (u16 "Oryza sativa") (u16 "check orthologs"))
         sample_world) = Normal listed
    /\ SavedNote.mk
         (before_first 0x2D (u16 "DREB2A" ++ u16 "-" ++ u16 "Oryza sativa"))
         (after_first 0x2D (u16 "DREB2A" ++ u16 "-" ++ u16 "Oryza sativa"))
         (u16 "check orthologs") (note_key (u16 "DREB2A") (u16 "Oryza sativa")) ∈ listed
    /\ (before_first 0x2D (u16 "DREB2A" ++ u16 "-" ++ u16 "Oryza sativa") = u16 "DREB2A"
        /\ after_first 0x2D (u16 "DREB2A" ++ u16 "-" ++ u16 "Oryza sativa")
           = u16 "Oryza sativa"
        <-> 0x2D ∉ u16 "DREB2A").
Proof.
  apply (saved_note_is_listed (u16 "DREB2A") (u16 "Oryza sativa")
           (u16 "check orthologs") sample_world).
  vm_compute. reflexivity.
Defined.

Lemma sample_boxes_NoDup : NoDup sample_boxes.
Proof.
  unfold sample_boxes. repeat (apply NoDup_cons; split);
    [| |..]; try apply NoDup_nil_2;
    rewrite ?not_elem_of_cons; repeat split; try apply not_elem_of_nil;
    intros H; vm_compute in H; discriminate H.
Qed.

Lemma sample_targets_sublist :
  target_species_checked (document sample_world) `sublist_of` sample_boxes.
Proof.
  cbn [target_species_checked document sample_world sample_document].
  unfold sample_boxes. repeat constructor.
Qed.

Lemma sample_source_listed :
  source_species (document sample_world) ∈ sample_options.
Proof. apply list_elem_of_here. Qed.

(** Loading the entry just added for a drought search puts it back in the form. *)
Lemma sample_entry_restores_the_form :
  exists w2,
    loadFromHistory sample_boxes sample_options (now (clock sample_world))
      (after (addToSearchHistory (u16 "drought stress")
                (source_species (document sample_world))
                (target_species_checked (document sample_world)) 3)
         sample_world) = (Normal tt, w2)
    /\ document w2 =
         mkDocument (u16 "drought stress") (source_species (document sample_world))
           (target_species_checked (document sample_world))
           (max_articles (document sample_world)) (model_select (document sample_world))
           (export_org_checked (document sample_world)).
Proof.
  destruct (history_entry_restores_the_form sample_boxes sample_options
              (u16 "drought stress") (source_species (document sample_world))
              (target_species_checked (document sample_world)) 3 sample_world
              sample_source_listed sample_boxes_NoDup sample_targets_sublist)
    as [(w2 & Hload & Hdoc & _) _].
  exists w2. split; [exact Hload|exact Hdoc].
Defined.

(** The sample search, answered with the sample results, issues its one
    request and returns. *)
Lemma sample_search_ends_in_results :
  outcome (handleSearch (Responds (mkResponse true 200 (Normal sample_results))))
    sample_world = Normal tt
  /\ new_events (handleSearch (Responds (mkResponse true 200 (Normal sample_results))))
       sample_world = [analyze_request sample_world].
Proof.
  destruct (search_ends_in_failure_or_results
              (Responds (mkResponse true 200 (Normal sample_results))) sample_world
              eq_refl) as (Hout & Hrest).
  split; [exact Hout|].
  cbn [fetch_failure ok parsed] in Hrest.
  destruct Hrest as (st & results & Hnet & _ & _ & Hrender).
  assert (Hres : results = sample_results) by congruence. subst results.
  assert (Hnone : rendering_throws sample_results = None) by reflexivity.
  rewrite Hnone in Hrender. exact (proj1 Hrender).
Defined.

(** The sample search repeated from its history entry, after the form was
    cleared and another model picked, while the network is down. *)
Lemma sample_search_is_repeated :
  let w1 := after (handleSearch (Responds (mkResponse true 200 (Normal sample_results))))
              sample_world in
  let w2 := set_document (fun _ => edited_document) w1 in
  let w3 := after (loadFromHistory sample_boxes sample_options (now (clock sample_world)))
              w2 in
  requests (new_events (handleSearch (Rejects (Error (u16 "Failed to fetch")))) w3) =
    [Fetch (API_BASE ++ u16 "/analyze") (u16 "POST")
       (Some (JSON_stringify
                (analyze_body (trim (search_input (document sample_world)))
                   (source_species (document sample_world))
                   (target_species_checked (document sample_world))
                   (requested_max_articles w2)
                   (model_select edited_document))))].
Proof.
  apply (reloaded_search_repeats_the_request sample_boxes sample_options 200
           sample_results edited_document (Rejects (Error (u16 "Failed to fetch")))
           sample_world eq_refl eq_refl
           sample_source_listed sample_boxes_NoDup sample_targets_sublist).
Defined.

Lemma sample_selection_nonempty : export_org_checked (document sample_world) <> [].
Proof. discriminate. Qed.

(** The sample export, answered with a file, downloads it. *)
Lemma sample_export_downloads :
  outcome (generatePDFWithSelection (Responds (mkResponse true 200 (Normal [0x25; 0x50]))))
    sample_world = Normal tt
  /\ new_events (generatePDFWithSelection
                   (Responds (mkResponse true 200 (Normal [0x25; 0x50]))))
       sample_world =
       [ export_request sample_results sample_world;
         Download (u16 "gap_report_" ++ take 10 (toISOString (clock sample_world))
                   ++ u16 ".pdf") ].
Proof.
  destruct (export_downloads_or_alerts
              (Responds (mkResponse true 200 (Normal [0x25; 0x50])))
              sample_results sample_world sample_selection_nonempty eq_refl)
    as (Hout & Hev & _).
  split; [exact Hout|exact Hev].
Defined.

(** Opening the dialog on the sample results checks both species. *)
Lemma sample_dialog_checks_every_species :
  outcome (exportPDF plain_boxes) sample_world = Normal tt
  /\ export_org_checked (document (after (exportPDF plain_boxes) sample_world)) =
       [u16 "Triticum aestivum"; u16 "Oryza sativa"]
  /\ List.filter
       (fun gap => bool_decide
          (SpeciesGap.species gap ∈ plain_boxes [wheat_gap; rice_gap]))
       [wheat_gap; rice_gap] = [wheat_gap; rice_gap].
Proof.
  destruct (untouched_dialog_exports_every_gap plain_boxes
              (Rejects (Error (u16 "Failed to fetch"))) sample_results sample_world
              eq_refl) as (Hout & Hsel & _ & Hall).
  split; [exact Hout|]. split; [exact Hsel|]. exact (Hall eq_refl).
Defined.

(** A payload that cannot be rendered: the search request succeeds, the
    payload is stored, and the handler reports a failed analysis and adds
    no history entry. *)
Example malformed_payload_is_alerted :
  rendering_throws malformed_results =
    Some (Error (u16 "(gap.missing_genes || []).map is not a function"))
  /\ new_events (handleSearch (Responds (mkResponse true 200 (Normal malformed_results))))
       sample_world =
       [ analyze_request sample_world;
         Alert (u16 "Analysis failed: (gap.missing_genes || []).map is not a function") ]
  /\ analysisResults
       (state (after (handleSearch
                        (Responds (mkResponse true 200 (Normal malformed_results))))
                 sample_world)) = Some malformed_results
  /\ searchHistory
       (state (after (handleSearch
                        (Responds (mkResponse true 200 (Normal malformed_results))))
                 sample_world)) = [].
Proof.
  assert (Hr : rendering_throws malformed_results =
               Some (Error (u16 "(gap.missing_genes || []).map is not a function")))
    by reflexivity.
  split; [exact Hr|].
  unfold new_events, after.
  rewrite (handleSearch_render_failure 200 malformed_results _ sample_world eq_refl Hr).
  repeat split.
Qed.



End Instances.

Section InstallerInstances.
Import Installer.

(** The retry click on the failed wizard ends at step 4 with the retry
    button. *)
Lemma sample_retry_click :
  currentStep (click_next failing_replies failing_replies failed_wizard) = 4
  /\ calls (click_next failing_replies failing_replies failed_wizard) =
       calls failed_wizard ++ new_calls (runInstallation failing_replies) failed_wizard
  /\ (installs failing_replies failed_wizard = false ->
      label (click_next failing_replies failing_replies failed_wizard) = RetryLabel
      /\ disabled (click_next failing_replies failing_replies failed_wizard) = false
      /\ fault (click_next failing_replies failing_replies failed_wizard) <> None).
Proof.
  apply (retry_click_jumps_to_the_last_step failing_replies failing_replies
           failed_wizard); reflexivity.
Defined.

End InstallerInstances.
